(** * moelog: formatters, severity registry, attribute filters and file rollover

    A shallow embedding of [moelog/main.py] and of the parts of Python's
    [logging], [json] and [datetime] modules that it calls, followed by the
    properties of the formatter / level / rollover subsystem.

    Conventions of the embedding:
    - a Python [str] is a [string]; every character is a code point below 256;
    - a Python [int] is a [Z] (a loop counter that starts at 1 is a [nat]);
    - a Python [dict] whose iteration order reaches the output is an
      association list with dict assignment [dict_set]; a [dict] that is only
      looked up and updated is a [gmap];
    - an operation that can raise returns a [result]. *)

From Stdlib Require Import ZArith String Ascii.
From stdpp Require Import gmap strings pretty list.

Local Open Scope string_scope.
Local Open Scope nat_scope.
Local Open Scope list_scope.

(** ** Results of operations that can raise *)

Inductive exn : Type :=
  | TypeError (msg : string)
  | ValueError (msg : string)
  | KeyError (key : string)
  | IndexError (msg : string)
  | Unmodelled (what : string).  (* Python goes on where the model stops *)

Inductive result (A : Type) : Type :=
  | Ok (a : A)
  | Raise (e : exn).
Arguments Ok {A} a.
Arguments Raise {A} e.

Global Instance result_ret : MRet result := λ A a, Ok a.
Global Instance result_bind : MBind result := λ A B k r,
  match r with
  | Ok a => k a
  | Raise e => Raise e
  end.

(** [r] is an exception of Python. *)
Definition raises {A : Type} (r : result A) : Prop :=
  match r with
  | Ok _ | Raise (Unmodelled _) => False
  | Raise _ => True
  end.

(** ** File rollover ([MoeLogger._file_handler], lines 114-128)

    The disk is the finite map from the paths of the regular files to their
    sizes in bytes: [os.path.isfile] is membership, [os.path.getsize] the
    stored size. *)

Definition isfile (fs : gmap string Z) (path : string) : bool :=
  bool_decide (is_Some (fs !! path)).

Definition getsize (fs : gmap string Z) (path : string) : Z :=
  default 0%Z (fs !! path).

(** [os.path.join(logs_dir, name)] with [logs_dir = Path('logs')]. *)
Definition logs_dir : string := "logs".

Definition path_join (dir name : string) : string := dir +:+ "/" +:+ name.

(** [f'{timestamp}.{ext}'] and [f'{timestamp}.{cnt}.{ext}']. *)
Definition dated_name (timestamp ext : string) : string :=
  timestamp +:+ "." +:+ ext.

Definition numbered_name (timestamp : string) (cnt : nat) (ext : string) : string :=
  timestamp +:+ "." +:+ pretty cnt +:+ "." +:+ ext.

(** The [while True] loop of lines 123-128, started at [cnt]; every turn of
    the loop spends one unit of [fuel]. *)
Fixpoint rollover_loop (fs : gmap string Z) (timestamp ext : string)
    (fuel cnt : nat) : option string :=
  match fuel with
  | O => None
  | S fuel' =>
      let log_file := path_join logs_dir (numbered_name timestamp cnt ext) in
      if isfile fs log_file
      then rollover_loop fs timestamp ext fuel' (S cnt)
      else Some log_file
  end.

(** Lines 115-128: the path of the active log file.  The loop is given one
    more unit of fuel than there are files on the disk. *)
Definition active_log_file (fs : gmap string Z) (timestamp : string)
    (max_bytes : Z) : option string :=
  let ext := "log" in
  let log_file := path_join logs_dir (dated_name timestamp ext) in
  if isfile fs log_file && bool_decide (getsize fs log_file > max_bytes)%Z
  then rollover_loop fs timestamp ext (S (size fs)) 1
  else Some log_file.


(** ** Characters and strings

    [str.upper] and [str.lower] on the letters a-z and A-Z; the other
    characters of the model are left as they are. *)

Definition is_lower_letter (c : ascii) : bool :=
  (97 <=? nat_of_ascii c) && (nat_of_ascii c <=? 122).

Definition is_upper_letter (c : ascii) : bool :=
  (65 <=? nat_of_ascii c) && (nat_of_ascii c <=? 90).

Definition upper_char (c : ascii) : ascii :=
  if is_lower_letter c then ascii_of_nat (nat_of_ascii c - 32) else c.

Definition lower_char (c : ascii) : ascii :=
  if is_upper_letter c then ascii_of_nat (nat_of_ascii c + 32) else c.

Fixpoint map_chars (f : ascii → ascii) (s : string) : string :=
  match s with
  | EmptyString => EmptyString
  | String c s' => String (f c) (map_chars f s')
  end.

Definition upper : string → string := map_chars upper_char.
Definition lower : string → string := map_chars lower_char.

(** [needle in haystack] for strings. *)
Fixpoint contains (haystack needle : string) : bool :=
  String.prefix needle haystack ||
  match haystack with
  | EmptyString => false
  | String _ rest => contains rest needle
  end.

(** ** The state of the [logging] module

    What [addLoggingLevel] reads and writes: the attributes of the module
    namespace ([hasattr(logging, ...)], [setattr(logging, ...)]), the
    attributes of the logger class, the two level tables of [addLevelName],
    and the handlers of the root logger (through [logging.debug]). *)

Inductive attr : Type :=
  | AInt (n : Z)                (* a level constant: [logging.TIMER = 55] *)
  | ALogToRoot (levelNum : Z)   (* the closure [logToRoot] of line 203 *)
  | ALogForLevel (levelNum : Z) (* the closure [logForLevel] of line 200 *)
  | AStd.                       (* anything the module defines itself *)

Global Instance attr_eq_dec : EqDecision attr.
Proof. solve_decision. Defined.

Record logging_state : Type := LoggingState {
  module_attrs : gmap string attr;
  logger_class_attrs : gmap string attr;
  levelToName : gmap Z string;
  nameToLevel : gmap string Z;
  root_handlers : nat;
  default_time_format : string;
  default_msec_format : string
}.

Definition std_names (names : list string) : gmap string attr :=
  list_to_map ((λ n, (n, AStd)) <$> names).

(** [logging] as Python 3.11 sets it up on import. *)
Definition logging_initial : logging_state := {|
  module_attrs :=
    {[ "CRITICAL" := AInt 50; "FATAL" := AInt 50; "ERROR" := AInt 40;
       "WARNING" := AInt 30; "WARN" := AInt 30; "INFO" := AInt 20;
       "DEBUG" := AInt 10; "NOTSET" := AInt 0 ]}
    ∪ std_names
      [ "BASIC_FORMAT"; "BufferingFormatter"; "FileHandler"; "Filter";
        "Filterer"; "Formatter"; "GenericAlias"; "Handler"; "LogRecord";
        "Logger"; "LoggerAdapter"; "Manager"; "NullHandler"; "PercentStyle";
        "PlaceHolder"; "RootLogger"; "StrFormatStyle"; "StreamHandler";
        "StringTemplateStyle"; "Template"; "addLevelName"; "atexit";
        "basicConfig"; "captureWarnings"; "collections"; "critical";
        "currentframe"; "debug"; "disable"; "error"; "exception"; "fatal";
        "getLevelName"; "getLevelNamesMapping"; "getLogRecordFactory";
        "getLogger"; "getLoggerClass"; "info"; "io"; "lastResort"; "log";
        "logMultiprocessing"; "logProcesses"; "logThreads"; "makeLogRecord";
        "os"; "raiseExceptions"; "re"; "root"; "setLogRecordFactory";
        "setLoggerClass"; "shutdown"; "sys"; "threading"; "time";
        "traceback"; "warn"; "warning"; "warnings"; "weakref" ];
  logger_class_attrs :=
    std_names
      [ "addFilter"; "addHandler"; "callHandlers"; "critical"; "debug";
        "error"; "exception"; "fatal"; "filter"; "findCaller"; "getChild";
        "getEffectiveLevel"; "handle"; "hasHandlers"; "info"; "isEnabledFor";
        "log"; "makeRecord"; "manager"; "removeFilter"; "removeHandler";
        "root"; "setLevel"; "warn"; "warning" ];
  levelToName :=
    {[ 50%Z := "CRITICAL"; 40%Z := "ERROR"; 30%Z := "WARNING";
       20%Z := "INFO"; 10%Z := "DEBUG"; 0%Z := "NOTSET" ]};
  nameToLevel :=
    {[ "CRITICAL" := 50%Z; "FATAL" := 50%Z; "ERROR" := 40%Z; "WARN" := 30%Z;
       "WARNING" := 30%Z; "INFO" := 20%Z; "DEBUG" := 10%Z; "NOTSET" := 0%Z ]};
  root_handlers := 0;
  default_time_format := "%Y-%m-%d %H:%M:%S";
  default_msec_format := "%s,%03d"
|}.

Definition hasattr (ns : gmap string attr) (name : string) : bool :=
  bool_decide (is_Some (ns !! name)).

(** [logging.debug(msg)]: [basicConfig()] gives the root logger a handler
    when it has none; the message itself goes to the handlers. *)
Definition logging_debug (s : logging_state) : logging_state :=
  if bool_decide (root_handlers s = 0)
  then LoggingState (module_attrs s) (logger_class_attrs s) (levelToName s)
         (nameToLevel s) 1 (default_time_format s) (default_msec_format s)
  else s.

(** [logging.addLevelName(level, levelName)]. *)
Definition addLevelName (level : Z) (levelName : string)
    (s : logging_state) : logging_state :=
  LoggingState (module_attrs s) (logger_class_attrs s)
    (<[level := levelName]> (levelToName s))
    (<[levelName := level]> (nameToLevel s))
    (root_handlers s) (default_time_format s) (default_msec_format s).

Definition setattr_logging (name : string) (a : attr)
    (s : logging_state) : logging_state :=
  LoggingState (<[name := a]> (module_attrs s)) (logger_class_attrs s)
    (levelToName s) (nameToLevel s)
    (root_handlers s) (default_time_format s) (default_msec_format s).

Definition setattr_logger_class (name : string) (a : attr)
    (s : logging_state) : logging_state :=
  LoggingState (module_attrs s) (<[name := a]> (logger_class_attrs s))
    (levelToName s) (nameToLevel s)
    (root_handlers s) (default_time_format s) (default_msec_format s).

(** Lines 187-188: [if not methodName: methodName = levelName.lower()]. *)
Definition method_name (levelName : string) (methodName : option string)
  : string :=
  match methodName with
  | Some m => if bool_decide (m = "") then lower levelName else m
  | None => lower levelName
  end.

(** [MoeLogger.addLoggingLevel] (lines 176-210): the returned flag and the
    state of [logging] after the call. *)
Definition addLoggingLevel (levelName : string) (levelNum : Z)
    (methodName : option string) (s : logging_state) : bool * logging_state :=
  let methodName := method_name levelName methodName in
  if hasattr (module_attrs s) levelName then (false, logging_debug s)
  else if hasattr (module_attrs s) methodName then (false, logging_debug s)
  else if hasattr (logger_class_attrs s) methodName then (false, logging_debug s)
  else
    let s := addLevelName levelNum levelName s in
    let s := setattr_logging levelName (AInt levelNum) s in
    let s := setattr_logger_class methodName (ALogForLevel levelNum) s in
    let s := setattr_logging methodName (ALogToRoot levelNum) s in
    (true, s).

(** The part of the state that the registration is about: the two level
    tables and the attributes installed on the module and on the class. *)
Definition registry (s : logging_state)
  : gmap string Z * gmap Z string * gmap string attr * gmap string attr :=
  (nameToLevel s, levelToName s, module_attrs s, logger_class_attrs s).

(** The states of [logging] that the facade leads to: it registers
    severities, sets the time formats of [logging.Formatter] and installs
    handlers on the root logger. *)
Inductive reachable : logging_state → Prop :=
  | reachable_initial : reachable logging_initial
  | reachable_add levelName levelNum methodName s :
      reachable s →
      reachable (addLoggingLevel levelName levelNum methodName s).2
  | reachable_configure handlers time_format msec_format s :
      reachable s →
      reachable (LoggingState (module_attrs s) (logger_class_attrs s)
                   (levelToName s) (nameToLevel s) handlers
                   time_format msec_format).

(** Every name of the name-to-rank table is an attribute of the module: the
    test [hasattr(logging, levelName)] sees every registered severity. *)
Definition names_are_attrs (s : logging_state) : Prop :=
  dom (nameToLevel s) ⊆ dom (module_attrs s).

(** ** Python values

    The values of record attributes and of message arguments: [None],
    booleans, integers and strings. *)

Inductive pyval : Type :=
  | PNone
  | PBool (b : bool)
  | PInt (n : Z)
  | PStr (s : string).

Global Instance pyval_eq_dec : EqDecision pyval.
Proof. solve_decision. Defined.

(** [str(v)]. *)
Definition py_str (v : pyval) : string :=
  match v with
  | PNone => "None"
  | PBool true => "True"
  | PBool false => "False"
  | PInt n => pretty n
  | PStr s => s
  end.

(** Truth value of [v], as [if v:] tests it. *)
Definition truthy (v : pyval) : bool :=
  match v with
  | PNone => false
  | PBool b => b
  | PInt n => negb (n =? 0)%Z
  | PStr s => negb (String.eqb s "")
  end.

Fixpoint repeat_char (c : ascii) (n : nat) : string :=
  match n with
  | O => EmptyString
  | S n' => String c (repeat_char c n')
  end.

(** ** printf-style formatting: [format % args]

    The conversion specifier is [%], an optional mapping key in parentheses,
    flags, a minimum width, a length modifier and the conversion type.  The
    model converts with [s], [d], [i] and [u], the flags [-] and [0] and a
    literal width; where Python does more (other flags, [*], a precision,
    the remaining conversion types) the model stops with [Unmodelled]. *)

Inductive fmt_args : Type :=
  | Positional (values : list pyval)
  | Mapping (lookup : string → result pyval).

Record conv_spec : Type := ConvSpec {
  sp_key : option string;
  sp_minus : bool;
  sp_zero : bool;
  sp_width : nat
}.

Inductive fmt_state : Type :=
  | SLit                              (* outside a specifier *)
  | SStart                            (* just after [%] *)
  | SKey (depth : nat) (acc : string) (* inside the parentheses of a key *)
  | SFlags (sp : conv_spec)
  | SWidth (sp : conv_spec)
  | SType (sp : conv_spec).           (* after the length modifier *)

Inductive fmt_step : Type :=
  | Next (st : fmt_state)
  | Emit (text : string) (rest : fmt_args)
  | Fail (e : exn).

Definition is_digit (c : ascii) : bool :=
  (48 <=? nat_of_ascii c) && (nat_of_ascii c <=? 57).

Definition digit_value (c : ascii) : nat := nat_of_ascii c - 48.

Definition char_in (c : ascii) (set : string) : bool :=
  contains set (String c EmptyString).

(** Minimum width: [-] pads on the right, [0] (numbers only, unless [-])
    puts zeros after the sign, otherwise spaces go on the left. *)
Definition pad (sp : conv_spec) (numeric : bool) (text : string) : string :=
  let fill := sp_width sp - String.length text in
  if sp_minus sp then text +:+ repeat_char " " fill
  else if sp_zero sp && numeric then
    match text with
    | String "-" digits => String "-" (repeat_char "0" fill +:+ digits)
    | _ => repeat_char "0" fill +:+ text
    end
  else repeat_char " " fill +:+ text.

(** The argument of a conversion: the value under the key, or the next
    positional one. *)
Definition next_arg (sp : conv_spec) (args : fmt_args)
  : result (pyval * fmt_args) :=
  match sp_key sp, args with
  | Some key, Mapping lookup => v ← lookup key; Ok (v, args)
  | Some _, Positional _ => Raise (TypeError "format requires a mapping")
  | None, Positional (v :: values) => Ok (v, Positional values)
  | None, Positional [] =>
      Raise (TypeError "not enough arguments for format string")
  | None, Mapping _ => Raise (Unmodelled "the mapping itself as argument")
  end.

Definition convert (sp : conv_spec) (c : ascii) (args : fmt_args) : fmt_step :=
  match next_arg sp args with
  | Raise e => Fail e
  | Ok (v, rest) =>
      if char_in c "s" then Emit (pad sp false (py_str v)) rest
      else if char_in c "diu" then
        match v with
        | PInt n => Emit (pad sp true (pretty n)) rest
        | PBool b => Emit (pad sp true (if b then "1" else "0")) rest
        | _ => Fail (TypeError "%d format: a real number is required")
        end
      else if char_in c "oxXeEfFgGcra" then
        Fail (Unmodelled "conversion type")
      else Fail (ValueError "unsupported format character")
  end.

Definition step_length (sp : conv_spec) (c : ascii) (args : fmt_args)
  : fmt_step :=
  if char_in c "hlL" then Next (SType sp) else convert sp c args.

Definition step_precision (sp : conv_spec) (c : ascii) (args : fmt_args)
  : fmt_step :=
  if char_in c "." then Fail (Unmodelled "precision")
  else step_length sp c args.

Definition step_width (sp : conv_spec) (c : ascii) (args : fmt_args)
  : fmt_step :=
  if is_digit c
  then Next (SWidth (ConvSpec (sp_key sp) (sp_minus sp) (sp_zero sp)
                       (10 * sp_width sp + digit_value c)))
  else step_precision sp c args.

Definition step_flags (sp : conv_spec) (c : ascii) (args : fmt_args)
  : fmt_step :=
  if char_in c "-"
  then Next (SFlags (ConvSpec (sp_key sp) true (sp_zero sp) (sp_width sp)))
  else if char_in c "0"
  then Next (SFlags (ConvSpec (sp_key sp) (sp_minus sp) true (sp_width sp)))
  else if char_in c "+ #" then Fail (Unmodelled "flag")
  else if char_in c "*" then Fail (Unmodelled "width from the arguments")
  else step_width sp c args.

Definition step_key (depth : nat) (acc : string) (c : ascii) : fmt_step :=
  if char_in c ")" then
    match depth with
    | 1 => Next (SFlags (ConvSpec (Some acc) false false 0))
    | _ => Next (SKey (depth - 1) (acc +:+ String c ""))
    end
  else if char_in c "(" then Next (SKey (S depth) (acc +:+ String c ""))
  else Next (SKey depth (acc +:+ String c "")).

Definition fmt_step_char (st : fmt_state) (c : ascii) (args : fmt_args)
  : fmt_step :=
  match st with
  | SLit => if char_in c "%" then Next SStart else Emit (String c "") args
  | SStart =>
      if char_in c "%" then Emit "%" args
      else if char_in c "(" then
        match args with
        | Mapping _ => Next (SKey 1 "")
        | Positional _ => Fail (TypeError "format requires a mapping")
        end
      else step_flags (ConvSpec None false false 0) c args
  | SKey depth acc => step_key depth acc c
  | SFlags sp => step_flags sp c args
  | SWidth sp => step_width sp c args
  | SType sp => convert sp c args
  end.

Fixpoint format_from (fmt : string) (st : fmt_state) (args : fmt_args)
  : result string :=
  match fmt with
  | EmptyString =>
      match st, args with
      | SLit, Positional (_ :: _) =>
          Raise (TypeError
                   "not all arguments converted during string formatting")
      | SLit, _ => Ok ""
      | SKey _ _, _ => Raise (ValueError "incomplete format key")
      | _, _ => Raise (ValueError "incomplete format")
      end
  | String c fmt' =>
      match fmt_step_char st c args with
      | Next st' => format_from fmt' st' args
      | Emit text rest => tail ← format_from fmt' SLit rest; Ok (text +:+ tail)
      | Fail e => Raise e
      end
  end.

(** [fmt % args]. *)
Definition percent_format (fmt : string) (args : fmt_args) : result string :=
  format_from fmt SLit args.

(** ** Dates and times

    [record.created] is the creation time in microseconds since the epoch
    (the resolution of [datetime]); [tz] gives the offset of local time
    from UTC, in seconds, at a given second of the epoch. *)

Record datetime : Type := DateTime {
  year : Z; month : Z; day : Z;
  hour : Z; minute : Z; second : Z; microsecond : Z
}.

(** Civil date of a day number counted from 1970-01-01, in the proleptic
    Gregorian calendar. *)
Definition civil_from_days (days : Z) : Z * Z * Z :=
  let z := (days + 719468)%Z in
  let era := (z / 146097)%Z in
  let doe := (z - era * 146097)%Z in
  let yoe := ((doe - doe / 1460 + doe / 36524 - doe / 146096) / 365)%Z in
  let doy := (doe - (365 * yoe + yoe / 4 - yoe / 100))%Z in
  let mp := ((5 * doy + 2) / 153)%Z in
  let d := (doy - (153 * mp + 2) / 5 + 1)%Z in
  let m := (if (mp <? 10)%Z then mp + 3 else mp - 9)%Z in
  let y := (yoe + era * 400 + (if (m <=? 2)%Z then 1 else 0))%Z in
  (y, m, d).

(** [datetime.fromtimestamp(created)]: naive local time. *)
Definition fromtimestamp (tz : Z → Z) (created : Z) : datetime :=
  let secs := (created / 1000000)%Z in
  let local := (secs + tz secs)%Z in
  let '(y, m, d) := civil_from_days (local / 86400) in
  let sod := (local mod 86400)%Z in
  DateTime y m d (sod / 3600) (sod mod 3600 / 60) (sod mod 60)
    (created mod 1000000).

(** ["%0<width>d" % n]. *)
Definition zero_padded (width : nat) (n : Z) : string :=
  pad (ConvSpec None false true width) true (pretty n).

(** [datetime.isoformat()] of a naive datetime: the fraction is printed,
    with six digits, only when the microsecond is not zero. *)
Definition isoformat (dt : datetime) : string :=
  zero_padded 4 (year dt) +:+ "-" +:+ zero_padded 2 (month dt) +:+ "-"
  +:+ zero_padded 2 (day dt) +:+ "T" +:+ zero_padded 2 (hour dt) +:+ ":"
  +:+ zero_padded 2 (minute dt) +:+ ":" +:+ zero_padded 2 (second dt)
  +:+ (if (microsecond dt =? 0)%Z then ""
       else "." +:+ zero_padded 6 (microsecond dt)).

(** The slice [s[:-n]]. *)
Definition drop_last (n : nat) (s : string) : string :=
  String.substring 0 (String.length s - n) s.

(** [time.strftime(format, t)] with the directives [%Y %m %d %H %M %S %%]
    (the year as the C library prints it, without padding). *)
Fixpoint strftime_from (format : string) (directive : bool) (t : datetime)
  : result string :=
  match format with
  | EmptyString => Ok (if directive then "%" else "")
  | String c format' =>
      if directive then
        piece ←
          (if char_in c "Y" then Ok (pretty (year t))
           else if char_in c "m" then Ok (zero_padded 2 (month t))
           else if char_in c "d" then Ok (zero_padded 2 (day t))
           else if char_in c "H" then Ok (zero_padded 2 (hour t))
           else if char_in c "M" then Ok (zero_padded 2 (minute t))
           else if char_in c "S" then Ok (zero_padded 2 (second t))
           else if char_in c "%" then Ok "%"
           else Raise (Unmodelled "strftime directive"));
        tail ← strftime_from format' false t;
        Ok (piece +:+ tail)
      else if char_in c "%" then strftime_from format' true t
      else tail ← strftime_from format' false t; Ok (String c tail)
  end.

Definition strftime (format : string) (t : datetime) : result string :=
  strftime_from format false t.

(** ** Log records

    The attributes of a [logging.LogRecord] that the formatters read, with
    their types; [extra] holds the other entries of [record.__dict__]: the
    remaining standard attributes with a string or an integer
    ([pathname], [filename], [module], [thread], [threadName], [process],
    [processName]) and the attributes that filters attach.  [exc_info],
    when present, stands for the text [formatException] makes of it. *)

Record LogRecord : Type := MakeLogRecord {
  name : string;
  levelname : string;
  levelno : Z;
  funcName : string;
  lineno : Z;
  msg : string;
  args : list pyval;
  created : Z;
  exc_info : option string;
  exc_text : option string;
  stack_info : option string;
  extra : gmap string pyval
}.

(** [LogRecord.getMessage]: [msg % args] when there are arguments. *)
Definition getMessage (r : LogRecord) : result string :=
  match args r with
  | [] => Ok (msg r)
  | _ :: _ => percent_format (msg r) (Positional (args r))
  end.

Definition opt_str (o : option string) : pyval :=
  match o with
  | Some s => PStr s
  | None => PNone
  end.

(** The attributes of every record whose values are floats, tuples or
    objects: they are present, and outside the values of the model. *)
Definition unmodelled_instance_attrs : list string :=
  [ "args"; "created"; "msecs"; "relativeCreated"; "exc_info" ].

Definition class_attrs : list string :=
  [ "getMessage"; "__class__"; "__delattr__"; "__dict__"; "__dir__";
    "__doc__"; "__eq__"; "__format__"; "__ge__"; "__getattribute__";
    "__getstate__"; "__gt__"; "__hash__"; "__init__"; "__init_subclass__";
    "__le__"; "__lt__"; "__module__"; "__ne__"; "__new__"; "__reduce__";
    "__reduce_ex__"; "__repr__"; "__setattr__"; "__sizeof__"; "__str__";
    "__subclasshook__"; "__weakref__" ].

(** The typed attributes, by name. *)
Definition typed_attr (r : LogRecord) (key : string) : option pyval :=
  if String.eqb key "name" then Some (PStr (name r))
  else if String.eqb key "levelname" then Some (PStr (levelname r))
  else if String.eqb key "levelno" then Some (PInt (levelno r))
  else if String.eqb key "funcName" then Some (PStr (funcName r))
  else if String.eqb key "lineno" then Some (PInt (lineno r))
  else if String.eqb key "msg" then Some (PStr (msg r))
  else if String.eqb key "exc_text" then Some (opt_str (exc_text r))
  else if String.eqb key "stack_info" then Some (opt_str (stack_info r))
  else None.

(** [key in record.__dict__] and [hasattr(record, key)]. *)
Definition in_dict (r : LogRecord) (key : string) : bool :=
  bool_decide (is_Some (typed_attr r key))
  || bool_decide (key ∈ unmodelled_instance_attrs)
  || bool_decide (is_Some (extra r !! key)).


(** [record.__dict__[key]]. *)
Definition dict_item (r : LogRecord) (key : string) : result pyval :=
  match typed_attr r key with
  | Some v => Ok v
  | None =>
      if bool_decide (key ∈ unmodelled_instance_attrs)
      then Raise (Unmodelled "attribute value")
      else match extra r !! key with
           | Some v => Ok v
           | None => Raise (KeyError key)
           end
  end.

(** [getattr(record, key, default)]. *)
Definition getattr_default (r : LogRecord) (key : string) (default : pyval)
  : result pyval :=
  match dict_item r key with
  | Raise (KeyError _) =>
      if bool_decide (key ∈ class_attrs)
      then Raise (Unmodelled "attribute value")
      else Ok default
  | other => other
  end.

Definition as_str (v : pyval) : result string :=
  match v with
  | PStr s => Ok s
  | _ => Raise (Unmodelled "attribute value")
  end.

Definition as_int (v : pyval) : result Z :=
  match v with
  | PInt n => Ok n
  | _ => Raise (Unmodelled "attribute value")
  end.

Definition as_opt_str (v : pyval) : result (option string) :=
  match v with
  | PStr s => Ok (Some s)
  | PNone => Ok None
  | _ => Raise (Unmodelled "attribute value")
  end.

(** [record.__setattr__(key, value)]; a typed attribute takes a value of its
    type. *)
Definition setattr_record (key : string) (value : pyval) (r : LogRecord)
  : result LogRecord :=
  let str := as_str in
  let int := as_int in
  let opt := as_opt_str in
  let other := Raise (Unmodelled "attribute value") in
  if String.eqb key "name" then
    s ← str value;
    Ok (MakeLogRecord s (levelname r) (levelno r) (funcName r) (lineno r)
          (msg r) (args r) (created r) (exc_info r) (exc_text r)
          (stack_info r) (extra r))
  else if String.eqb key "levelname" then
    s ← str value;
    Ok (MakeLogRecord (name r) s (levelno r) (funcName r) (lineno r)
          (msg r) (args r) (created r) (exc_info r) (exc_text r)
          (stack_info r) (extra r))
  else if String.eqb key "levelno" then
    n ← int value;
    Ok (MakeLogRecord (name r) (levelname r) n (funcName r) (lineno r)
          (msg r) (args r) (created r) (exc_info r) (exc_text r)
          (stack_info r) (extra r))
  else if String.eqb key "funcName" then
    s ← str value;
    Ok (MakeLogRecord (name r) (levelname r) (levelno r) s (lineno r)
          (msg r) (args r) (created r) (exc_info r) (exc_text r)
          (stack_info r) (extra r))
  else if String.eqb key "lineno" then
    n ← int value;
    Ok (MakeLogRecord (name r) (levelname r) (levelno r) (funcName r) n
          (msg r) (args r) (created r) (exc_info r) (exc_text r)
          (stack_info r) (extra r))
  else if String.eqb key "msg" then
    s ← str value;
    Ok (MakeLogRecord (name r) (levelname r) (levelno r) (funcName r)
          (lineno r) s (args r) (created r) (exc_info r) (exc_text r)
          (stack_info r) (extra r))
  else if String.eqb key "exc_text" then
    o ← opt value;
    Ok (MakeLogRecord (name r) (levelname r) (levelno r) (funcName r)
          (lineno r) (msg r) (args r) (created r) (exc_info r) o
          (stack_info r) (extra r))
  else if String.eqb key "stack_info" then
    o ← opt value;
    Ok (MakeLogRecord (name r) (levelname r) (levelno r) (funcName r)
          (lineno r) (msg r) (args r) (created r) (exc_info r) (exc_text r)
          o (extra r))
  else if bool_decide (key ∈ unmodelled_instance_attrs) then other
  else
    Ok (MakeLogRecord (name r) (levelname r) (levelno r) (funcName r)
          (lineno r) (msg r) (args r) (created r) (exc_info r) (exc_text r)
          (stack_info r) (<[key := value]> (extra r))).

(** ** [logging.Formatter] with the [%] style *)

(** [\w], for the characters of the model that are letters, digits or the
    underscore in ASCII. *)
Definition is_word_char (c : ascii) : bool :=
  is_lower_letter c || is_upper_letter c || is_digit c || char_in c "_".

Fixpoint skip_while (p : ascii → bool) (s : string) : string :=
  match s with
  | String c s' => if p c then skip_while p s' else s
  | EmptyString => s
  end.

(** One conversion specifier with a key at the head of [s], as
    [PercentStyle.validation_pattern] describes it (case is ignored). *)
Definition spec_at_head (s : string) : bool :=
  match s with
  | String "%" (String "(" (String c s1)) =>
      is_word_char c &&
      match skip_while is_word_char s1 with
      | String ")" s2 =>
          let s3 := skip_while (λ c, char_in c "#0+ -") s2 in
          let s4 := match s3 with
                    | String "*" s' => s'
                    | _ => skip_while is_digit s3
                    end in
          let s5 := match s4 with
                    | String "." (String "*" s') => s'
                    | String "." (String d s') =>
                        if is_digit d then skip_while is_digit s' else s4
                    | _ => s4
                    end in
          match s5 with
          | String t _ => char_in (lower_char t) "diouxefgcrsa%"
          | EmptyString => false
          end
      | _ => false
      end
  | _ => false
  end.

(** [validation_pattern.search(fmt)]. *)
Fixpoint has_valid_spec (fmt : string) : bool :=
  spec_at_head fmt ||
  match fmt with
  | String _ fmt' => has_valid_spec fmt'
  | EmptyString => false
  end.

(** [PercentStyle.usesTime]. *)
Definition usesTime (fmt : string) : bool := contains fmt "%(asctime)".

(** [Formatter.formatTime(record)] without [datefmt]: the class defaults
    [default_time_format] and [default_msec_format]; [msecs] is the
    millisecond part of [created]. *)
Definition formatTime (tz : Z → Z) (s : logging_state) (r : LogRecord)
  : result string :=
  t ← strftime (default_time_format s) (fromtimestamp tz (created r));
  if String.eqb (default_msec_format s) "" then Ok t
  else percent_format (default_msec_format s)
         (Positional [PStr t; PInt (created r mod 1000000 / 1000)]).

(** [record.__dict__] once [Formatter.format] has stored [message] and,
    when the format uses the time, [asctime]. *)
Definition formatted_dict (r : LogRecord) (message : string)
    (asctime : option string) (key : string) : result pyval :=
  if String.eqb key "message" then Ok (PStr message)
  else match asctime with
       | Some t => if String.eqb key "asctime" then Ok (PStr t)
                   else dict_item r key
       | None => dict_item r key
       end.

(** [PercentStyle.format]: a missing key is reported as a [ValueError]. *)
Definition style_format (fmt : string) (values : string → result pyval)
  : result string :=
  match percent_format fmt (Mapping values) with
  | Raise (KeyError key) =>
      Raise (ValueError ("Formatting field not found in record: '" +:+ key
                         +:+ "'"))
  | other => other
  end.

Definition ends_with_newline (s : string) : bool :=
  String.eqb (String.substring (String.length s - 1) 1 s) (String "010" "").

Definition append_block (s : string) (block : option string) : string :=
  match block with
  | Some text =>
      if String.eqb text "" then s
      else (if ends_with_newline s then s else s +:+ String "010" "") +:+ text
  | None => s
  end.

(** [logging.Formatter(fmt).format(record)]: the constructor validates the
    format, then [format] renders the message, the time, the format and
    the exception and stack texts. *)
Definition Formatter_format (tz : Z → Z) (s : logging_state) (fmt : string)
    (r : LogRecord) : result string :=
  if negb (has_valid_spec fmt)
  then Raise (ValueError "Invalid format for '%' style")
  else
    message ← getMessage r;
    asctime ← (if usesTime fmt
               then t ← formatTime tz s r; Ok (Some t)
               else Ok None);
    text ← style_format fmt (formatted_dict r message asctime);
    let cached :=
      match exc_info r, exc_text r with
      | Some traceback, None => Some traceback
      | Some traceback, Some "" => Some traceback
      | _, cached => cached
      end in
    Ok (append_block (append_block text cached) (stack_info r)).

(** ** [json.dumps] of a dictionary with string keys

    Strings are escaped as [ensure_ascii=True] does: the quote, the
    backslash and the control characters with a short escape get it, every
    other character outside [' '..'~'] becomes [\u00XX]. *)

Definition dquote : ascii := "034".
Definition newline : ascii := "010".

Definition hex_digit (n : nat) : ascii :=
  if n <? 10 then ascii_of_nat (48 + n) else ascii_of_nat (87 + n).

Definition escape_char (c : ascii) : string :=
  let n := nat_of_ascii c in
  if n =? 34 then String "\" (String dquote "")
  else if n =? 92 then "\\"
  else if n =? 8 then "\b"
  else if n =? 12 then "\f"
  else if n =? 10 then "\n"
  else if n =? 13 then "\r"
  else if n =? 9 then "\t"
  else if (n <? 32) || (126 <? n)
  then "\u00" +:+ String (hex_digit (n / 16)) (String (hex_digit (n mod 16)) "")
  else String c "".

Fixpoint escape (s : string) : string :=
  match s with
  | EmptyString => EmptyString
  | String c s' => escape_char c +:+ escape s'
  end.

Definition json_string (s : string) : string :=
  String dquote (escape s +:+ String dquote "").

Definition json_value (v : pyval) : string :=
  match v with
  | PNone => "null"
  | PBool true => "true"
  | PBool false => "false"
  | PInt n => pretty n
  | PStr s => json_string s
  end.

Fixpoint str_join (sep : string) (items : list string) : string :=
  match items with
  | [] => ""
  | [x] => x
  | x :: rest => x +:+ sep +:+ str_join sep rest
  end.

(** [json.dumps(d, indent=indent, separators=(item_sep, key_sep))] for a
    dictionary [d] of strings to values; without [indent] everything is on
    one line. *)
Definition json_dumps (indent : option nat) (item_sep key_sep : string)
    (d : list (string * pyval)) : string :=
  match d with
  | [] => "{}"
  | _ =>
      let newline_indent :=
        match indent with
        | Some n => String newline (repeat_char " " n)
        | None => ""
        end in
      let item kv := json_string kv.1 +:+ key_sep +:+ json_value kv.2 in
      "{" +:+ newline_indent
      +:+ str_join (item_sep +:+ newline_indent) (item <$> d)
      +:+ (match indent with Some _ => String newline "" | None => "" end)
      +:+ "}"
  end.

(** [d[key] = value] on a dictionary in insertion order: a key that is
    there keeps its place. *)
Fixpoint dict_set {V : Type} (key : string) (value : V)
    (d : list (string * V)) : list (string * V) :=
  match d with
  | [] => [(key, value)]
  | (k, v) :: d' =>
      if String.eqb k key then (k, value) :: d'
      else (k, v) :: dict_set key value d'
  end.

(** ** [JSONFormatter] (lines 54-69) *)

Module JSONFormatter.

(** Lines 59-68: the dictionary [_logging_fields] handed to [json.dumps].
    [logging_fields] is the caller's dictionary, field name to source
    attribute, in insertion order. *)
Definition fields (tz : Z → Z) (logging_fields : list (string * string))
    (record : LogRecord) : result (list (string * pyval)) :=
  rendered ← getMessage record;
  let message :=
    "[" +:+ name record +:+ " | " +:+ funcName record +:+ " | LN"
    +:+ pretty (lineno record) +:+ "]: " +:+ rendered in
  let date_time := fromtimestamp tz (created record) in
  let isoformat := drop_last 3 (isoformat date_time) +:+ "Z" in
  let _logging_fields := dict_set "@timestamp" (PStr isoformat) [] in
  let _logging_fields := dict_set "log.level" (PStr (levelname record))
                           _logging_fields in
  let _logging_fields := dict_set "message" (PStr message)
                           _logging_fields in
  foldl (λ acc kv,
           d ← acc;
           if negb (String.eqb kv.2 "")
           then v ← getattr_default record kv.2 (PStr ""); Ok (dict_set kv.1 v d)
           else Ok d)
        (Ok _logging_fields) logging_fields.

(** [JSONFormatter.format]. *)
Definition format (tz : Z → Z) (logging_fields : list (string * string))
    (record : LogRecord) : result string :=
  d ← fields tz logging_fields record;
  Ok (json_dumps None ", " ": " d).

End JSONFormatter.

(** ** [ConsoleFormatter] (lines 12-52)

    [ft text color] is [FormatText(text, color).text] of the colour
    library. *)

Definition list_item (l : list string) (i : nat) : result string :=
  match l !! i with
  | Some x => Ok x
  | None => Raise (IndexError "list index out of range")
  end.

Module ConsoleFormatter.

Record t : Type := Make {
  levels : gmap string (list string);
  colors : list string;
  cfmt : bool;
  asctime : string;
  base_attr : string;
  message : string
}.

Definition level_colors : gmap string (list string) :=
  {[ "DEBUG" := ["yellow"; "#fff9ae"];
     "INFO" := ["green"; "#d3ffb3"];
     "WARNING" := ["orange"; "#ffc100"];
     "TIMER" := ["blue"; "#71c7ec"];
     "ERROR" := ["red"; "#ba262b"];
     "CRITICAL" := ["#8d0101"; "#d5212e"];
     "APP_INFO" := ["#5fd700"; "#5fffaf"] ]}.

Section with_colour_library.
Variable ft : string → string → string.

(** [ConsoleFormatter(cfmt=cfmt, colors=colors)]. *)
Definition init (cfmt : string) (colors : list string) : t :=
  if negb (String.eqb cfmt "")
  then Make level_colors colors true "[ " (" " +:+ upper cfmt +:+ " ")
         " %(message)s"
  else Make level_colors [] false ("[ " +:+ ft "%(asctime)s" "purple")
         " | %(name)s | %(funcName)s | LN%(lineno)d | %(levelname)s"
         " %(message)s".

(** [get_format(level, field)]; an absent or empty [field] is false. *)
Definition get_format (self : t) (level : string) (field : option string)
  : result string :=
  let '(attr_format, colors) :=
    if cfmt self then (base_attr self, colors self)
    else
      (match field with
       | Some f => if String.eqb f "" then base_attr self
                   else " | %(" +:+ f +:+ ")s" +:+ base_attr self
       | None => base_attr self
       end,
       default [] (levels self !! level)) in
  match colors with
  | _ :: _ =>
      c0 ← list_item colors 0;
      let label := ft attr_format c0 in
      c1 ← list_item colors 1;
      Ok (asctime self +:+ label +:+ " ] " +:+ ft (message self) c1)
  | [] => Ok (asctime self +:+ attr_format +:+ " ] " +:+ message self)
  end.

(** [format(record)]: a [logging.Formatter] is built on the format of
    the record's level. *)
Definition format (tz : Z → Z) (s : logging_state) (self : t)
    (record : LogRecord) : result string :=
  _format ← get_format self (levelname record) None;
  Formatter_format tz s _format record.

End with_colour_library.

End ConsoleFormatter.

(** ** [ExtraAttributes] (lines 71-79)

    A filter object is its dictionary [extra_attr]. *)

Fixpoint dict_get {V : Type} (key : string) (d : list (string * V))
  : option V :=
  match d with
  | [] => None
  | (k, v) :: d' => if String.eqb k key then Some v else dict_get key d'
  end.

Module ExtraAttributes.

(** [filter(record)]: every attribute is set on the record. *)
Definition filter (extra_attr : list (string * pyval)) (record : LogRecord)
  : result LogRecord :=
  foldl (λ acc kv, r ← acc; setattr_record kv.1 kv.2 r) (Ok record)
    extra_attr.

End ExtraAttributes.

(** ** [MoeLogger] (lines 81-174)

    The handlers hold references into [heap], the store of the filter
    objects: a filter attached to both handlers is one object. *)

Inductive formatter : Type :=
  | NoFormatter
  | Console (f : ConsoleFormatter.t)
  | Structured (logging_fields : list (string * string))
  | Percent (fmt : string).

Record Handler : Type := MakeHandler {
  handler_formatter : formatter;
  handler_level : Z;
  filters : list nat;
  baseFilename : option string
}.

Record process : Type := MakeProcess {
  logging : logging_state;
  disk : gmap string Z;
  utcnow : Z;
  heap : list (list (string * pyval))
}.

(** [logging._checkLevel(level)] for a level name. *)
Definition checkLevel (s : logging_state) (level : string) : result Z :=
  match nameToLevel s !! level with
  | Some rv => Ok rv
  | None => Raise (ValueError "Unknown level")
  end.

(** [Filterer.addFilter]. *)
Definition addFilter (h : Handler) (f : nat) : Handler :=
  if bool_decide (f ∈ filters h) then h
  else MakeHandler (handler_formatter h) (handler_level h) (filters h ++ [f])
         (baseFilename h).

Module MoeLogger.

Record t : Type := Make {
  json_format : bool;
  level : string;
  max_bytes : Z;
  log_to_file : bool;
  file_handler : option Handler;
  console_handler : Handler;
  logging_fields : list (string * string)
}.

Definition recognized_levels : list string :=
  ["DEBUG"; "INFO"; "ERROR"; "WARN"; "WARNING"; "CRITICAL"; "FATAL"].

(** The template of the file formatter (lines 131-133). *)
Definition file_format : string :=
  json_dumps (Some 4) "," ":"
    [ ("@timestamp", PStr "%(asctime)s");
      ("app.name", PStr "%(app_name)s");
      ("log.level", PStr "%(levelname)s");
      ("message",
       PStr "[%(name)s | %(funcName)s | LN%(lineno)d]: %(message)s") ].

Section with_colour_library.
Variable ft : string → string → string.

(** Lines 107-112. *)
Definition _console_handler (self : t) (p : process) : result (t * process) :=
  let _console_formatter :=
    if json_format self then Structured (logging_fields self)
    else Console (ConsoleFormatter.init ft "" []) in
  let level :=
    if bool_decide (level self ∈ recognized_levels) then level self
    else "WARNING" in
  rv ← checkLevel (logging p) level;
  let h := MakeHandler _console_formatter rv
             (filters (console_handler self))
             (baseFilename (console_handler self)) in
  Ok (Make (json_format self) level (max_bytes self) (log_to_file self)
        (file_handler self) h (logging_fields self), p).

(** Lines 114-137: the active file is chosen, opened for appending
    (which creates it) and given the JSON-shaped template. *)
Definition _file_handler (self : t) (p : process) : result (t * process) :=
  timestamp ← strftime "%Y-%m-%d" (fromtimestamp (λ _, 0%Z) (utcnow p));
  match active_log_file (disk p) timestamp (max_bytes self) with
  | None => Raise (Unmodelled "the loop ran out of fuel")
  | Some log_file =>
      let h := MakeHandler (Percent file_format) 30 [] (Some log_file) in
      let disk' := if isfile (disk p) log_file then disk p
                   else <[log_file := 0%Z]> (disk p) in
      Ok (Make (json_format self) (level self) (max_bytes self)
            (log_to_file self) (Some h) (console_handler self)
            (logging_fields self),
          MakeProcess (logging p) disk' (utcnow p) (heap p))
  end.

(** Lines 139-143: a new filter object, attached to the console handler
    and, when there is one, to the file handler. *)
Definition _add_filter (kwargs : list (string * pyval)) (self : t)
    (p : process) : t * process :=
  let _filter := length (heap p) in
  (Make (json_format self) (level self) (max_bytes self)
     (log_to_file self)
     (match file_handler self with
      | Some h => Some (addFilter h _filter)
      | None => None
      end)
     (addFilter (console_handler self) _filter)
     (logging_fields self),
   MakeProcess (logging p) (disk p) (utcnow p) (heap p ++ [kwargs])).

(** The loop of lines 149-154: the first filter whose value for [field]
    is not [None]. *)
Fixpoint first_declaring (heap : list (list (string * pyval)))
    (field : string) (filters : list nat) : option nat :=
  match filters with
  | [] => None
  | f :: rest =>
      match heap !! f ≫= dict_get field with
      | Some PNone | None => first_declaring heap field rest
      | Some _ => Some f
      end
  end.

(** Lines 145-157. *)
Definition _update_filter (kwargs : list (string * pyval)) (self : t)
    (p : process) : result (t * process) :=
  match kwargs with
  | [] => Raise (IndexError "tuple index out of range")
  | (field, value) :: _ =>
      match first_declaring (heap p) field (filters (console_handler self))
      with
      | Some f =>
          Ok (self,
              MakeProcess (logging p) (disk p) (utcnow p)
                (alter (dict_set field value) f (heap p)))
      | None => Ok (_add_filter kwargs self p)
      end
  end.

(** Lines 173-174. *)
Definition update_filter (kwargs : list (string * pyval)) (self : t)
    (p : process) : result (t * process) :=
  _update_filter kwargs self p.

(** Lines 159-162: [logging.basicConfig] installs the handlers when the
    root logger has none. *)
Definition setup_logger (self : t) (p : process) : process :=
  let s := logging p in
  let handlers := match file_handler self with
                  | Some _ => 2
                  | None => 1
                  end in
  if bool_decide (root_handlers s = 0)
  then MakeProcess
         (LoggingState (module_attrs s) (logger_class_attrs s)
            (levelToName s) (nameToLevel s) handlers
            (default_time_format s) (default_msec_format s))
         (disk p) (utcnow p) (heap p)
  else p.

(** Lines 164-171. *)
Definition configure_logging (self : t) (p : process)
  : result (t * process) :=
  let s := (addLoggingLevel "TIMER" (50 + 5) None (logging p)).2 in
  let s := (addLoggingLevel "APP_INFO" (50 + 6) None s).2 in
  let s := LoggingState (module_attrs s) (logger_class_attrs s)
             (levelToName s) (nameToLevel s) (root_handlers s)
             "%Y-%m-%dT%H:%M:%S" "%s.%03dZ" in
  let p := MakeProcess s (disk p) (utcnow p) (heap p) in
  '(self, p) ← (if log_to_file self then _file_handler self p
                else Ok (self, p));
  _console_handler self p.

(** Lines 82-93: [MoeLogger(json_format, log_level, logging_fields,
    log_to_file, max_bytes)]. *)
Definition init (json_format : bool) (log_level : string)
    (logging_fields : list (string * string)) (log_to_file : bool)
    (max_bytes : Z) (p : process) : result (t * process) :=
  let self := Make json_format (upper log_level) max_bytes log_to_file
                None (MakeHandler NoFormatter 0 [] None) logging_fields in
  '(self, p) ← configure_logging self p;
  Ok (self, setup_logger self p).

End with_colour_library.

End MoeLogger.

(** ** Instances for the examples *)

(** A colour library in the manner of ANSI colouring, with a small
    palette: the text between the escape sequence of the colour and the
    reset sequence. *)
Definition color_code (color : string) : string :=
  if String.eqb color "purple" then "35"
  else if String.eqb color "yellow" then "33"
  else if String.eqb color "green" then "32"
  else if String.eqb color "orange" then "38;5;208"
  else if String.eqb color "blue" then "34"
  else if String.eqb color "red" then "31"
  else "39".

Definition ansi_ft (text color : string) : string :=
  String "027" ("[" +:+ color_code color +:+ "m") +:+ text
  +:+ String "027" "[0m".

(** The colour library that leaves the text as it is. *)
Definition plain_ft (text color : string) : string := text.

(** A process that has just imported [logging], at the epoch, with an
    empty disk. *)
Definition fresh_process : process := MakeProcess logging_initial ∅ 0 [].

Definition utc : Z → Z := λ _, 0%Z.

(** The filters among [ids] whose dictionary has the key [field]. *)
Definition declaring (heap : list (list (string * pyval))) (field : string)
    (ids : list nat) : list nat :=
  List.filter (λ f, bool_decide (is_Some (heap !! f ≫= dict_get field))) ids.

(** [update_filter(name=v1)] then [update_filter(name=v2)]. *)
Definition update_twice (name : string) (v1 v2 : pyval) (self : MoeLogger.t)
    (p : process) : result (MoeLogger.t * process) :=
  '(self, p) ← MoeLogger.update_filter [(name, v1)] self p;
  MoeLogger.update_filter [(name, v2)] self p.

(** A facade without a file handler, as [MoeLogger()] builds it. *)
Definition fresh_facade : result (MoeLogger.t * process) :=
  MoeLogger.init ansi_ft false "WARNING" [] false 3145728 fresh_process.

(** The filters of the console handler and the store of filter objects
    after [r]. *)
Definition console_filters (r : result (MoeLogger.t * process))
  : result (list nat * list (list (string * pyval))) :=
  '(self, p) ← r; Ok (filters (MoeLogger.console_handler self), heap p).

(** The two updates on a new facade. *)
Definition update_twice_fresh (name : string) (v1 v2 : pyval)
  : result (list nat * list (list (string * pyval))) :=
  console_filters ('(self, p) ← fresh_facade; update_twice name v1 v2 self p).

(** The format of the default mode with no colour wrapping at all. *)
Definition uncolored_format : string :=
  "[ %(asctime)s | %(name)s | %(funcName)s | LN%(lineno)d | %(levelname)s ]  %(message)s".

(** ** Formats as sequences of literals and keyed conversions

    [render] writes the format that [percent_format] reads; [eval_tokens]
    is what the format yields on a mapping. *)

Inductive token : Type :=
  | TLit (text : string)
  | TKey (key : string) (conv : ascii).

Definition render_token (t : token) : string :=
  match t with
  | TLit text => text
  | TKey key conv => "%(" +:+ key +:+ ")" +:+ String conv ""
  end.

Fixpoint render (tokens : list token) : string :=
  match tokens with
  | [] => ""
  | t :: rest => render_token t +:+ render rest
  end.

Fixpoint no_char (c : ascii) (s : string) : bool :=
  match s with
  | EmptyString => true
  | String d s' => negb (Ascii.eqb d c) && no_char c s'
  end.

Definition token_ok (t : token) : bool :=
  match t with
  | TLit text => no_char "%" text
  | TKey key conv =>
      no_char "(" key && no_char ")" key
      && (Ascii.eqb conv "s" || Ascii.eqb conv "d")
  end.

Definition convert_value (conv : ascii) (v : pyval) : result string :=
  if Ascii.eqb conv "s" then Ok (py_str v)
  else match v with
       | PInt n => Ok (pretty n)
       | PBool b => Ok (if b then "1" else "0")
       | _ => Raise (TypeError "%d format: a real number is required")
       end.

Fixpoint eval_tokens (lookup : string → result pyval) (tokens : list token)
  : result string :=
  match tokens with
  | [] => Ok ""
  | TLit text :: rest =>
      tail ← eval_tokens lookup rest; Ok (text +:+ tail)
  | TKey key conv :: rest =>
      v ← lookup key;
      text ← convert_value conv v;
      tail ← eval_tokens lookup rest;
      Ok (text +:+ tail)
  end.

(** The file template as tokens. *)
Definition file_tokens : list token :=
  [ TLit ("{" +:+ String newline "    " +:+ json_string "@timestamp" +:+ ":"
          +:+ String dquote "");
    TKey "asctime" "s";
    TLit (String dquote "" +:+ "," +:+ String newline "    "
          +:+ json_string "app.name" +:+ ":" +:+ String dquote "");
    TKey "app_name" "s";
    TLit (String dquote "" +:+ "," +:+ String newline "    "
          +:+ json_string "log.level" +:+ ":" +:+ String dquote "");
    TKey "levelname" "s";
    TLit (String dquote "" +:+ "," +:+ String newline "    "
          +:+ json_string "message" +:+ ":" +:+ String dquote "" +:+ "[");
    TKey "name" "s"; TLit " | "; TKey "funcName" "s"; TLit " | LN";
    TKey "lineno" "d"; TLit "]: "; TKey "message" "s";
    TLit (String dquote "" +:+ String newline "}") ].

(** The class formats that [configure_logging] sets. *)
Definition configured (s : logging_state) : Prop :=
  default_time_format s = "%Y-%m-%dT%H:%M:%S"
  ∧ default_msec_format s = "%s.%03dZ".

(** A record of level [WARNING] without the attribute [app_name]. *)
Definition plain_warning : LogRecord :=
  MakeLogRecord "root" "WARNING" 30 "main" 12 "disk almost full" []
    1676675801220123 None None None ∅.

(** A facade that also writes to a file, built in a new process, with one
    declared extra field. *)
Definition facade_with_file : MoeLogger.t * process :=
  match MoeLogger.init ansi_ft true "WARNING" [("service", "svc_name")] true
          3145728 fresh_process with
  | Ok built => built
  | Raise _ =>
      (MoeLogger.Make true "" 0 true None (MakeHandler NoFormatter 0 [] None) [],
       fresh_process)
  end.

(** A record created on a whole second, 2023-02-17 23:16:41 UTC, and one
    created 220123 microseconds later. *)
Definition whole_second_record : LogRecord :=
  MakeLogRecord "root" "INFO" 20 "main" 12 "hello" [] 1676675801000000
    None None None ∅.

Definition later_record : LogRecord :=
  MakeLogRecord "root" "INFO" 20 "main" 12 "hello" [] 1676675801220123
    None None None ∅.

(** What the properties ask of the colour library: the text is kept, as it
    is, between two strings that depend on the colour and have no [%]. *)
Definition wraps (ft : string → string → string) : Prop :=
  ∀ text color, ∃ before after,
    ft text color = before +:+ text +:+ after
    ∧ no_char "%" before = true ∧ no_char "%" after = true.


(** The logging state of a process in which a facade has been built. *)
Definition configured_logging : logging_state := logging facade_with_file.2.

(** A record with a positional argument, and one whose argument does not
    fit the conversion. *)
Definition greeting : LogRecord :=
  MakeLogRecord "root" "INFO" 20 "main" 12 "hello %s" [PStr "world"]
    1676675801220123 None None None ∅.


(** ** JSON texts

    What "valid JSON" means here: [json_loads] reads a text by the grammar
    of RFC 8259 and gives the value it denotes.  It reads a sublanguage:
    numbers are integers (kept as numerals), and a [\u] escape must name a
    character of the model. *)

#[local] Unset Elimination Schemes.

Inductive json : Type :=
  | JNull
  | JBool (b : bool)
  | JNumber (numeral : string)
  | JString (s : string)
  | JArray (items : list json)
  | JObject (members : list (string * json)).

#[local] Set Elimination Schemes.

Definition is_ws (c : ascii) : bool :=
  let n := nat_of_ascii c in
  (n =? 32) || (n =? 9) || (n =? 10) || (n =? 13).

Fixpoint skip_ws (s : string) : string :=
  match s with
  | String c s' => if is_ws c then skip_ws s' else s
  | EmptyString => EmptyString
  end.

Definition hex_value (c : ascii) : option nat :=
  let n := nat_of_ascii c in
  if (48 <=? n) && (n <=? 57) then Some (n - 48)
  else if (97 <=? n) && (n <=? 102) then Some (n - 87)
  else if (65 <=? n) && (n <=? 70) then Some (n - 55)
  else None.

Definition unescape (e : ascii) : option ascii :=
  if Ascii.eqb e dquote then Some dquote
  else if Ascii.eqb e "\" then Some "\"%char
  else if Ascii.eqb e "/" then Some "/"%char
  else if Ascii.eqb e "b" then Some "008"%char
  else if Ascii.eqb e "f" then Some "012"%char
  else if Ascii.eqb e "n" then Some "010"%char
  else if Ascii.eqb e "r" then Some "013"%char
  else if Ascii.eqb e "t" then Some "009"%char
  else None.

(** The characters of a string up to the closing quote. *)
Fixpoint parse_chars (s : string) : option (string * string) :=
  match s with
  | EmptyString => None
  | String c s1 =>
      if Ascii.eqb c dquote then Some (EmptyString, s1)
      else if Ascii.eqb c "\" then
        match s1 with
        | String "u" (String h1 (String h2 (String h3 (String h4 s2)))) =>
            match hex_value h1, hex_value h2, hex_value h3, hex_value h4 with
            | Some a, Some b, Some c', Some d =>
                let code := ((a * 16 + b) * 16 + c') * 16 + d in
                if code <? 256 then
                  match parse_chars s2 with
                  | Some (text, rest) =>
                      Some (String (ascii_of_nat code) text, rest)
                  | None => None
                  end
                else None
            | _, _, _, _ => None
            end
        | String e s2 =>
            match unescape e, parse_chars s2 with
            | Some c', Some (text, rest) => Some (String c' text, rest)
            | _, _ => None
            end
        | EmptyString => None
        end
      else if nat_of_ascii c <? 32 then None
      else match parse_chars s1 with
           | Some (text, rest) => Some (String c text, rest)
           | None => None
           end
  end.

Fixpoint span_digits (s : string) : string * string :=
  match s with
  | String c s' =>
      if is_digit c
      then let '(digits, rest) := span_digits s' in (String c digits, rest)
      else (EmptyString, s)
  | EmptyString => (EmptyString, EmptyString)
  end.

Definition parse_number (s : string) : option (json * string) :=
  let '(sign, s1) := match s with
                     | String "-" s' => ("-", s')
                     | _ => ("", s)
                     end in
  let '(digits, rest) := span_digits s1 in
  match digits with
  | EmptyString => None
  | String "0" (String _ _) => None
  | _ =>
      match rest with
      | String c _ =>
          if char_in c ".eE" then None
          else Some (JNumber (sign +:+ digits), rest)
      | EmptyString => Some (JNumber (sign +:+ digits), rest)
      end
  end.

Fixpoint strip_prefix (p s : string) : option string :=
  match p, s with
  | EmptyString, _ => Some s
  | String a p', String b s' =>
      if Ascii.eqb a b then strip_prefix p' s' else None
  | String _ _, EmptyString => None
  end.

Fixpoint parse_value (fuel : nat) (s : string) : option (json * string) :=
  match fuel with
  | O => None
  | S fuel' =>
      match skip_ws s with
      | EmptyString => None
      | String c s1 as s0 =>
          if Ascii.eqb c "{" then
            match skip_ws s1 with
            | String "}" rest => Some (JObject [], rest)
            | s2 =>
                match parse_members fuel' s2 with
                | Some (members, rest) => Some (JObject members, rest)
                | None => None
                end
            end
          else if Ascii.eqb c "[" then
            match skip_ws s1 with
            | String "]" rest => Some (JArray [], rest)
            | s2 =>
                match parse_items fuel' s2 with
                | Some (items, rest) => Some (JArray items, rest)
                | None => None
                end
            end
          else if Ascii.eqb c dquote then
            match parse_chars s1 with
            | Some (text, rest) => Some (JString text, rest)
            | None => None
            end
          else
            match strip_prefix "null" s0, strip_prefix "true" s0,
                  strip_prefix "false" s0 with
            | Some rest, _, _ => Some (JNull, rest)
            | _, Some rest, _ => Some (JBool true, rest)
            | _, _, Some rest => Some (JBool false, rest)
            | None, None, None => parse_number s0
            end
      end
  end
with parse_members (fuel : nat) (s : string)
  : option (list (string * json) * string) :=
  match fuel with
  | O => None
  | S fuel' =>
      match skip_ws s with
      | String c s1 =>
          if Ascii.eqb c dquote then
            match parse_chars s1 with
            | Some (key, s2) =>
                match skip_ws s2 with
                | String ":" s3 =>
                    match parse_value fuel' s3 with
                    | Some (v, s4) =>
                        match skip_ws s4 with
                        | String "," s5 =>
                            match parse_members fuel' s5 with
                            | Some (more, rest) => Some ((key, v) :: more, rest)
                            | None => None
                            end
                        | String "}" rest => Some ([(key, v)], rest)
                        | _ => None
                        end
                    | None => None
                    end
                | _ => None
                end
            | None => None
            end
          else None
      | EmptyString => None
      end
  end
with parse_items (fuel : nat) (s : string) : option (list json * string) :=
  match fuel with
  | O => None
  | S fuel' =>
      match parse_value fuel' s with
      | Some (v, s1) =>
          match skip_ws s1 with
          | String "," s2 =>
              match parse_items fuel' s2 with
              | Some (more, rest) => Some (v :: more, rest)
              | None => None
              end
          | String "]" rest => Some ([v], rest)
          | _ => None
          end
      | None => None
      end
  end.

(** The value of a whole text. *)
Definition json_loads (s : string) : option json :=
  match parse_value (S (String.length s)) s with
  | Some (v, rest) =>
      match skip_ws rest with
      | EmptyString => Some v
      | String _ _ => None
      end
  | None => None
  end.



(** The numerals that [str] writes for integers: digits, not starting
    with a zero unless the numeral is [0], after an optional sign. *)
Fixpoint all_digits (s : string) : bool :=
  match s with
  | EmptyString => true
  | String c s' => is_digit c && all_digits s'
  end.

Definition positive_numeral (d : string) : bool :=
  match d with
  | EmptyString => false
  | String c rest => is_digit c && negb (Ascii.eqb c "0") && all_digits rest
  end.



(** ** The keys of the structured output *)







(** ** More inputs for the examples *)

(** ** The module-level helpers (lines 223-228) *)

Section with_colour_library.
Variable ft : string → string → string.

(** [quick_logger_setup()]: the defaults of [MoeLogger] for the fields,
    the file and the size. *)
Definition quick_logger_setup (p : process) : result process :=
  '(logger, p) ← MoeLogger.init ft false "INFO" [] false (3 * 1024 * 1024) p;
  Ok (MoeLogger.setup_logger logger p).

(** [moelogger(msg, cfmt, colors)]. *)
Definition moelogger (msg cfmt : string) (colors : list string) (p : process)
  : result process :=
  quick_logger_setup p.

End with_colour_library.

(** A process in which the name [TIMER] is taken before any facade is
    built. *)
Definition process_with_timer : process :=
  MakeProcess (addLoggingLevel "TIMER" 25 None logging_initial).2 ∅ 0 [].

(** A disk whose dated file of 1970-01-01 is above the default threshold,
    and one where it is exactly at the threshold. *)
Definition oversized_process : process :=
  MakeProcess logging_initial {[ "logs/1970-01-01.log" := 4194304%Z ]} 0 [].

Definition full_process : process :=
  MakeProcess logging_initial {[ "logs/1970-01-01.log" := 3145728%Z ]} 0 [].

(** A facade for the console only, built in a new process. *)
Definition console_facade : MoeLogger.t * process :=
  match fresh_facade with
  | Ok built => built
  | Raise _ =>
      (MoeLogger.Make false "" 0 false None (MakeHandler NoFormatter 0 [] None) [],
       fresh_process)
  end.

(** A second facade, built in the process of [console_facade], and a facade
    built where [TIMER] was taken. *)
Definition second_facade : MoeLogger.t * process :=
  match MoeLogger.init ansi_ft true "DEBUG" [] true 3145728 console_facade.2
  with
  | Ok built => built
  | Raise _ => console_facade
  end.

Definition late_facade : MoeLogger.t * process :=
  match MoeLogger.init ansi_ft false "INFO" [] true 3145728 process_with_timer
  with
  | Ok built => built
  | Raise _ => console_facade
  end.

(** A filter dictionary with two attributes, and fields that read them. *)
Definition service_attrs : list (string * pyval) :=
  [ ("app", PStr "billing"); ("shard", PInt 3) ].


(** The record [greeting] once a filter with [service_attrs] has seen it. *)
Definition filtered_greeting : LogRecord :=
  match ExtraAttributes.filter service_attrs greeting with
  | Ok r => r
  | Raise _ => greeting
  end.
(** ** Decimal digits *)

(** The last [k] decimal digits of [n], the most significant first. *)
Fixpoint digits (k : nat) (n : N) : string :=
  match k with
  | O => ""
  | S k' => digits k' (n `div` 10) +:+ String (pretty_N_char (n `mod` 10)) ""
  end.

(** Facades with a file handler on the disks of [full_process] and of
    [oversized_process], and a second one after the latter, an hour
    later. *)
Definition full_facade : MoeLogger.t * process :=
  match MoeLogger.init ansi_ft false "INFO" [] true 3145728 full_process with
  | Ok built => built
  | Raise _ => console_facade
  end.

Definition oversized_facade : MoeLogger.t * process :=
  match MoeLogger.init ansi_ft false "INFO" [] true 3145728 oversized_process
  with
  | Ok built => built
  | Raise _ => console_facade
  end.

Definition oversized_facade_again : MoeLogger.t * process :=
  match MoeLogger.init ansi_ft true "DEBUG" [] true 3145728
          (MakeProcess (logging oversized_facade.2) (disk oversized_facade.2)
             3600000000 (heap oversized_facade.2))
  with
  | Ok built => built
  | Raise _ => console_facade
  end.

(** ** Filters at work

    [Filterer.filter(record)] of a handler lets its filters see the record
    in the order of the list; a filter of the facade returns [True], so
    every filter of the list is applied. *)

Definition apply_filters (heap : list (list (string * pyval)))
    (ids : list nat) (record : LogRecord) : result LogRecord :=
  foldl (λ acc f,
           r ← acc;
           match heap !! f with
           | Some extra_attr => ExtraAttributes.filter extra_attr r
           | None => Raise (Unmodelled "filter object")
           end)
    (Ok record) ids.

Definition handler_filter (heap : list (list (string * pyval))) (h : Handler)
    (record : LogRecord) : result LogRecord :=
  apply_filters heap (filters h) record.

(** A sequence of calls of [update_filter], each with its keyword
    arguments. *)
Definition update_all (calls : list (list (string * pyval)))
    (self : MoeLogger.t) (p : process) : result (MoeLogger.t * process) :=
  foldl (λ acc kwargs, '(self, p) ← acc; MoeLogger.update_filter kwargs self p)
    (Ok (self, p)) calls.

(** The value that the filters [ids] leave in the attribute [field]: the
    one of the last filter that declares it. *)
Fixpoint attached (heap : list (list (string * pyval))) (field : string)
    (ids : list nat) : option pyval :=
  match ids with
  | [] => None
  | f :: rest =>
      match attached heap field rest with
      | Some v => Some v
      | None => heap !! f ≫= dict_get field
      end
  end.

(** The filters [ids] are distinct objects of the store, dictionaries with
    distinct keys. *)
Definition filters_ok (heap : list (list (string * pyval))) (ids : list nat)
  : Prop :=
  NoDup ids ∧ ∀ f, f ∈ ids → ∃ d, heap !! f = Some d ∧ NoDup d.*1.

(** A filter that declares an attribute with a value other than [None] is
    the last filter of the list that declares the attribute. *)
Fixpoint tidy (heap : list (list (string * pyval))) (ids : list nat) : Prop :=
  match ids with
  | [] => True
  | f :: rest =>
      (∀ k v, heap !! f ≫= dict_get k = Some v → v ≠ PNone →
              ∀ g, g ∈ rest → heap !! g ≫= dict_get k = None)
      ∧ tidy heap rest
  end.

(** The file handler, when there is one, has the filters of the console
    handler. *)
Definition shared_filters (self : MoeLogger.t) : Prop :=
  match MoeLogger.file_handler self with
  | Some h => filters h = filters (MoeLogger.console_handler self)
  | None => True
  end.

(** Calls of [update_filter] with one keyword argument each. *)
Definition single_field (updates : list (string * pyval))
  : list (list (string * pyval)) :=
  (λ kv, [kv]) <$> updates.

(** Three updates of two attributes on the facade with a file handler, and
    a record that has passed the filters of its file handler. *)
Definition tenant_updates : list (string * pyval) :=
  [ ("app_name", PNone); ("tenant", PStr "acme") ].

Definition updated_facade : MoeLogger.t * process :=
  match update_all (single_field (tenant_updates ++ [("app_name", PStr "billing")]))
          facade_with_file.1 facade_with_file.2 with
  | Ok updated => updated
  | Raise _ => facade_with_file
  end.

Definition updated_file_handler : Handler :=
  default (MakeHandler NoFormatter 0 [] None)
    (MoeLogger.file_handler updated_facade.1).

Definition filtered_warning : LogRecord :=
  match handler_filter (heap updated_facade.2) updated_file_handler
          plain_warning with
  | Ok r => r
  | Raise _ => plain_warning
  end.

(** ** The line of the file handler *)

(** A text between double quotes, as it is. *)
Definition quoted (s : string) : string :=
  String dquote (s +:+ String dquote "").

(** What the template of the file formatter gives once the values are
    substituted for the conversions: they stand between the quotes of the
    template without escaping. *)
Definition file_line (asctime app_name levelname message : string) : string :=
  "{" +:+ String newline "    " +:+ quoted "@timestamp" +:+ ":"
  +:+ quoted asctime +:+ "," +:+ String newline "    "
  +:+ quoted "app.name" +:+ ":" +:+ quoted app_name +:+ ","
  +:+ String newline "    " +:+ quoted "log.level" +:+ ":"
  +:+ quoted levelname +:+ "," +:+ String newline "    "
  +:+ quoted "message" +:+ ":" +:+ quoted message +:+ String newline "}".

(** The printable ASCII characters that [json.dumps] writes as they are. *)
Definition plain_char (c : ascii) : bool :=
  let n := nat_of_ascii c in
  (32 <=? n) && (n <=? 126) && negb (n =? 34) && negb (n =? 92).

Fixpoint plain (s : string) : bool :=
  match s with
  | EmptyString => true
  | String c s' => plain_char c && plain s'
  end.

(** A dictionary of strings as a dictionary of values. *)
Definition string_values (d : list (string * string))
  : list (string * pyval) :=
  (λ kv, (kv.1, PStr kv.2)) <$> d.

(** A record with the attribute [app_name]. *)
Definition billing_warning : LogRecord :=
  MakeLogRecord "root" "WARNING" 30 "main" 12 "disk almost full" []
    1676675801220123 None None None {[ "app_name" := PStr "billing" ]}.

(** * Properties *)

(** ** Strings *)

Lemma append_nil_l (s : string) : "" +:+ s = s.
Proof. reflexivity. Qed.

Lemma append_cons (c : ascii) (s t : string) :
  String c s +:+ t = String c (s +:+ t).
Proof. reflexivity. Qed.

Lemma append_assoc (s1 s2 s3 : string) :
  (s1 +:+ s2) +:+ s3 = s1 +:+ (s2 +:+ s3).
Proof.
  induction s1 as [|c s1 IH]; [done|].
  by rewrite !append_cons, IH.
Qed.

Lemma append_nil_r (s : string) : s +:+ "" = s.
Proof.
  induction s as [|c s IH]; [done|].
  by rewrite append_cons, IH.
Qed.

Lemma length_append (s1 s2 : string) :
  String.length (s1 +:+ s2) = String.length s1 + String.length s2.
Proof.
  induction s1 as [|c s1 IH]; [done|].
  rewrite append_cons; simpl; by rewrite IH.
Qed.

Lemma append_inv_tail (s1 s2 t : string) : s1 +:+ t = s2 +:+ t → s1 = s2.
Proof.
  revert s2; induction s1 as [|c s1 IH]; intros [|d s2] H.
  - done.
  - apply (f_equal String.length) in H.
    rewrite append_nil_l, length_append in H; simpl in H; lia.
  - apply (f_equal String.length) in H.
    rewrite append_nil_l, length_append in H; simpl in H; lia.
  - rewrite !append_cons in H. injection H as -> H. by rewrite (IH _ H).
Qed.

(** ** File rollover *)

Lemma numbered_name_inj (timestamp ext : string) (i j : nat) :
  path_join logs_dir (numbered_name timestamp i ext)
  = path_join logs_dir (numbered_name timestamp j ext) → i = j.
Proof.
  unfold path_join, numbered_name; intros H.
  do 4 apply String.app_inj in H.
  apply append_inv_tail in H.
  by apply (inj pretty) in H.
Qed.

Lemma rollover_loop_Some (fs : gmap string Z) (timestamp ext : string)
    (fuel cnt : nat) (p : string) :
  rollover_loop fs timestamp ext fuel cnt = Some p →
  ∃ n, cnt ≤ n
    ∧ p = path_join logs_dir (numbered_name timestamp n ext)
    ∧ isfile fs p = false
    ∧ ∀ m, cnt ≤ m < n →
        isfile fs (path_join logs_dir (numbered_name timestamp m ext)) = true.
Proof.
  revert cnt; induction fuel as [|fuel IH]; intros cnt; simpl; [done|].
  destruct (isfile fs (path_join logs_dir (numbered_name timestamp cnt ext)))
    eqn:Hcnt.
  - intros (n & Hle & -> & Hfree & Hbelow)%IH.
    exists n; split_and!; [lia|done|done|].
    intros m Hm. destruct (decide (m = cnt)) as [->|]; [done|].
    apply Hbelow; lia.
  - intros [= <-]. exists cnt; split_and!; [lia|done|done|lia].
Qed.

Lemma rollover_loop_None (fs : gmap string Z) (timestamp ext : string)
    (fuel cnt : nat) :
  rollover_loop fs timestamp ext fuel cnt = None →
  ∀ i, cnt ≤ i < cnt + fuel →
    isfile fs (path_join logs_dir (numbered_name timestamp i ext)) = true.
Proof.
  revert cnt; induction fuel as [|fuel IH]; intros cnt; simpl; [lia|].
  destruct (isfile fs (path_join logs_dir (numbered_name timestamp cnt ext)))
    eqn:Hcnt; [|done].
  intros Hnone i Hi. destruct (decide (i = cnt)) as [->|]; [done|].
  apply (IH _ Hnone); lia.
Qed.

(** The loop cannot use up its fuel: the numbered names are pairwise
    different, and only [size fs] of them can be on the disk. *)
Lemma rollover_loop_terminates (fs : gmap string Z) (timestamp ext : string)
    (cnt : nat) :
  is_Some (rollover_loop fs timestamp ext (S (size fs)) cnt).
Proof.
  destruct (rollover_loop _ _ _ _ _) eqn:Hloop; [by eexists|exfalso].
  pose proof (rollover_loop_None _ _ _ _ _ Hloop) as Hall.
  set (name := λ i : nat, path_join logs_dir (numbered_name timestamp i ext)).
  set (names := name <$> seq cnt (S (size fs))).
  assert (NoDup names) as Hnodup.
  { apply NoDup_fmap_2; [|apply NoDup_seq].
    intros i j. apply numbered_name_inj. }
  assert (list_to_set names ⊆ dom fs) as Hsub.
  { intros p [i [-> Hi%elem_of_seq]]%elem_of_list_to_set%list_elem_of_fmap.
    apply elem_of_dom. specialize (Hall i Hi).
    unfold isfile in Hall. by apply bool_decide_eq_true in Hall. }
  apply subseteq_size in Hsub.
  rewrite size_list_to_set, size_dom in Hsub by done.
  unfold names in Hsub. rewrite length_fmap, length_seq in Hsub. lia.
Qed.



(** ** Severity registry *)

Lemma logging_initial_names_are_attrs : names_are_attrs logging_initial.
Proof. apply (bool_decide_unpack _). by vm_compute. Qed.


(** The two outcomes of a registration. *)
Lemma addLoggingLevel_cases (levelName : string) (levelNum : Z)
    (methodName : option string) (s : logging_state) :
  let m := method_name levelName methodName in
  addLoggingLevel levelName levelNum methodName s = (false, logging_debug s)
  ∨ (hasattr (module_attrs s) levelName = false
     ∧ addLoggingLevel levelName levelNum methodName s
       = (true,
          LoggingState
            (<[m := ALogToRoot levelNum]>
               (<[levelName := AInt levelNum]> (module_attrs s)))
            (<[m := ALogForLevel levelNum]> (logger_class_attrs s))
            (<[levelNum := levelName]> (levelToName s))
            (<[levelName := levelNum]> (nameToLevel s))
            (root_handlers s) (default_time_format s)
            (default_msec_format s))).
Proof.
  intros m. unfold addLoggingLevel. fold m.
  destruct (hasattr (module_attrs s) levelName); [by left|].
  destruct (hasattr (module_attrs s) m); [by left|].
  destruct (hasattr (logger_class_attrs s) m); [by left|].
  by right.
Qed.

Lemma addLoggingLevel_names_are_attrs (levelName : string) (levelNum : Z)
    (methodName : option string) (s : logging_state) :
  names_are_attrs s →
  names_are_attrs (addLoggingLevel levelName levelNum methodName s).2.
Proof.
  intros Hs. unfold names_are_attrs in *.
  destruct (addLoggingLevel_cases levelName levelNum methodName s)
    as [->|[_ ->]]; simpl.
  - unfold logging_debug. by destruct (bool_decide _).
  - rewrite !dom_insert_L. set_solver.
Qed.

Lemma reachable_names_are_attrs (s : logging_state) :
  reachable s → names_are_attrs s.
Proof.
  induction 1; auto using logging_initial_names_are_attrs,
    addLoggingLevel_names_are_attrs.
Qed.

(** The standard level names keep their ranks. *)
Lemma reachable_standard_levels (s : logging_state) :
  reachable s → nameToLevel logging_initial ⊆ nameToLevel s.
Proof.
  induction 1 as [|levelName levelNum methodName s Hs IH|]; [done| |done].
  destruct (addLoggingLevel_cases levelName levelNum methodName s)
    as [->|[Hfresh ->]]; simpl.
  - unfold logging_debug. by destruct (bool_decide _).
  - etrans; [exact IH|]. apply insert_subseteq.
    apply not_elem_of_dom. intros Hin.
    apply (reachable_names_are_attrs s Hs), elem_of_dom in Hin.
    unfold hasattr in Hfresh. by apply bool_decide_eq_false in Hfresh.
Qed.

Lemma checkLevel_recognized (s : logging_state) (level : string) :
  reachable s → level ∈ MoeLogger.recognized_levels →
  ∃ rv, nameToLevel logging_initial !! level = Some rv
        ∧ checkLevel s level = Ok rv.
Proof.
  intros Hs Hin.
  assert (∃ rv, nameToLevel logging_initial !! level = Some rv) as [rv Hrv].
  { unfold MoeLogger.recognized_levels in Hin.
    repeat (apply elem_of_cons in Hin as [->|Hin]; [by eexists|]).
    by apply elem_of_nil in Hin. }
  exists rv; split; [done|]. unfold checkLevel.
  by rewrite (lookup_weaken _ _ _ _ Hrv (reachable_standard_levels s Hs)).
Qed.







(** ** Facade construction *)

Lemma active_log_file_is_Some (fs : gmap string Z) (timestamp : string)
    (max_bytes : Z) :
  is_Some (active_log_file fs timestamp max_bytes).
Proof.
  unfold active_log_file.
  destruct (isfile fs _ && bool_decide _); [|by eexists].
  apply rollover_loop_terminates.
Qed.

Lemma strftime_date (t : datetime) :
  strftime "%Y-%m-%d" t
  = Ok (pretty (year t) +:+ "-" +:+ zero_padded 2 (month t) +:+ "-"
        +:+ zero_padded 2 (day t) +:+ "").
Proof. reflexivity. Qed.

Lemma _file_handler_ok (self : MoeLogger.t) (p : process) :
  ∃ self' p', MoeLogger._file_handler self p = Ok (self', p')
    ∧ logging p' = logging p
    ∧ MoeLogger.level self' = MoeLogger.level self
    ∧ MoeLogger.json_format self' = MoeLogger.json_format self
    ∧ MoeLogger.logging_fields self' = MoeLogger.logging_fields self
    ∧ MoeLogger.console_handler self' = MoeLogger.console_handler self.
Proof.
  unfold MoeLogger._file_handler. rewrite strftime_date. simpl.
  match goal with
  | |- context [active_log_file ?fs ?timestamp ?max_bytes] =>
      destruct (active_log_file_is_Some fs timestamp max_bytes)
        as [log_file ->]
  end.
  by eexists _, _.
Qed.

(** What [_console_handler] leaves in [self.level] and on the handler. *)
Lemma _console_handler_ok (ft : string → string → string)
    (self : MoeLogger.t) (p : process) :
  reachable (logging p) →
  let level := if bool_decide (MoeLogger.level self ∈ MoeLogger.recognized_levels)
               then MoeLogger.level self else "WARNING" in
  ∃ self' rv, MoeLogger._console_handler ft self p = Ok (self', p)
    ∧ MoeLogger.level self' = level
    ∧ nameToLevel logging_initial !! level = Some rv
    ∧ handler_level (MoeLogger.console_handler self') = rv.
Proof.
  intros Hp level. unfold MoeLogger._console_handler. fold level.
  destruct (checkLevel_recognized (logging p) level Hp) as (rv & Hrv & ->).
  { unfold level. case_bool_decide; [done|].
    unfold MoeLogger.recognized_levels. set_solver. }
  by eexists _, rv.
Qed.


Lemma configure_logging_ok (ft : string → string → string)
    (self : MoeLogger.t) (p : process) :
  reachable (logging p) →
  let level := if bool_decide (MoeLogger.level self ∈ MoeLogger.recognized_levels)
               then MoeLogger.level self else "WARNING" in
  ∃ self' p' rv, MoeLogger.configure_logging ft self p = Ok (self', p')
    ∧ reachable (logging p')
    ∧ MoeLogger.level self' = level
    ∧ nameToLevel logging_initial !! level = Some rv
    ∧ handler_level (MoeLogger.console_handler self') = rv.
Proof.
  intros Hp level. unfold MoeLogger.configure_logging.
  set (s := LoggingState _ _ _ _ _ _ _).
  assert (reachable s) as Hs by (apply reachable_configure; by do 2 constructor).
  set (p1 := MakeProcess s (disk p) (utcnow p) (heap p)).
  destruct (MoeLogger.log_to_file self).
  - destruct (_file_handler_ok self p1)
      as (self1 & p2 & -> & Hlog & Hlevel & _); simpl.
    destruct (_console_handler_ok ft self1 p2) as (self' & rv & -> & Hl & Hrv & Hh).
    { by rewrite Hlog. }
    exists self', p2, rv. rewrite Hlog. rewrite Hlevel in Hl, Hrv. done.
  - simpl.
    destruct (_console_handler_ok ft self p1 Hs) as (self' & rv & -> & Hl & Hrv & Hh).
    by exists self', p1, rv.
Qed.




(** ** Attribute filters *)

Lemma first_declaring_None (heap : list (list (string * pyval)))
    (field : string) (ids : list nat) :
  declaring heap field ids = [] →
  MoeLogger.first_declaring heap field ids = None.
Proof.
  induction ids as [|f ids IH]; simpl; [done|].
  destruct (heap !! f ≫= dict_get field) as [v|] eqn:Hf; simpl.
  - done.
  - exact IH.
Qed.

Lemma declaring_app (heap : list (list (string * pyval))) (field : string)
    (ids1 ids2 : list nat) :
  declaring heap field (ids1 ++ ids2)
  = declaring heap field ids1 ++ declaring heap field ids2.
Proof. apply List.filter_app. Qed.

(** Extending or updating the store at [n] does not touch the filters
    below [n]. *)
Lemma declaring_below (heap heap' : list (list (string * pyval)))
    (field : string) (ids : list nat) :
  (∀ f, f ∈ ids → heap' !! f = heap !! f) →
  declaring heap' field ids = declaring heap field ids.
Proof.
  induction ids as [|f ids IH]; intros Hsame; simpl; [done|].
  rewrite (Hsame f) by left. rewrite IH; [done|].
  intros g Hg. apply Hsame. by right.
Qed.

Lemma first_declaring_below (heap heap' : list (list (string * pyval)))
    (field : string) (ids : list nat) :
  (∀ f, f ∈ ids → heap' !! f = heap !! f) →
  MoeLogger.first_declaring heap' field ids
  = MoeLogger.first_declaring heap field ids.
Proof.
  induction ids as [|f ids IH]; intros Hsame; simpl; [done|].
  rewrite (Hsame f) by left. rewrite IH; [done|].
  intros g Hg. apply Hsame. by right.
Qed.

Lemma first_declaring_app_None (heap : list (list (string * pyval)))
    (field : string) (ids1 ids2 : list nat) :
  MoeLogger.first_declaring heap field ids1 = None →
  MoeLogger.first_declaring heap field (ids1 ++ ids2)
  = MoeLogger.first_declaring heap field ids2.
Proof.
  induction ids1 as [|f ids1 IH]; simpl; [done|].
  destruct (heap !! f ≫= dict_get field) as [[]|]; auto; done.
Qed.

Lemma dict_get_dict_set {V : Type} (key : string) (v : V)
    (d : list (string * V)) :
  dict_get key (dict_set key v d) = Some v.
Proof.
  induction d as [|[k x] d IH]; simpl.
  - by rewrite String.eqb_refl.
  - destruct (String.eqb k key) eqn:Hk; simpl; by rewrite Hk.
Qed.

(** When no filter of the console handler declares [name] and [v1] is not
    [None], the two updates leave one filter that declares [name], a new
    one, and its value is [v2]. *)
Lemma update_twice_one_filter (name : string) (v1 v2 : pyval)
    (self : MoeLogger.t) (p : process) :
  v1 ≠ PNone →
  (∀ f, f ∈ filters (MoeLogger.console_handler self) → f < length (heap p)) →
  declaring (heap p) name (filters (MoeLogger.console_handler self)) = [] →
  ∃ self' p',
    update_twice name v1 v2 self p = Ok (self', p')
    ∧ declaring (heap p') name (filters (MoeLogger.console_handler self'))
      = [length (heap p)]
    ∧ heap p' !! length (heap p) = Some [(name, v2)].
Proof.
  intros Hv1 Hvalid Hnone.
  assert (length (heap p) ∉ filters (MoeLogger.console_handler self)) as Hn.
  { intros Hin%Hvalid. lia. }
  assert (∀ x f, f ∈ filters (MoeLogger.console_handler self) →
            (heap p ++ [x]) !! f = heap p !! f) as Hext.
  { intros x f Hf. apply lookup_app_l. by apply Hvalid. }
  unfold update_twice, MoeLogger.update_filter, MoeLogger._update_filter.
  rewrite (first_declaring_None _ _ _ Hnone). simpl.
  unfold addFilter. rewrite bool_decide_eq_false_2 by done. simpl.
  rewrite first_declaring_app_None; last first.
  { rewrite (first_declaring_below (heap p)) by (intros; by apply Hext).
    by apply first_declaring_None. }
  simpl. rewrite lookup_app_r, Nat.sub_diag by done. simpl.
  rewrite String.eqb_refl.
  assert (∃ f' , match v1 with PNone => None | _ => Some (length (heap p)) end
                 = Some f' ∧ f' = length (heap p)) as (f' & Hfirst & Hf').
  { destruct v1; by eauto. }
  rewrite Hfirst. subst f'.
  eexists _, _; split; [reflexivity|]; simpl.
  rewrite declaring_app.
  rewrite (declaring_below (heap p)); last first.
  { intros f Hf. rewrite list_lookup_alter_ne by (intros Heq; by rewrite Heq in Hn).
    by apply Hext. }
  rewrite Hnone. simpl.
  rewrite list_lookup_alter, lookup_app_r, Nat.sub_diag by done. simpl.
  rewrite String.eqb_refl, decide_True by done. simpl.
  by rewrite String.eqb_refl.
Qed.

(** The scenario of the specification on a new facade: ["X"] then ["Y"]
    leave one filter, whose [app_name] is ["Y"]. *)
Lemma update_twice_X_Y :
  update_twice_fresh "app_name" (PStr "X") (PStr "Y")
  = Ok ([0], [[("app_name", PStr "Y")]]).
Proof. vm_compute. reflexivity. Qed.

(** C6.  On a new facade, [update_filter(app_name=None)] then
    [update_filter(app_name="Y")] leave two filters on the console handler
    that declare [app_name]: the loop of lines 149-154 passes over the
    filter whose stored value is [None], and a second one is attached. *)
Theorem update_after_None_attaches_second_filter :
  update_twice_fresh "app_name" PNone (PStr "Y")
  = Ok ([0; 1], [[("app_name", PNone)]; [("app_name", PStr "Y")]]).
Proof. vm_compute. reflexivity. Qed.

(** ** Console formatter *)

(** C4, as the code has it.  For a level name outside the colour table the
    default formatter does not fail, and the level tag and the message of
    its format are not wrapped; the time placeholder keeps the wrapping in
    purple that [__init__] gave it. *)
Theorem unknown_level_format (ft : string → string → string)
    (level : string) :
  ConsoleFormatter.level_colors !! level = None →
  ConsoleFormatter.get_format ft (ConsoleFormatter.init ft "" []) level None
  = Ok ("[ " +:+ ft "%(asctime)s" "purple"
        +:+ " | %(name)s | %(funcName)s | LN%(lineno)d | %(levelname)s"
        +:+ " ] " +:+ " %(message)s").
Proof.
  intros Hlevel. unfold ConsoleFormatter.get_format. simpl.
  by rewrite Hlevel.
Qed.

(** The level ["VERBOSE"], with the colouring [ansi_ft]. *)
Lemma unknown_level_format_witness :
  ConsoleFormatter.get_format ansi_ft (ConsoleFormatter.init ansi_ft "" [])
    "VERBOSE" None
  = Ok ("[ " +:+ ansi_ft "%(asctime)s" "purple"
        +:+ " | %(name)s | %(funcName)s | LN%(lineno)d | %(levelname)s"
        +:+ " ] " +:+ " %(message)s").
Proof.
  apply (unknown_level_format ansi_ft "VERBOSE").
  vm_compute. reflexivity.
Defined.

(** Without a colour library the format of an unknown level is the
    uncoloured one. *)
Lemma unknown_level_format_plain (level : string) :
  ConsoleFormatter.level_colors !! level = None →
  ConsoleFormatter.get_format plain_ft (ConsoleFormatter.init plain_ft "" [])
    level None = Ok uncolored_format.
Proof.
  intros Hlevel. unfold ConsoleFormatter.get_format. simpl.
  by rewrite Hlevel.
Qed.

(** C4 as stated fails: ["VERBOSE"] is not in the colour table, and with a
    colouring library its format is not the uncoloured one, because the
    time placeholder is wrapped. *)
Lemma unknown_level_keeps_colored_time :
  ConsoleFormatter.level_colors !! "VERBOSE" = None
  ∧ ConsoleFormatter.get_format ansi_ft (ConsoleFormatter.init ansi_ft "" [])
      "VERBOSE" None ≠ Ok uncolored_format
  ∧ ∃ fmt, ConsoleFormatter.get_format ansi_ft
             (ConsoleFormatter.init ansi_ft "" []) "VERBOSE" None = Ok fmt
           ∧ contains fmt (ansi_ft "%(asctime)s" "purple") = true.
Proof.
  split; [vm_compute; reflexivity|]. split.
  - vm_compute. discriminate.
  - eexists. split; vm_compute; reflexivity.
Qed.

(** ** printf-style formatting on rendered tokens *)

Lemma bind_Ok {A B : Type} (a : A) (k : A → result B) : (Ok a ≫= k) = k a.
Proof. reflexivity. Qed.

Lemma bind_Raise {A B : Type} (e : exn) (k : A → result B) :
  (Raise e ≫= k) = Raise e.
Proof. reflexivity. Qed.

Lemma char_in_single (c d : ascii) :
  char_in c (String d "") = Ascii.eqb d c.
Proof.
  unfold char_in. simpl. destruct (ascii_dec c d) as [->|Hne].
  - by rewrite Ascii.eqb_refl.
  - symmetry. apply Ascii.eqb_neq. congruence.
Qed.

Lemma format_from_lit (lit rest : string) (args : fmt_args) :
  no_char "%" lit = true →
  format_from (lit +:+ rest) SLit args
  = (tail ← format_from rest SLit args; Ok (lit +:+ tail)).
Proof.
  induction lit as [|c lit IH]; intros Hlit.
  - rewrite append_nil_l. by destruct (format_from rest SLit args).
  - simpl in Hlit. apply andb_true_iff in Hlit as [Hc Hlit].
    rewrite append_cons. simpl. rewrite char_in_single.
    rewrite Ascii.eqb_sym in Hc. 
    destruct (Ascii.eqb "%" c); [done|].
    rewrite (IH Hlit). by destruct (format_from rest SLit args).
Qed.

Lemma format_from_key_chars (key rest acc : string) (args : fmt_args) :
  no_char "(" key = true → no_char ")" key = true →
  format_from (key +:+ String ")" rest) (SKey 1 acc) args
  = format_from rest (SFlags (ConvSpec (Some (acc +:+ key)) false false 0)) args.
Proof.
  revert acc; induction key as [|c key IH]; intros acc Hopen Hclose.
  - rewrite append_nil_l, append_nil_r. reflexivity.
  - simpl in Hopen, Hclose.
    apply andb_true_iff in Hopen as [Hc1 Hopen].
    apply andb_true_iff in Hclose as [Hc2 Hclose].
    rewrite append_cons. simpl. unfold step_key.
    rewrite !char_in_single.
    rewrite Ascii.eqb_sym in Hc1. rewrite Ascii.eqb_sym in Hc2.
    destruct (Ascii.eqb ")" c); [done|]. destruct (Ascii.eqb "(" c); [done|].
    rewrite IH by done. by rewrite append_assoc.
Qed.

Lemma pad_width_0 (key : option string) (numeric : bool) (text : string) :
  pad (ConvSpec key false false 0) numeric text = text.
Proof. reflexivity. Qed.

Lemma step_flags_s (key : string) (lookup : string → result pyval) :
  step_flags (ConvSpec (Some key) false false 0) "s" (Mapping lookup)
  = match lookup key with
    | Ok v => Emit (py_str v) (Mapping lookup)
    | Raise e => Fail e
    end.
Proof.
  change (step_flags (ConvSpec (Some key) false false 0) "s" (Mapping lookup))
    with (convert (ConvSpec (Some key) false false 0) "s" (Mapping lookup)).
  unfold convert, next_arg. simpl sp_key. cbv beta iota.
  by destruct (lookup key).
Qed.

Lemma step_flags_d (key : string) (lookup : string → result pyval) :
  step_flags (ConvSpec (Some key) false false 0) "d" (Mapping lookup)
  = match lookup key with
    | Ok v =>
        match convert_value "d" v with
        | Ok text => Emit text (Mapping lookup)
        | Raise e => Fail e
        end
    | Raise e => Fail e
    end.
Proof.
  change (step_flags (ConvSpec (Some key) false false 0) "d" (Mapping lookup))
    with (convert (ConvSpec (Some key) false false 0) "d" (Mapping lookup)).
  unfold convert, next_arg. simpl sp_key. cbv beta iota.
  destruct (lookup key) as [v|e]; [|done]. by destruct v.
Qed.

Lemma format_from_key (key : string) (conv : ascii) (rest : string)
    (lookup : string → result pyval) :
  token_ok (TKey key conv) = true →
  format_from (render_token (TKey key conv) +:+ rest) SLit (Mapping lookup)
  = (v ← lookup key;
     text ← convert_value conv v;
     tail ← format_from rest SLit (Mapping lookup);
     Ok (text +:+ tail)).
Proof.
  intros Hok. simpl in Hok.
  apply andb_true_iff in Hok as [Hkey Hconv].
  apply andb_true_iff in Hkey as [Hopen Hclose].
  unfold render_token. rewrite !append_assoc.
  change ("%(" +:+ key +:+ ")" +:+ String conv "" +:+ rest)
    with (String "%" (String "(" (key +:+ String ")" (String conv rest)))).
  simpl. rewrite format_from_key_chars by done. rewrite append_nil_l.
  apply orb_true_iff in Hconv as [->%Ascii.eqb_eq | ->%Ascii.eqb_eq].
  - change (format_from (String "s" rest) ?st ?args)
      with (match fmt_step_char st "s" args with
            | Next st' => format_from rest st' args
            | Emit text rest0 =>
                tail ← format_from rest SLit rest0; Ok (text +:+ tail)
            | Fail e => Raise e
            end).
    simpl fmt_step_char. rewrite step_flags_s.
    by destruct (lookup key).
  - change (format_from (String "d" rest) ?st ?args)
      with (match fmt_step_char st "d" args with
            | Next st' => format_from rest st' args
            | Emit text rest0 =>
                tail ← format_from rest SLit rest0; Ok (text +:+ tail)
            | Fail e => Raise e
            end).
    simpl fmt_step_char. rewrite step_flags_d.
    destruct (lookup key) as [v|e]; [|done]. simpl.
    by destruct (convert_value "d" v).
Qed.

Lemma percent_format_render (lookup : string → result pyval)
    (tokens : list token) :
  forallb token_ok tokens = true →
  percent_format (render tokens) (Mapping lookup) = eval_tokens lookup tokens.
Proof.
  unfold percent_format.
  induction tokens as [|[text|key conv] tokens IH]; intros Hok; simpl in Hok.
  - reflexivity.
  - apply andb_true_iff in Hok as [Ht Hok]. simpl.
    rewrite format_from_lit by done. by rewrite IH.
  - apply andb_true_iff in Hok as [Ht Hok]. 
    change (render (TKey key conv :: tokens))
      with (render_token (TKey key conv) +:+ render tokens).
    rewrite format_from_key by done. simpl.
    destruct (lookup key) as [v|e]; simpl; [|done].
    destruct (convert_value conv v); simpl; [|done].
    by rewrite IH.
Qed.

(** ** File handler *)

Lemma render_file_tokens : render file_tokens = MoeLogger.file_format.
Proof. vm_compute. reflexivity. Qed.

Lemma dict_item_absent (r : LogRecord) (key : string) :
  in_dict r key = false → dict_item r key = Raise (KeyError key).
Proof.
  unfold in_dict, dict_item. intros H.
  apply orb_false_iff in H as [H Hextra].
  apply orb_false_iff in H as [Htyped Hun].
  apply bool_decide_eq_false in Htyped, Hextra.
  destruct (typed_attr r key); [by destruct Htyped|].
  rewrite Hun. destruct (extra r !! key); [by destruct Hextra|done].
Qed.

Lemma formatTime_configured (tz : Z → Z) (s : logging_state) (r : LogRecord) :
  configured s → ∃ t, formatTime tz s r = Ok t.
Proof.
  intros [Htime Hmsec]. unfold formatTime. rewrite Htime, Hmsec.
  eexists. reflexivity.
Qed.


Lemma tokens_ok : forallb token_ok file_tokens = true.
Proof. vm_compute. reflexivity. Qed.

Lemma file_format_missing_app_name (r : LogRecord) (message t : string) :
  in_dict r "app_name" = false →
  style_format MoeLogger.file_format (formatted_dict r message (Some t))
  = Raise (ValueError "Formatting field not found in record: 'app_name'").
Proof.
  intros Habsent. unfold style_format.
  rewrite <- render_file_tokens.
  rewrite percent_format_render by exact tokens_ok.
  unfold file_tokens. cbn [eval_tokens].
  replace (formatted_dict r message (Some t) "asctime") with (Ok (PStr t)) by reflexivity.
  replace (formatted_dict r message (Some t) "app_name")
    with (dict_item r "app_name") by reflexivity.
  rewrite (dict_item_absent _ _ Habsent).
  rewrite bind_Ok. change (convert_value "s" (PStr t)) with (Ok t).
  by rewrite bind_Ok, !bind_Raise.
Qed.

Lemma file_format_valid : has_valid_spec MoeLogger.file_format = true.
Proof. vm_compute. reflexivity. Qed.

Lemma file_format_usesTime : usesTime MoeLogger.file_format = true.
Proof. vm_compute. reflexivity. Qed.

Lemma Formatter_format_file (tz : Z → Z) (s : logging_state) (r : LogRecord) :
  in_dict r "app_name" = false →
  (∀ out, Formatter_format tz s MoeLogger.file_format r ≠ Ok out)
  ∧ (configured s → ∀ m, getMessage r = Ok m →
     Formatter_format tz s MoeLogger.file_format r
     = Raise (ValueError "Formatting field not found in record: 'app_name'")).
Proof.
  intros Habsent. unfold Formatter_format.
  rewrite file_format_valid. rewrite file_format_usesTime.
  simpl negb. cbv iota. split.
  - intros out. destruct (getMessage r) as [m|]. 2: { rewrite bind_Raise. done. }
    rewrite bind_Ok.
    destruct (formatTime tz s r) as [t|]. 2: { rewrite bind_Raise. rewrite bind_Raise. done. }
    rewrite !bind_Ok.
    rewrite file_format_missing_app_name by done. rewrite bind_Raise. done.
  - intros Hs m ->. rewrite bind_Ok.
    destruct (formatTime_configured tz s r Hs) as [t ->]. rewrite !bind_Ok.
    rewrite file_format_missing_app_name by done. by rewrite bind_Raise.
Qed.

Opaque MoeLogger.file_format.

Lemma configure_logging_inv (ft : string → string → string)
    (self self' : MoeLogger.t) (p p' : process) :
  MoeLogger.configure_logging ft self p = Ok (self', p') →
  configured (logging p')
  ∧ (MoeLogger.log_to_file self = true →
     ∃ path, MoeLogger.file_handler self'
             = Some (MakeHandler (Percent MoeLogger.file_format) 30 [] (Some path))).
Proof.
  unfold MoeLogger.configure_logging, MoeLogger._file_handler,
    MoeLogger._console_handler.
  rewrite strftime_date.
  destruct (MoeLogger.log_to_file self); simpl.
  - destruct (active_log_file _ _ _); simpl; [|done].
    destruct (checkLevel _ _); simpl; [|done].
    intros [= <- <-]. split; [done|]. eauto.
  - destruct (checkLevel _ _); simpl; [|done].
    intros [= <- <-]. split; [done|]. done.
Qed.

Lemma init_inv (ft : string → string → string) (json_format : bool)
    (log_level : string) (logging_fields : list (string * string))
    (log_to_file : bool) (max_bytes : Z) (p p' : process) (self : MoeLogger.t) :
  MoeLogger.init ft json_format log_level logging_fields log_to_file max_bytes p
  = Ok (self, p') →
  configured (logging p')
  ∧ (log_to_file = true →
     ∃ path, MoeLogger.file_handler self
             = Some (MakeHandler (Percent MoeLogger.file_format) 30 [] (Some path))).
Proof.
  unfold MoeLogger.init.
  destruct (MoeLogger.configure_logging _ _ _) as [[self1 p1]|] eqn:Hconf;
    simpl; [|done].
  intros [= <- <-]. apply configure_logging_inv in Hconf as [Hfmt Hfile].
  split; [|exact Hfile].
  unfold MoeLogger.setup_logger. by destruct (bool_decide _).
Qed.

(** C10.  Whatever extra fields the caller declares, the file handler of
    a facade built with [log_to_file] has the template [file_format], at
    level 30, and the template has the field [app.name] read from the
    attribute [app_name]; on a record without that attribute the file
    formatter never returns, and when the message of the record renders it
    raises the [ValueError] of the missing field. *)
Theorem file_template_requires_app_name (ft : string → string → string)
    (json_format : bool) (log_level : string)
    (logging_fields : list (string * string)) (max_bytes : Z)
    (p p' : process) (self : MoeLogger.t) (tz : Z → Z) (r : LogRecord) :
  MoeLogger.init ft json_format log_level logging_fields true max_bytes p
  = Ok (self, p') →
  in_dict r "app_name" = false →
  ∃ path,
    MoeLogger.file_handler self
    = Some (MakeHandler (Percent MoeLogger.file_format) 30 [] (Some path))
    ∧ contains MoeLogger.file_format
        (json_string "app.name" +:+ ":" +:+ json_string "%(app_name)s") = true
    ∧ (∀ out, Formatter_format tz (logging p') MoeLogger.file_format r ≠ Ok out)
    ∧ (∀ m, getMessage r = Ok m →
         Formatter_format tz (logging p') MoeLogger.file_format r
         = Raise (ValueError
                    "Formatting field not found in record: 'app_name'")).
Proof.
  intros Hinit Habsent.
  apply init_inv in Hinit as [Hconf Hfile].
  destruct (Hfile eq_refl) as [path Hpath].
  destruct (Formatter_format_file tz (logging p') r Habsent) as [Hnever Hraise].
  exists path. split_and!; [exact Hpath|by vm_compute|exact Hnever|].
  intros m Hm. exact (Hraise Hconf m Hm).
Qed.

(** The facade [facade_with_file] and the record [plain_warning]. *)
Lemma file_template_requires_app_name_witness :
  ∃ path,
    MoeLogger.file_handler facade_with_file.1
    = Some (MakeHandler (Percent MoeLogger.file_format) 30 [] (Some path))
    ∧ contains MoeLogger.file_format
        (json_string "app.name" +:+ ":" +:+ json_string "%(app_name)s") = true
    ∧ (∀ out, Formatter_format utc (logging facade_with_file.2)
                MoeLogger.file_format plain_warning ≠ Ok out)
    ∧ (∀ m, getMessage plain_warning = Ok m →
         Formatter_format utc (logging facade_with_file.2)
           MoeLogger.file_format plain_warning
         = Raise (ValueError
                    "Formatting field not found in record: 'app_name'")).
Proof.
  apply (file_template_requires_app_name ansi_ft true "WARNING"
           [("service", "svc_name")] 3145728 fresh_process).
  - vm_compute. reflexivity.
  - vm_compute. reflexivity.
Defined.

(** ** Structured formatter: the timestamp *)

Lemma substring_prefix (s t : string) :
  String.substring 0 (String.length s) (s +:+ t) = s.
Proof.
  induction s as [|c s IH].
  - rewrite append_nil_l. by destruct t.
  - rewrite append_cons. simpl. by rewrite IH.
Qed.

Lemma drop_last_app (s t : string) :
  drop_last (String.length t) (s +:+ t) = s.
Proof.
  unfold drop_last. rewrite length_append.
  replace (String.length s + String.length t - String.length t)
    with (String.length s) by lia.
  apply substring_prefix.
Qed.

Lemma zero_padded_2_length (n : Z) :
  (0 ≤ n < 60)%Z → String.length (zero_padded 2 n) = 2.
Proof.
  intros Hn.
  assert (forallb (λ k, String.length (zero_padded 2 (Z.of_nat k)) =? 2)
            (seq 0 60) = true) as Hall by (vm_compute; reflexivity).
  rewrite forallb_forall in Hall.
  specialize (Hall (Z.to_nat n)). rewrite Z2Nat.id in Hall by lia.
  apply Nat.eqb_eq, Hall, in_seq. lia.
Qed.

(** On a whole second [isoformat] has no fraction, and the slice [[:-3]]
    removes the colon and the seconds. *)
Lemma isoformat_whole_second (dt : datetime) :
  microsecond dt = 0%Z → (0 ≤ second dt < 60)%Z →
  drop_last 3 (isoformat dt)
  = zero_padded 4 (year dt) +:+ "-" +:+ zero_padded 2 (month dt) +:+ "-"
    +:+ zero_padded 2 (day dt) +:+ "T" +:+ zero_padded 2 (hour dt) +:+ ":"
    +:+ zero_padded 2 (minute dt).
Proof.
  intros Hus Hsec. unfold isoformat. rewrite Hus. simpl Z.eqb. cbv iota.
  rewrite append_nil_r.
  pose proof (zero_padded_2_length _ Hsec) as Hlen.
  set (ss := zero_padded 2 (second dt)) in *.
  set (prefix := zero_padded 4 (year dt) +:+ "-" +:+ zero_padded 2 (month dt)
                 +:+ "-" +:+ zero_padded 2 (day dt) +:+ "T"
                 +:+ zero_padded 2 (hour dt) +:+ ":"
                 +:+ zero_padded 2 (minute dt)).
  trans (drop_last (String.length (":" +:+ ss)) (prefix +:+ (":" +:+ ss))).
  - f_equal.
    + rewrite length_append, Hlen. reflexivity.
    + unfold prefix. by rewrite !append_assoc.
  - apply drop_last_app.
Qed.

Lemma fromtimestamp_second (tz : Z → Z) (created : Z) :
  (0 ≤ second (fromtimestamp tz created) < 60)%Z
  ∧ microsecond (fromtimestamp tz created) = (created mod 1000000)%Z.
Proof.
  unfold fromtimestamp. destruct (civil_from_days _) as [[y m] d]. simpl.
  split; [apply Z.mod_pos_bound; lia|done].
Qed.

(** Every record created on a whole second gets the timestamp without
    seconds. *)
Lemma whole_second_timestamp (tz : Z → Z) (r : LogRecord)
    (d : list (string * pyval)) (dt : datetime) :
  (created r mod 1000000 = 0)%Z →
  JSONFormatter.fields tz [] r = Ok d →
  dt = fromtimestamp tz (created r) →
  dict_get "@timestamp" d
  = Some (PStr ((zero_padded 4 (year dt) +:+ "-" +:+ zero_padded 2 (month dt)
                 +:+ "-" +:+ zero_padded 2 (day dt) +:+ "T"
                 +:+ zero_padded 2 (hour dt) +:+ ":"
                 +:+ zero_padded 2 (minute dt)) +:+ "Z")).
Proof.
  intros Hus. unfold JSONFormatter.fields.
  destruct (getMessage r) as [m|]; [|done].
  rewrite bind_Ok. cbn [foldl]. intros [= <-] ->.
  destruct (fromtimestamp_second tz (created r)) as [Hsec Hmicro].
  cbn [dict_set dict_get]. simpl String.eqb. cbv iota.
  by rewrite isoformat_whole_second by congruence.
Qed.

(** C2.  A record created on a whole second gets a timestamp without
    seconds and milliseconds, [2023-02-17T23:16Z]; a record created within
    the second gets [2023-02-17T23:16:41.220Z]. *)
Theorem timestamp_on_whole_second :
  JSONFormatter.fields utc [] whole_second_record
  = Ok [ ("@timestamp", PStr "2023-02-17T23:16Z");
         ("log.level", PStr "INFO");
         ("message", PStr "[root | main | LN12]: hello") ]
  ∧ JSONFormatter.fields utc [] later_record
    = Ok [ ("@timestamp", PStr "2023-02-17T23:16:41.220Z");
           ("log.level", PStr "INFO");
           ("message", PStr "[root | main | LN12]: hello") ].
Proof. split; vm_compute; reflexivity. Qed.

(** ** Console formatter: the message in the output *)


















Lemma plain_ft_wraps : wraps plain_ft.
Proof. intros text color. exists "", "". by rewrite append_nil_r. Qed.







(** ** [json_loads] reads what [json_dumps] writes *)

Lemma parse_chars_escape_char (c : ascii) (tail : string) :
  parse_chars (escape_char c +:+ tail)
  = match parse_chars tail with
    | Some (text, rest) => Some (String c text, rest)
    | None => None
    end.
Proof. destruct c as [[] [] [] [] [] [] [] []]; reflexivity. Qed.

Lemma parse_chars_escape (s rest : string) :
  parse_chars (escape s +:+ String dquote rest) = Some (s, rest).
Proof.
  induction s as [|c s IH]; [reflexivity|].
  cbn [escape]. by rewrite append_assoc, parse_chars_escape_char, IH.
Qed.

Lemma parse_chars_json_string (s rest : string) :
  ∃ body, json_string s +:+ rest = String dquote body
          ∧ parse_chars body = Some (s, rest).
Proof.
  exists (escape s +:+ String dquote rest). split.
  - unfold json_string. by rewrite append_cons, append_assoc.
  - apply parse_chars_escape.
Qed.

Lemma pretty_N_char_digit (x : N) :
  is_digit (pretty_N_char x) = true
  ∧ ((0 < x < 10)%N → Ascii.eqb (pretty_N_char x) "0" = false).
Proof.
  unfold pretty_N_char. split.
  - by repeat case_match.
  - intros Hx. repeat case_match; try reflexivity; lia.
Qed.

Lemma all_digits_app (d1 d2 : string) :
  all_digits d1 = true → all_digits d2 = true →
  all_digits (d1 +:+ d2) = true.
Proof.
  intros H1 H2. induction d1 as [|c d1 IH]; [done|].
  rewrite append_cons. cbn [all_digits] in *.
  apply andb_true_iff in H1 as [-> H1]. by rewrite IH.
Qed.

Lemma positive_numeral_snoc (d : string) (c : ascii) :
  positive_numeral d = true → is_digit c = true →
  positive_numeral (d +:+ String c "") = true.
Proof.
  destruct d as [|c0 d]; [done|]. intros Hd Hc.
  rewrite append_cons. cbn [positive_numeral] in *.
  apply andb_true_iff in Hd as [-> Hd]. cbn [andb].
  apply all_digits_app; [done|]. cbn [all_digits]. by rewrite Hc.
Qed.

Lemma pretty_N_go_numeral (x : N) (s : string) :
  (0 < x)%N →
  ∃ d, pretty_N_go x s = d +:+ s ∧ positive_numeral d = true.
Proof.
  revert s. induction (N.lt_wf_0 x) as [x _ IH]; intros s Hx.
  rewrite pretty_N_go_step by done.
  destruct (pretty_N_char_digit (x `mod` 10)) as [Hdigit Hnonzero].
  destruct (decide (x < 10)%N) as [Hsmall|Hbig].
  - rewrite N.div_small, pretty_N_go_0 by done.
    exists (String (pretty_N_char (x `mod` 10)) ""). split; [done|].
    cbn [positive_numeral all_digits]. rewrite Hdigit, Hnonzero; [done|].
    rewrite N.mod_small by done. lia.
  - destruct (IH (x `div` 10)%N) with (s := String (pretty_N_char (x `mod` 10)) s)
      as (d & -> & Hd).
    + apply N.div_lt; lia.
    + apply N.div_str_pos. lia.
    + exists (d +:+ String (pretty_N_char (x `mod` 10)) ""). split.
      * by rewrite append_assoc.
      * by apply positive_numeral_snoc.
Qed.

(** [str(n)] is [0], or a positive numeral after an optional sign. *)
Lemma pretty_Z_numeral (n : Z) :
  pretty n = "0"
  ∨ ∃ d, positive_numeral d = true ∧ (pretty n = d ∨ pretty n = String "-" d).
Proof.
  destruct n as [|p|p]; [by left|right..].
  - destruct (pretty_N_go_numeral (Npos p) "") as (d & Hd & Hnum); [lia|].
    exists d. split; [done|]. left.
    change (pretty (Zpos p)) with (pretty_N_go (N.pos p) "").
    by rewrite Hd, append_nil_r.
  - destruct (pretty_N_go_numeral (Npos p) "") as (d & Hd & Hnum); [lia|].
    exists d. split; [done|]. right.
    change (pretty (Zneg p)) with ("-" +:+ pretty_N_go (N.pos p) "").
    by rewrite Hd, append_nil_r.
Qed.









Lemma parse_members_key (fuel : nat) (body : string) :
  parse_members (S fuel) (String dquote body)
  = match parse_chars body with
    | Some (key, s2) =>
        match skip_ws s2 with
        | String ":" s3 =>
            match parse_value fuel s3 with
            | Some (v, s4) =>
                match skip_ws s4 with
                | String "," s5 =>
                    match parse_members fuel s5 with
                    | Some (more, rest) => Some ((key, v) :: more, rest)
                    | None => None
                    end
                | String "}" rest => Some ([(key, v)], rest)
                | _ => None
                end
            | None => None
            end
        | _ => None
        end
    | None => None
    end.
Proof. reflexivity. Qed.






Lemma str_join_length (sep : string) (items : list string) :
  Forall (λ x, 0 < String.length x) items →
  length items ≤ String.length (str_join sep items).
Proof.
  induction 1 as [|x items Hx _ IH]; [done|].
  destruct items as [|y items].
  - simpl. lia.
  - change (str_join sep (x :: y :: items))
      with (x +:+ sep +:+ str_join sep (y :: items)).
    rewrite !length_append. cbn [length] in *. lia.
Qed.




(** ** The keys of the structured output *)












Lemma dict_get_dict_set_ne {V : Type} (key k : string) (v : V)
    (d : list (string * V)) :
  k ≠ key → dict_get key (dict_set k v d) = dict_get key d.
Proof.
  intros Hk. induction d as [|[k' x] d IH]; cbn.
  - by destruct (String.eqb_spec k key).
  - destruct (String.eqb_spec k' k) as [->|Hk']; cbn.
    + by destruct (String.eqb_spec k key).
    + by destruct (String.eqb k' key).
Qed.

Lemma dict_set_keys {V : Type} (key : string) (v : V)
    (d : list (string * V)) :
  NoDup d.*1 → NoDup (dict_set key v d).*1.
Proof.
  induction d as [|[k x] d IH]; cbn.
  - intros _. apply NoDup_singleton.
  - rewrite NoDup_cons. intros [Hk Hd].
    destruct (String.eqb_spec k key) as [->|Hne]; cbn.
    + by apply NoDup_cons.
    + apply NoDup_cons. split; [|by apply IH].
      intros Hin. apply list_elem_of_fmap in Hin as ([k' x'] & -> & Hin).
      clear IH Hd. induction d as [|[k2 x2] d IH]; cbn in *.
      * apply list_elem_of_singleton in Hin. by injection Hin as -> ->.
      * rewrite not_elem_of_cons in Hk. destruct Hk as [Hk2 Hk].
        destruct (String.eqb_spec k2 key) as [->|Hne2].
        -- apply elem_of_cons in Hin as [[= -> ->]|Hin]; [done|].
           apply Hk. by apply (list_elem_of_fmap_2 fst _ (k', x')).
        -- apply elem_of_cons in Hin as [[= -> ->]|Hin]; [done|].
           by apply IH.
Qed.












(** ** [str.upper] *)

Lemma upper_char_idempotent (c : ascii) :
  upper_char (upper_char c) = upper_char c.
Proof. destruct c as [[] [] [] [] [] [] [] []]; reflexivity. Qed.

Lemma upper_idempotent (s : string) : upper (upper s) = upper s.
Proof.
  unfold upper. induction s as [|c s IH]; [done|].
  cbn [map_chars]. by rewrite upper_char_idempotent, IH.
Qed.





(** ** [ConsoleFormatter] in the custom mode *)

Lemma init_custom (ft : string → string → string) (cfmt : string)
    (colors : list string) :
  cfmt ≠ "" →
  ConsoleFormatter.init ft cfmt colors
  = ConsoleFormatter.Make ConsoleFormatter.level_colors colors true "[ "
      (" " +:+ upper cfmt +:+ " ") " %(message)s".
Proof.
  intros Hc. unfold ConsoleFormatter.init.
  by destruct (String.eqb_spec cfmt "").
Qed.

(** X1.  In the custom mode a colour list with one colour is not enough:
    the format of the message needs the second colour, and formatting any
    record raises [IndexError]. *)
Theorem custom_mode_one_color_raises (ft : string → string → string)
    (tz : Z → Z) (s : logging_state) (cfmt color : string)
    (record : LogRecord) :
  cfmt ≠ "" →
  ConsoleFormatter.format ft tz s (ConsoleFormatter.init ft cfmt [color])
    record
  = Raise (IndexError "list index out of range").
Proof.
  intros Hc. unfold ConsoleFormatter.format.
  rewrite (init_custom ft cfmt [color] Hc). reflexivity.
Qed.

Lemma custom_mode_one_color_raises_witness :
  ConsoleFormatter.format ansi_ft utc configured_logging
    (ConsoleFormatter.init ansi_ft "build" ["red"]) plain_warning
  = Raise (IndexError "list index out of range").
Proof.
  apply (custom_mode_one_color_raises ansi_ft utc configured_logging
           "build" "red" plain_warning).
  discriminate.
Defined.


(** ** Building a facade *)

Lemma addLoggingLevel_root_handlers (levelName : string) (levelNum : Z)
    (methodName : option string) (s : logging_state) :
  root_handlers s ≠ 0 →
  root_handlers (addLoggingLevel levelName levelNum methodName s).2
  = root_handlers s.
Proof.
  intros Hr.
  destruct (addLoggingLevel_cases levelName levelNum methodName s)
    as [->|[_ ->]]; [|done].
  cbn [snd]. unfold logging_debug. by rewrite bool_decide_eq_false_2.
Qed.

(** What a successful construction leaves, read off [__init__],
    [configure_logging], [_file_handler], [_console_handler] and
    [setup_logger]. *)
Lemma init_shape (ft : string → string → string) (json_format : bool)
    (log_level : string) (logging_fields : list (string * string))
    (log_to_file : bool) (max_bytes : Z) (p p' : process) (self : MoeLogger.t) :
  MoeLogger.init ft json_format log_level logging_fields log_to_file max_bytes p
  = Ok (self, p') →
  let s2 := (addLoggingLevel "APP_INFO" 56 None
               (addLoggingLevel "TIMER" 55 None (logging p)).2).2 in
  utcnow p' = utcnow p ∧ heap p' = heap p
  ∧ filters (MoeLogger.console_handler self) = []
  ∧ registry (logging p') = registry s2
  ∧ root_handlers (logging p')
    = (if bool_decide (root_handlers s2 = 0)
       then (if log_to_file then 2 else 1) else root_handlers s2)
  ∧ if log_to_file
    then ∃ timestamp log_file,
        strftime "%Y-%m-%d" (fromtimestamp (λ _, 0%Z) (utcnow p))
        = Ok timestamp
        ∧ active_log_file (disk p) timestamp max_bytes = Some log_file
        ∧ MoeLogger.file_handler self
          = Some (MakeHandler (Percent MoeLogger.file_format) 30 []
                    (Some log_file))
        ∧ disk p' = (if isfile (disk p) log_file then disk p
                     else <[log_file := 0%Z]> (disk p))
    else MoeLogger.file_handler self = None ∧ disk p' = disk p.
Proof.
  unfold MoeLogger.init, MoeLogger.configure_logging,
    MoeLogger._file_handler, MoeLogger._console_handler,
    MoeLogger.setup_logger.
  rewrite strftime_date. change (50 + 5)%Z with 55%Z.
  change (50 + 6)%Z with 56%Z.
  set (s2 := (addLoggingLevel "APP_INFO" 56 None _).2).
  destruct log_to_file; simpl.
  - destruct (active_log_file _ _ _) as [log_file|] eqn:Hfile; simpl; [|done].
    destruct (checkLevel _ _); simpl; [|done].
    intros [= <- <-]. simpl.
    destruct (bool_decide (root_handlers s2 = 0)); simpl;
      (split_and!; [done..|]); by eexists _, _.
  - destruct (checkLevel _ _); simpl; [|done].
    intros [= <- <-]. simpl.
    by destruct (bool_decide (root_handlers s2 = 0)).
Qed.



(** X4.  With [log_to_file] the file handler always has the threshold 30
    ([WARNING]) and the JSON-shaped template, whatever level the facade is
    built with; its file is on the disk afterwards, and every file that was
    there keeps its size. *)
Theorem file_handler_threshold_and_disk (ft : string → string → string)
    (json_format : bool) (log_level : string)
    (logging_fields : list (string * string)) (max_bytes : Z)
    (p p' : process) (self : MoeLogger.t) :
  MoeLogger.init ft json_format log_level logging_fields true max_bytes p
  = Ok (self, p') →
  ∃ h path,
    MoeLogger.file_handler self = Some h
    ∧ handler_level h = 30%Z
    ∧ handler_formatter h = Percent MoeLogger.file_format
    ∧ baseFilename h = Some path
    ∧ isfile (disk p') path = true
    ∧ ∀ file size, disk p !! file = Some size → disk p' !! file = Some size.
Proof.
  intros Hinit.
  destruct (init_shape _ _ _ _ _ _ _ _ _ Hinit)
    as (_ & _ & _ & _ & _ & timestamp & log_file & _ & _ & -> & ->).
  eexists _, log_file. split_and!; [done..| |].
  - destruct (isfile (disk p) log_file) eqn:Hf; [done|].
    unfold isfile. rewrite lookup_insert_eq. by apply bool_decide_eq_true_2.
  - intros file size Hsize.
    destruct (isfile (disk p) log_file) eqn:Hf; [done|].
    rewrite lookup_insert_ne; [done|]. intros <-.
    unfold isfile in Hf. rewrite Hsize in Hf.
    apply bool_decide_eq_false in Hf. apply Hf. by eexists.
Qed.

Lemma file_handler_threshold_and_disk_witness :
  ∃ h path,
    MoeLogger.file_handler facade_with_file.1 = Some h
    ∧ handler_level h = 30%Z
    ∧ handler_formatter h = Percent MoeLogger.file_format
    ∧ baseFilename h = Some path
    ∧ isfile (disk facade_with_file.2) path = true
    ∧ ∀ file size,
        disk fresh_process !! file = Some size →
        disk facade_with_file.2 !! file = Some size.
Proof.
  apply (file_handler_threshold_and_disk ansi_ft true "WARNING"
           [("service", "svc_name")] 3145728 fresh_process
           facade_with_file.2 facade_with_file.1).
  vm_compute. reflexivity.
Defined.

(** X5.  Without [log_to_file] the facade has no file handler and the
    disk is left as it is. *)
Theorem console_only_leaves_disk (ft : string → string → string)
    (json_format : bool) (log_level : string)
    (logging_fields : list (string * string)) (max_bytes : Z)
    (p p' : process) (self : MoeLogger.t) :
  MoeLogger.init ft json_format log_level logging_fields false max_bytes p
  = Ok (self, p') →
  MoeLogger.file_handler self = None ∧ disk p' = disk p.
Proof.
  intros Hinit.
  by destruct (init_shape _ _ _ _ _ _ _ _ _ Hinit) as (_ & _ & _ & _ & _ & ?).
Qed.

Lemma console_only_leaves_disk_witness :
  MoeLogger.file_handler console_facade.1 = None
  ∧ disk console_facade.2 = disk fresh_process.
Proof.
  apply (console_only_leaves_disk ansi_ft false "WARNING" [] 3145728
           fresh_process console_facade.2 console_facade.1).
  vm_compute. reflexivity.
Defined.

(** ** Registering severities *)

Lemma addLoggingLevel_true (levelName : string) (levelNum : Z)
    (methodName : option string) (s : logging_state) :
  let m := method_name levelName methodName in
  hasattr (module_attrs s) levelName = false →
  hasattr (module_attrs s) m = false →
  hasattr (logger_class_attrs s) m = false →
  addLoggingLevel levelName levelNum methodName s
  = (true,
     LoggingState
       (<[m := ALogToRoot levelNum]>
          (<[levelName := AInt levelNum]> (module_attrs s)))
       (<[m := ALogForLevel levelNum]> (logger_class_attrs s))
       (<[levelNum := levelName]> (levelToName s))
       (<[levelName := levelNum]> (nameToLevel s))
       (root_handlers s) (default_time_format s) (default_msec_format s)).
Proof.
  intros m H1 H2 H3. unfold addLoggingLevel. fold m.
  by rewrite H1, H2, H3.
Qed.





(** X8.  Registrations never change the rank of a name that is already
    registered: in a state that registrations lead to, whatever the call
    and whether it succeeds or not, every name keeps its rank. *)
Theorem addLoggingLevel_keeps_ranks (levelName : string) (levelNum : Z)
    (methodName : option string) (s : logging_state) (name : string)
    (rank : Z) :
  reachable s →
  nameToLevel s !! name = Some rank →
  nameToLevel (addLoggingLevel levelName levelNum methodName s).2 !! name
  = Some rank.
Proof.
  intros Hs Hname.
  destruct (addLoggingLevel_cases levelName levelNum methodName s)
    as [->|[Hfree ->]]; cbn [snd].
  - unfold logging_debug. by destruct (bool_decide _).
  - cbn [nameToLevel]. rewrite lookup_insert_ne; [done|]. intros <-.
    apply reachable_names_are_attrs in Hs. unfold names_are_attrs in Hs.
    assert (levelName ∈ dom (module_attrs s)) as Hin
      by (apply Hs, elem_of_dom; by eexists).
    apply elem_of_dom in Hin. unfold hasattr in Hfree.
    by apply bool_decide_eq_false in Hfree.
Qed.

Lemma addLoggingLevel_keeps_ranks_witness :
  nameToLevel (addLoggingLevel "DEBUG" 99 None logging_initial).2 !! "DEBUG"
  = Some 10%Z.
Proof.
  apply (addLoggingLevel_keeps_ranks "DEBUG" 99 None logging_initial "DEBUG"
           10).
  - apply reachable_initial.
  - vm_compute. reflexivity.
Defined.

(** X9.  The rank of a new name is not compared with the ranks in use: a
    name registered at the rank of another name shares the rank with it,
    and the rank is displayed under the new name from then on. *)
Theorem addLoggingLevel_shares_rank (levelName old : string) (levelNum : Z)
    (methodName : option string) (s : logging_state) :
  let r := addLoggingLevel levelName levelNum methodName s in
  reachable s →
  nameToLevel s !! old = Some levelNum →
  r.1 = true →
  nameToLevel r.2 !! old = Some levelNum
  ∧ nameToLevel r.2 !! levelName = Some levelNum
  ∧ levelToName r.2 !! levelNum = Some levelName
  ∧ old ≠ levelName.
Proof.
  intros r Hs Hold Htrue. unfold r in *.
  destruct (addLoggingLevel_cases levelName levelNum methodName s)
    as [Hno|[Hfree Hyes]]; [by rewrite Hno in Htrue|].
  assert (old ≠ levelName) as Hne.
  { intros <-. apply reachable_names_are_attrs in Hs.
    unfold names_are_attrs in Hs.
    assert (old ∈ dom (module_attrs s)) as Hin
      by (apply Hs, elem_of_dom; by eexists).
    apply elem_of_dom in Hin. unfold hasattr in Hfree.
    by apply bool_decide_eq_false in Hfree. }
  rewrite Hyes. cbn [snd nameToLevel levelToName].
  rewrite !lookup_insert_eq. split_and!; [|done..].
  by rewrite lookup_insert_ne.
Qed.

Lemma addLoggingLevel_shares_rank_witness :
  let r := addLoggingLevel "TRACE" 10 None logging_initial in
  nameToLevel r.2 !! "DEBUG" = Some 10%Z
  ∧ nameToLevel r.2 !! "TRACE" = Some 10%Z
  ∧ levelToName r.2 !! 10%Z = Some "TRACE"
  ∧ "DEBUG" ≠ "TRACE".
Proof.
  apply (addLoggingLevel_shares_rank "TRACE" "DEBUG" 10 None logging_initial).
  - apply reachable_initial.
  - vm_compute. reflexivity.
  - vm_compute. reflexivity.
Defined.

(** ** The handlers of the root logger *)

Lemma addLoggingLevel_refused_handlers (levelName : string) (levelNum : Z)
    (methodName : option string) (s : logging_state) :
  (addLoggingLevel levelName levelNum methodName s).1 = false →
  root_handlers (addLoggingLevel levelName levelNum methodName s).2
  = (if bool_decide (root_handlers s = 0) then 1 else root_handlers s).
Proof.
  destruct (addLoggingLevel_cases levelName levelNum methodName s)
    as [->|[_ ->]]; [|done].
  intros _. cbn [snd]. unfold logging_debug. by destruct (bool_decide _).
Qed.

Lemma addLoggingLevel_handlers_cases (levelName : string) (levelNum : Z)
    (methodName : option string) (s : logging_state) :
  root_handlers (addLoggingLevel levelName levelNum methodName s).2
  = root_handlers s
  ∨ (root_handlers s = 0
     ∧ root_handlers (addLoggingLevel levelName levelNum methodName s).2 = 1).
Proof.
  destruct (addLoggingLevel_cases levelName levelNum methodName s)
    as [->|[_ ->]]; [|by left].
  cbn [snd]. unfold logging_debug. case_bool_decide; [by right|by left].
Qed.

(** X10.  In a process whose root logger has handlers, building a facade
    installs nothing: the root logger has as many handlers afterwards as
    before, whether the facade has a file handler or not. *)
Theorem init_keeps_installed_handlers (ft : string → string → string)
    (json_format : bool) (log_level : string)
    (logging_fields : list (string * string)) (log_to_file : bool)
    (max_bytes : Z) (p p' : process) (self : MoeLogger.t) :
  MoeLogger.init ft json_format log_level logging_fields log_to_file max_bytes p
  = Ok (self, p') →
  root_handlers (logging p) ≠ 0 →
  root_handlers (logging p') = root_handlers (logging p).
Proof.
  intros Hinit Hr.
  destruct (init_shape _ _ _ _ _ _ _ _ _ Hinit) as (_ & _ & _ & _ & -> & _).
  rewrite !addLoggingLevel_root_handlers;
    rewrite ?addLoggingLevel_root_handlers; try done.
  by rewrite bool_decide_eq_false_2.
Qed.

Lemma init_keeps_installed_handlers_witness :
  root_handlers (logging second_facade.2)
  = root_handlers (logging console_facade.2).
Proof.
  apply (init_keeps_installed_handlers ansi_ft true "DEBUG" [] true 3145728
           console_facade.2 second_facade.2 second_facade.1).
  - vm_compute. reflexivity.
  - vm_compute. discriminate.
Defined.

(** X11.  When one of the two registrations of [configure_logging] is
    refused in a process whose root logger has no handler, the report of
    the refusal through [logging.debug] gives the root logger its default
    handler, and [setup_logger] then installs nothing: the root logger has
    one handler although the facade has a file handler and a console
    handler. *)
Theorem refused_registration_blocks_installation
    (ft : string → string → string) (json_format : bool) (log_level : string)
    (logging_fields : list (string * string)) (max_bytes : Z)
    (p p' : process) (self : MoeLogger.t) :
  let first := addLoggingLevel "TIMER" 55 None (logging p) in
  let second := addLoggingLevel "APP_INFO" 56 None first.2 in
  MoeLogger.init ft json_format log_level logging_fields true max_bytes p
  = Ok (self, p') →
  root_handlers (logging p) = 0 →
  first.1 = false ∨ second.1 = false →
  root_handlers (logging p') = 1
  ∧ is_Some (MoeLogger.file_handler self).
Proof.
  intros first second Hinit Hr Hrefused.
  destruct (init_shape _ _ _ _ _ _ _ _ _ Hinit)
    as (_ & _ & _ & _ & Hroot & ts & lf & _ & _ & Hfile & _).
  split; [|rewrite Hfile; by eexists].
  rewrite Hroot. fold first. fold second.
  assert (root_handlers second.2 = 1) as ->; [|done].
  destruct Hrefused as [H1|H2].
  - pose proof (addLoggingLevel_refused_handlers _ _ _ _ H1) as Hfirst.
    fold first in Hfirst. rewrite Hr in Hfirst. cbn in Hfirst.
    unfold second. rewrite addLoggingLevel_root_handlers; by rewrite Hfirst.
  - pose proof (addLoggingLevel_refused_handlers _ _ _ _ H2) as Hsecond.
    fold second in Hsecond. rewrite Hsecond.
    destruct (addLoggingLevel_handlers_cases "TIMER" 55 None (logging p))
      as [Hsame|[_ Hone]]; fold first in Hsame || fold first in Hone.
    + by rewrite Hsame, Hr.
    + by rewrite Hone.
Qed.

Lemma refused_registration_blocks_installation_witness :
  root_handlers (logging late_facade.2) = 1
  ∧ is_Some (MoeLogger.file_handler late_facade.1).
Proof.
  apply (refused_registration_blocks_installation ansi_ft false "INFO" []
           3145728 process_with_timer late_facade.2 late_facade.1).
  - vm_compute. reflexivity.
  - vm_compute. reflexivity.
  - left. vm_compute. reflexivity.
Defined.

(** X12.  In a process whose root logger has no handler and where the names
    [TIMER], [timer], [APP_INFO] and [app_info] are free, building a facade
    registers [TIMER] at 55 and [APP_INFO] at 56 and installs the handlers
    of the facade on the root logger: two with a file handler, one
    without. *)
Theorem first_facade_registers_and_installs
    (ft : string → string → string) (json_format : bool) (log_level : string)
    (logging_fields : list (string * string)) (log_to_file : bool)
    (max_bytes : Z) (p p' : process) (self : MoeLogger.t) :
  MoeLogger.init ft json_format log_level logging_fields log_to_file max_bytes p
  = Ok (self, p') →
  root_handlers (logging p) = 0 →
  Forall (λ name, hasattr (module_attrs (logging p)) name = false)
    ["TIMER"; "timer"; "APP_INFO"; "app_info"] →
  Forall (λ name, hasattr (logger_class_attrs (logging p)) name = false)
    ["timer"; "app_info"] →
  checkLevel (logging p') "TIMER" = Ok 55%Z
  ∧ checkLevel (logging p') "APP_INFO" = Ok 56%Z
  ∧ levelToName (logging p') !! 55%Z = Some "TIMER"
  ∧ levelToName (logging p') !! 56%Z = Some "APP_INFO"
  ∧ root_handlers (logging p') = (if log_to_file then 2 else 1).
Proof.
  intros Hinit Hr Hmodule Hclass.
  destruct (init_shape _ _ _ _ _ _ _ _ _ Hinit)
    as (_ & _ & _ & Hreg & Hroot & _).
  apply Forall_cons in Hmodule as [HT Hmodule].
  apply Forall_cons in Hmodule as [Ht Hmodule].
  apply Forall_cons in Hmodule as [HA Hmodule].
  apply Forall_cons in Hmodule as [Ha _].
  apply Forall_cons in Hclass as [Hct Hclass].
  apply Forall_cons in Hclass as [Hca _].
  rewrite (addLoggingLevel_true "TIMER" 55 None (logging p)) in Hreg, Hroot
    by done.
  cbn [snd] in Hreg, Hroot.
  rewrite addLoggingLevel_true in Hreg, Hroot;
    try (unfold hasattr in *; cbn [module_attrs logger_class_attrs];
         rewrite !lookup_insert_ne by done; assumption).
  cbn [snd root_handlers] in Hroot. rewrite Hr in Hroot.
  unfold registry in Hreg. cbn in Hreg.
  injection Hreg as Hn Hl _ _. unfold checkLevel. rewrite Hn, Hl, Hroot.
  split_and!; try done.
  all: rewrite ?lookup_insert_eq; try done.
  all: rewrite lookup_insert_ne by done; by rewrite lookup_insert_eq.
Qed.

Lemma first_facade_registers_and_installs_witness :
  checkLevel (logging facade_with_file.2) "TIMER" = Ok 55%Z
  ∧ checkLevel (logging facade_with_file.2) "APP_INFO" = Ok 56%Z
  ∧ levelToName (logging facade_with_file.2) !! 55%Z = Some "TIMER"
  ∧ levelToName (logging facade_with_file.2) !! 56%Z = Some "APP_INFO"
  ∧ root_handlers (logging facade_with_file.2) = (if true then 2 else 1).
Proof.
  apply (first_facade_registers_and_installs ansi_ft true "WARNING"
           [("service", "svc_name")] true 3145728 fresh_process
           facade_with_file.2 facade_with_file.1).
  - vm_compute. reflexivity.
  - reflexivity.
  - apply (bool_decide_unpack _). vm_compute. exact I.
  - apply (bool_decide_unpack _). vm_compute. exact I.
Defined.

(** ** [quick_logger_setup] and [moelogger] *)

Lemma setup_logger_twice (self : MoeLogger.t) (p : process) :
  MoeLogger.setup_logger self (MoeLogger.setup_logger self p)
  = MoeLogger.setup_logger self p.
Proof.
  unfold MoeLogger.setup_logger.
  destruct (bool_decide (root_handlers (logging p) = 0)) eqn:Hr; [|by rewrite Hr].
  cbn [logging root_handlers].
  by destruct (MoeLogger.file_handler self).
Qed.

Lemma recognized_level_threshold_helper (ft : string → string → string)
    (p : process) :
  reachable (logging p) →
  ∃ self p',
    MoeLogger.init ft false "INFO" [] false 3145728 p = Ok (self, p')
    ∧ MoeLogger.level self = "INFO"
    ∧ handler_level (MoeLogger.console_handler self) = 20%Z.
Proof.
  intros Hp. unfold MoeLogger.init.
  set (self0 := MoeLogger.Make _ _ _ _ _ _ _).
  destruct (configure_logging_ok ft self0 p Hp)
    as (self & p' & rv & -> & _ & Hl & Hrv & Hh).
  exists self, (MoeLogger.setup_logger self p'). rewrite bind_Ok.
  split; [done|]. split; [exact Hl|].
  rewrite Hh. vm_compute in Hrv. by injection Hrv.
Qed.

(** X13.  [moelogger(msg, cfmt, colors)] and [quick_logger_setup()] do what
    [MoeLogger(False, 'INFO')] does and nothing more: the facade has the
    level [INFO], rank 20 on the console handler and no file handler, the
    second call of [setup_logger] changes nothing, the disk is untouched;
    the message, the tag and the colours play no part. *)
Theorem moelogger_is_quick_setup (ft : string → string → string)
    (msg cfmt : string) (colors : list string) (p : process) :
  reachable (logging p) →
  ∃ self p',
    MoeLogger.init ft false "INFO" [] false 3145728 p = Ok (self, p')
    ∧ quick_logger_setup ft p = Ok p'
    ∧ moelogger ft msg cfmt colors p = Ok p'
    ∧ MoeLogger.level self = "INFO"
    ∧ handler_level (MoeLogger.console_handler self) = 20%Z
    ∧ MoeLogger.file_handler self = None
    ∧ disk p' = disk p.
Proof.
  intros Hp.
  destruct (recognized_level_threshold_helper ft p Hp)
    as (self & p' & Hinit & Hlevel & Hrank).
  exists self, p'.
  destruct (init_shape _ _ _ _ _ _ _ _ _ Hinit)
    as (_ & _ & _ & _ & _ & Hfile & Hdisk).
  split_and!; try done.
  - unfold quick_logger_setup. change (3 * 1024 * 1024)%Z with 3145728%Z.
    rewrite Hinit, bind_Ok.
    revert Hinit. unfold MoeLogger.init.
    destruct (MoeLogger.configure_logging _ _ _) as [[self1 p1]|];
      [|by rewrite bind_Raise].
    rewrite bind_Ok. intros [= <- <-]. by rewrite setup_logger_twice.
  - unfold moelogger, quick_logger_setup.
    change (3 * 1024 * 1024)%Z with 3145728%Z.
    rewrite Hinit, bind_Ok.
    revert Hinit. unfold MoeLogger.init.
    destruct (MoeLogger.configure_logging _ _ _) as [[self1 p1]|];
      [|by rewrite bind_Raise].
    rewrite bind_Ok. intros [= <- <-]. by rewrite setup_logger_twice.
Qed.

Lemma moelogger_is_quick_setup_witness :
  ∃ self p',
    MoeLogger.init ansi_ft false "INFO" [] false 3145728 fresh_process
    = Ok (self, p')
    ∧ quick_logger_setup ansi_ft fresh_process = Ok p'
    ∧ moelogger ansi_ft "started" "" [] fresh_process = Ok p'
    ∧ MoeLogger.level self = "INFO"
    ∧ handler_level (MoeLogger.console_handler self) = 20%Z
    ∧ MoeLogger.file_handler self = None
    ∧ disk p' = disk fresh_process.
Proof.
  apply (moelogger_is_quick_setup ansi_ft "started" "" [] fresh_process).
  apply reachable_initial.
Defined.

(** ** Attributes of a record *)

Lemma setattr_record_reads_back (key : string) (value : pyval)
    (r r' : LogRecord) :
  setattr_record key value r = Ok r' → dict_item r' key = Ok value.
Proof.
  unfold setattr_record.
  repeat match goal with
         | |- context [String.eqb key ?k] =>
             destruct (String.eqb_spec key k) as [->|?];
               [destruct value as [|b|z|s]; cbn; try discriminate;
                by intros [= <-]|]
         end.
  case_bool_decide as Hu; [done|]. intros [= <-].
  unfold dict_item, typed_attr.
  repeat match goal with
         | |- context [String.eqb key ?k] =>
             destruct (String.eqb_spec key k) as [->|?]; [done|]
         end.
  rewrite bool_decide_eq_false_2 by done. cbn [extra].
  by rewrite lookup_insert_eq.
Qed.

Lemma setattr_record_keeps_others (key other : string) (value : pyval)
    (r r' : LogRecord) :
  other ≠ key →
  setattr_record key value r = Ok r' → dict_item r' other = dict_item r other.
Proof.
  intros Hne. unfold setattr_record.
  repeat match goal with
         | |- context [String.eqb key ?k] =>
             destruct (String.eqb_spec key k) as [->|?];
               [destruct value as [|b|z|s]; cbn; try discriminate;
                intros [= <-]; unfold dict_item, typed_attr;
                repeat match goal with
                       | |- context [String.eqb other ?k] =>
                           destruct (String.eqb_spec other k) as [->|_];
                             [done|]
                       end; done|]
         end.
  case_bool_decide as Hu; [done|]. intros [= <-].
  unfold dict_item, typed_attr. cbn [extra name levelname levelno funcName
    lineno msg exc_text stack_info].
  by rewrite lookup_insert_ne.
Qed.

Lemma setattr_record_keeps_message (key : string) (value : pyval)
    (r r' : LogRecord) :
  key ≠ "msg" →
  setattr_record key value r = Ok r' →
  getMessage r' = getMessage r
  ∧ created r' = created r
  ∧ exc_info r' = exc_info r.
Proof.
  intros Hne. unfold setattr_record.
  repeat match goal with
         | |- context [String.eqb key ?k] =>
             destruct (String.eqb_spec key k) as [->|?];
               [destruct value as [|b|z|s]; cbn; try discriminate;
                by intros [= <-]|]
         end.
  case_bool_decide as Hu; [done|]. by intros [= <-].
Qed.

(** ** [ExtraAttributes.filter] *)

Lemma filter_Raise (e : exn) (extra_attr : list (string * pyval)) :
  foldl (λ acc kv, r ← acc; setattr_record kv.1 kv.2 r) (Raise e) extra_attr
  = Raise e.
Proof. by induction extra_attr. Qed.

Lemma filter_cons (key : string) (value : pyval)
    (extra_attr : list (string * pyval)) (record : LogRecord) :
  ExtraAttributes.filter ((key, value) :: extra_attr) record
  = (r ← setattr_record key value record; ExtraAttributes.filter extra_attr r).
Proof.
  unfold ExtraAttributes.filter. cbn [foldl]. rewrite bind_Ok. cbn [fst snd].
  destruct (setattr_record key value record) as [r|e]; [done|].
  by rewrite filter_Raise.
Qed.

Lemma filter_keeps_others (extra_attr : list (string * pyval)) :
  ∀ record record' other,
    other ∉ extra_attr.*1 →
    ExtraAttributes.filter extra_attr record = Ok record' →
    dict_item record' other = dict_item record other.
Proof.
  induction extra_attr as [|[key value] extra_attr IH];
    intros record record' other Hother.
  - by intros [= <-].
  - rewrite fmap_cons, not_elem_of_cons in Hother.
    destruct Hother as [Hne Hother]. rewrite filter_cons.
    destruct (setattr_record key value record) as [r|e] eqn:Hset; [|done].
    rewrite bind_Ok. intros Hrest. rewrite (IH _ _ _ Hother Hrest).
    by apply (setattr_record_keeps_others key other value record).
Qed.

Lemma filter_reads_back (extra_attr : list (string * pyval)) :
  ∀ record record' key value,
    NoDup extra_attr.*1 →
    (key, value) ∈ extra_attr →
    ExtraAttributes.filter extra_attr record = Ok record' →
    dict_item record' key = Ok value.
Proof.
  induction extra_attr as [|[k v] extra_attr IH];
    intros record record' key value Hnd Hin.
  - by apply elem_of_nil in Hin.
  - rewrite fmap_cons, NoDup_cons in Hnd. destruct Hnd as [Hk Hnd].
    rewrite filter_cons.
    destruct (setattr_record k v record) as [r|e] eqn:Hset; [|done].
    rewrite bind_Ok. intros Hrest.
    apply elem_of_cons in Hin as [[= -> ->]|Hin].
    + rewrite (filter_keeps_others extra_attr r record' k Hk Hrest).
      by apply (setattr_record_reads_back k v record).
    + by apply (IH r record' key value).
Qed.

(** X14.  A record that has passed a filter has every attribute of the
    filter's dictionary, with the value of the dictionary, and its other
    attributes are as they were. *)
Theorem filter_sets_attributes (extra_attr : list (string * pyval))
    (record record' : LogRecord) :
  NoDup extra_attr.*1 →
  ExtraAttributes.filter extra_attr record = Ok record' →
  (∀ key value, (key, value) ∈ extra_attr → dict_item record' key = Ok value)
  ∧ (∀ other, other ∉ extra_attr.*1 →
       dict_item record' other = dict_item record other).
Proof.
  intros Hnd Hfilter. split.
  - intros key value Hin.
    by apply (filter_reads_back extra_attr record record').
  - intros other Hother.
    by apply (filter_keeps_others extra_attr record record').
Qed.

Lemma filter_sets_attributes_witness :
  (∀ key value,
     (key, value) ∈ service_attrs → dict_item filtered_greeting key = Ok value)
  ∧ (∀ other, other ∉ service_attrs.*1 →
       dict_item filtered_greeting other = dict_item greeting other).
Proof.
  apply (filter_sets_attributes service_attrs greeting filtered_greeting).
  - apply (bool_decide_unpack _). vm_compute. exact I.
  - vm_compute. reflexivity.
Defined.

(** ** The values of the structured output *)






(** ** Zero-padded numbers *)






Lemma digits_length (k : nat) (n : N) : String.length (digits k n) = k.
Proof.
  revert n. induction k as [|k IH]; intros n; [done|].
  cbn [digits]. rewrite length_append, IH. cbn [String.length]. lia.
Qed.



(** ** The timestamp within a second *)












(** [default_msec_format % (t, msecs)] with the format of
    [configure_logging]. *)
Lemma msec_format (t : string) (ms : Z) :
  percent_format "%s.%03dZ" (Positional [PStr t; PInt ms])
  = Ok (t +:+ "." +:+ zero_padded 3 ms +:+ "Z").
Proof.
  unfold percent_format. cbv -[pad pretty String.append].
  by rewrite pad_width_0.
Qed.



(** ** The file of the file handler *)

Lemma active_log_file_rollover (fs : gmap string Z) (timestamp : string)
    (max_bytes : Z) (p : string) :
  isfile fs (path_join logs_dir (dated_name timestamp "log")) = true →
  (getsize fs (path_join logs_dir (dated_name timestamp "log")) > max_bytes)%Z →
  active_log_file fs timestamp max_bytes = Some p →
  ∃ n, 1 ≤ n
    ∧ p = path_join logs_dir (numbered_name timestamp n "log")
    ∧ isfile fs p = false
    ∧ ∀ m, 1 ≤ m < n →
        isfile fs (path_join logs_dir (numbered_name timestamp m "log")) = true.
Proof.
  intros Hfile Hsize. unfold active_log_file.
  rewrite Hfile, bool_decide_eq_true_2 by done. simpl andb. cbv iota.
  intros Hp.
  destruct (rollover_loop_Some _ _ _ _ _ _ Hp) as (n & Hn & -> & Hfree & Hbelow).
  by exists n.
Qed.

Lemma active_log_file_within_limit (fs : gmap string Z) (timestamp : string)
    (max_bytes : Z) :
  isfile fs (path_join logs_dir (dated_name timestamp "log")) = false
  ∨ (getsize fs (path_join logs_dir (dated_name timestamp "log")) ≤ max_bytes)%Z →
  active_log_file fs timestamp max_bytes
  = Some (path_join logs_dir (dated_name timestamp "log")).
Proof.
  intros Hcase. unfold active_log_file.
  destruct Hcase as [->|Hsize]; [done|].
  rewrite (bool_decide_eq_false_2 (_ > _)%Z) by lia.
  by rewrite andb_false_r.
Qed.

(** X20.  The size test is strict and is made on the dated file only: when
    [logs/<date>.log] is missing, or is a file of at most [max_bytes]
    bytes, the file handler appends to it, and a file that is already there
    leaves the disk as it is. *)
Theorem file_within_limit_is_reused (ft : string → string → string)
    (json_format : bool) (log_level : string)
    (logging_fields : list (string * string)) (max_bytes : Z)
    (p p' : process) (self : MoeLogger.t) (timestamp : string) :
  let log_file := path_join logs_dir (dated_name timestamp "log") in
  MoeLogger.init ft json_format log_level logging_fields true max_bytes p
  = Ok (self, p') →
  strftime "%Y-%m-%d" (fromtimestamp (λ _, 0%Z) (utcnow p)) = Ok timestamp →
  isfile (disk p) log_file = false
  ∨ (getsize (disk p) log_file ≤ max_bytes)%Z →
  ∃ h,
    MoeLogger.file_handler self = Some h
    ∧ baseFilename h = Some log_file
    ∧ (isfile (disk p) log_file = true → disk p' = disk p)
    ∧ (isfile (disk p) log_file = false →
       disk p' = <[log_file := 0%Z]> (disk p)).
Proof.
  intros log_file Hinit Hts Hcase.
  destruct (init_shape _ _ _ _ _ _ _ _ _ Hinit)
    as (_ & _ & _ & _ & _ & ts & lf & Hts' & Hactive & Hfile & Hdisk).
  rewrite Hts in Hts'. injection Hts' as <-.
  rewrite (active_log_file_within_limit _ _ _ Hcase) in Hactive.
  injection Hactive as <-. fold log_file in Hdisk, Hfile.
  eexists. split; [exact Hfile|]. split; [done|].
  split; intros Hf; by rewrite Hf in Hdisk.
Qed.

Lemma file_within_limit_is_reused_witness :
  let log_file := path_join logs_dir (dated_name "1970-01-01" "log") in
  ∃ h,
    MoeLogger.file_handler full_facade.1 = Some h
    ∧ baseFilename h = Some log_file
    ∧ (isfile (disk full_process) log_file = true →
       disk full_facade.2 = disk full_process)
    ∧ (isfile (disk full_process) log_file = false →
       disk full_facade.2 = <[log_file := 0%Z]> (disk full_process)).
Proof.
  apply (file_within_limit_is_reused ansi_ft false "INFO" [] 3145728
           full_process full_facade.2 full_facade.1 "1970-01-01").
  - vm_compute. reflexivity.
  - vm_compute. reflexivity.
  - right. vm_compute. discriminate.
Defined.

(** X21.  Once [logs/<date>.log] is above [max_bytes], every construction
    with [log_to_file] on that day opens a new numbered file: for a second
    facade built at a later time [now] of the same day, on the disk that
    the first one left, the file has a higher number than the file of the
    first, although the first one was created empty and nothing has been
    written to it. *)
Theorem oversized_file_gives_new_file_each_time
    (ft : string → string → string) (json_format1 json_format2 : bool)
    (log_level1 log_level2 : string)
    (logging_fields1 logging_fields2 : list (string * string))
    (max_bytes now : Z) (p p1 p2 : process) (self1 self2 : MoeLogger.t)
    (timestamp : string) :
  let log_file := path_join logs_dir (dated_name timestamp "log") in
  MoeLogger.init ft json_format1 log_level1 logging_fields1 true max_bytes p
  = Ok (self1, p1) →
  MoeLogger.init ft json_format2 log_level2 logging_fields2 true max_bytes
    (MakeProcess (logging p1) (disk p1) now (heap p1))
  = Ok (self2, p2) →
  strftime "%Y-%m-%d" (fromtimestamp (λ _, 0%Z) (utcnow p)) = Ok timestamp →
  strftime "%Y-%m-%d" (fromtimestamp (λ _, 0%Z) now) = Ok timestamp →
  isfile (disk p) log_file = true →
  (getsize (disk p) log_file > max_bytes)%Z →
  ∃ n1 n2 h1 h2,
    1 ≤ n1 < n2
    ∧ MoeLogger.file_handler self1 = Some h1
    ∧ baseFilename h1
      = Some (path_join logs_dir (numbered_name timestamp n1 "log"))
    ∧ MoeLogger.file_handler self2 = Some h2
    ∧ baseFilename h2
      = Some (path_join logs_dir (numbered_name timestamp n2 "log"))
    ∧ disk p1 !! path_join logs_dir (numbered_name timestamp n1 "log")
      = Some 0%Z.
Proof.
  intros log_file Hinit1 Hinit2 Hts Hlater Hfile Hsize.
  destruct (init_shape _ _ _ _ _ _ _ _ _ Hinit1)
    as (_ & _ & _ & _ & _ & ts1 & lf1 & Hts1 & Hactive1 & Hh1 & Hdisk1).
  destruct (init_shape _ _ _ _ _ _ _ _ _ Hinit2)
    as (_ & _ & _ & _ & _ & ts2 & lf2 & Hts2 & Hactive2 & Hh2 & Hdisk2).
  cbn [utcnow disk] in Hts2, Hactive2, Hdisk2.
  rewrite Hlater in Hts2. injection Hts2 as <-.
  rewrite Hts in Hts1. injection Hts1 as <-.
  destruct (active_log_file_rollover _ _ _ _ Hfile Hsize Hactive1)
    as (n1 & Hn1 & -> & Hfree1 & Hbelow1).
  rewrite Hfree1 in Hdisk1.
  assert (log_file ≠ path_join logs_dir (numbered_name timestamp n1 "log"))
    as Hne by (intros Heq; rewrite <- Heq in Hfree1; congruence).
  assert (∀ f, isfile (disk p) f = true → isfile (disk p1) f = true)
    as Hmono.
  { intros f. rewrite Hdisk1. unfold isfile.
    rewrite !bool_decide_eq_true. intros [x Hx].
    destruct (decide (f = path_join logs_dir (numbered_name timestamp n1 "log")))
      as [->|Hf].
    - rewrite lookup_insert_eq. by eexists.
    - rewrite lookup_insert_ne by done. by eexists. }
  destruct (active_log_file_rollover (disk p1) timestamp max_bytes lf2)
    as (n2 & Hn2 & -> & Hfree2 & Hbelow2); [by apply Hmono| |done|].
  { unfold getsize. rewrite Hdisk1, lookup_insert_ne by done. exact Hsize. }
  exists n1, n2. eexists _, _.
  split_and!; [done| |exact Hh1|done|exact Hh2|done|].
  - destruct (decide (n1 = n2)) as [<-|Hdiff].
    + rewrite Hdisk1 in Hfree2. unfold isfile in Hfree2.
      rewrite lookup_insert_eq in Hfree2.
      apply bool_decide_eq_false in Hfree2. destruct Hfree2. by eexists.
    + destruct (decide (n2 < n1)) as [Hlt|?]; [|lia].
      rewrite (Hmono _ (Hbelow1 n2 (conj Hn2 Hlt))) in Hfree2. done.
  - rewrite Hdisk1. by rewrite lookup_insert_eq.
Qed.

Lemma oversized_file_gives_new_file_each_time_witness :
  ∃ n1 n2 h1 h2,
    1 ≤ n1 < n2
    ∧ MoeLogger.file_handler oversized_facade.1 = Some h1
    ∧ baseFilename h1
      = Some (path_join logs_dir (numbered_name "1970-01-01" n1 "log"))
    ∧ MoeLogger.file_handler oversized_facade_again.1 = Some h2
    ∧ baseFilename h2
      = Some (path_join logs_dir (numbered_name "1970-01-01" n2 "log"))
    ∧ disk oversized_facade.2
        !! path_join logs_dir (numbered_name "1970-01-01" n1 "log")
      = Some 0%Z.
Proof.
  apply (oversized_file_gives_new_file_each_time ansi_ft false true "INFO"
           "DEBUG" [] [] 3145728 3600000000 oversized_process
           oversized_facade.2 oversized_facade_again.2 oversized_facade.1
           oversized_facade_again.1 "1970-01-01").
  - vm_compute. reflexivity.
  - vm_compute. reflexivity.
  - vm_compute. reflexivity.
  - vm_compute. reflexivity.
  - vm_compute. reflexivity.
  - vm_compute. reflexivity.
Defined.

(** ** Messages with arguments *)



(** ** Filters at work *)

Lemma apply_filters_Raise (heap : list (list (string * pyval))) (e : exn)
    (ids : list nat) :
  foldl (λ acc f,
           r ← acc;
           match heap !! f with
           | Some extra_attr => ExtraAttributes.filter extra_attr r
           | None => Raise (Unmodelled "filter object")
           end)
    (Raise e) ids = Raise e.
Proof. by induction ids. Qed.

Lemma apply_filters_cons (heap : list (list (string * pyval))) (f : nat)
    (ids : list nat) (record : LogRecord) :
  apply_filters heap (f :: ids) record
  = (r ← match heap !! f with
         | Some extra_attr => ExtraAttributes.filter extra_attr record
         | None => Raise (Unmodelled "filter object")
         end;
     apply_filters heap ids r).
Proof.
  unfold apply_filters. cbn [foldl]. rewrite bind_Ok.
  destruct (heap !! f) as [d|]; [destruct (ExtraAttributes.filter d record)|];
    by rewrite ?bind_Ok, ?bind_Raise, ?apply_filters_Raise.
Qed.

Lemma dict_get_None {V : Type} (key : string) (d : list (string * V)) :
  dict_get key d = None → key ∉ d.*1.
Proof.
  induction d as [|[k v] d IH]; [intros _; apply not_elem_of_nil|].
  cbn. destruct (String.eqb_spec k key) as [->|Hne]; [done|].
  intros Hget. apply not_elem_of_cons. split; [done|by apply IH].
Qed.

Lemma dict_get_Some {V : Type} (key : string) (v : V)
    (d : list (string * V)) :
  dict_get key d = Some v → (key, v) ∈ d.
Proof.
  induction d as [|[k x] d IH]; [done|].
  cbn. destruct (String.eqb_spec k key) as [->|Hne].
  - intros [= ->]. apply list_elem_of_here.
  - intros Hget. apply list_elem_of_further. by apply IH.
Qed.

Lemma attached_None (heap : list (list (string * pyval))) (field : string)
    (ids : list nat) :
  attached heap field ids = None ↔
  ∀ g, g ∈ ids → heap !! g ≫= dict_get field = None.
Proof.
  induction ids as [|f rest IH]; cbn [attached].
  - split; [|done]. intros _ g Hg. by apply elem_of_nil in Hg.
  - destruct (attached heap field rest) as [v|] eqn:Hrest.
    + split; [done|]. intros Hall.
      assert (Some v = None); [|done]. apply IH. intros g Hg.
      apply Hall. by apply list_elem_of_further.
    + split.
      * intros Hf g [->|Hg]%elem_of_cons; [done|]. by apply IH.
      * intros Hall. apply Hall, list_elem_of_here.
Qed.

Lemma apply_filters_keeps (heap : list (list (string * pyval)))
    (field : string) (ids : list nat) :
  ∀ record record',
    attached heap field ids = None →
    apply_filters heap ids record = Ok record' →
    dict_item record' field = dict_item record field.
Proof.
  induction ids as [|f rest IH]; intros record record' Hnone.
  - by intros [= <-].
  - rewrite apply_filters_cons.
    pose proof (proj1 (attached_None heap field (f :: rest)) Hnone) as Hall.
    pose proof (Hall f (list_elem_of_here _ _)) as Hf.
    destruct (heap !! f) as [d|]; [|done]. cbn in Hf.
    destruct (ExtraAttributes.filter d record) as [r|e] eqn:Hfilter; [|done].
    rewrite bind_Ok. intros Hrest.
    rewrite (IH r record'); [| |done].
    + apply (filter_keeps_others d record r field); [|done].
      by apply dict_get_None.
    + apply attached_None. intros g Hg. apply Hall.
      by apply list_elem_of_further.
Qed.

Lemma apply_filters_attached (heap : list (list (string * pyval)))
    (field : string) (value : pyval) (ids : list nat) :
  ∀ record record',
    (∀ f, f ∈ ids → ∃ d, heap !! f = Some d ∧ NoDup d.*1) →
    attached heap field ids = Some value →
    apply_filters heap ids record = Ok record' →
    dict_item record' field = Ok value.
Proof.
  induction ids as [|f rest IH]; intros record record' Hok; [done|].
  cbn [attached]. rewrite apply_filters_cons.
  destruct (Hok f (list_elem_of_here _ _)) as (d & Hd & Hnd).
  rewrite Hd.
  destruct (ExtraAttributes.filter d record) as [r|e] eqn:Hfilter;
    [|by intros _].
  rewrite bind_Ok.
  assert (∀ g, g ∈ rest → ∃ d, heap !! g = Some d ∧ NoDup d.*1) as Hok'
    by (intros g Hg; by apply Hok, list_elem_of_further).
  destruct (attached heap field rest) as [v|] eqn:Hrest.
  - intros [= ->] Happly. by apply (IH r record').
  - cbn. intros Hget Happly.
    rewrite (apply_filters_keeps heap field rest r record' Hrest Happly).
    apply (filter_reads_back d record r field value Hnd); [|done].
    by apply dict_get_Some.
Qed.

Lemma first_declaring_Some (heap : list (list (string * pyval)))
    (field : string) (ids : list nat) (f : nat) :
  MoeLogger.first_declaring heap field ids = Some f →
  f ∈ ids ∧ ∃ v, heap !! f ≫= dict_get field = Some v ∧ v ≠ PNone.
Proof.
  induction ids as [|g rest IH]; [done|]. cbn [MoeLogger.first_declaring].
  destruct (heap !! g ≫= dict_get field) as [[]|] eqn:Hg.
  - intros [Hin Hv]%IH. split; [by apply list_elem_of_further|done].
  - intros [= <-]. split; [apply list_elem_of_here|]. by eexists.
  - intros [= <-]. split; [apply list_elem_of_here|]. by eexists.
  - intros [= <-]. split; [apply list_elem_of_here|]. by eexists.
  - intros [Hin Hv]%IH. split; [by apply list_elem_of_further|done].
Qed.

Lemma first_declaring_None_inv (heap : list (list (string * pyval)))
    (field : string) (ids : list nat) :
  MoeLogger.first_declaring heap field ids = None →
  ∀ g v, g ∈ ids → heap !! g ≫= dict_get field = Some v → v = PNone.
Proof.
  induction ids as [|f rest IH]; intros Hnone g v Hg.
  - by apply elem_of_nil in Hg.
  - cbn [MoeLogger.first_declaring] in Hnone.
    apply elem_of_cons in Hg as [->|Hg].
    + intros Hv. rewrite Hv in Hnone. by destruct v.
    + apply IH; [|done].
      by destruct (heap !! f ≫= dict_get field) as [[]|].
Qed.

Lemma tidy_ext (heap heap' : list (list (string * pyval))) (ids : list nat) :
  (∀ f, f ∈ ids → heap' !! f = heap !! f) →
  tidy heap ids → tidy heap' ids.
Proof.
  induction ids as [|f rest IH]; [done|]. intros Hsame [Hhead Hrest].
  split.
  - intros k v. rewrite (Hsame f (list_elem_of_here _ _)).
    intros Hv Hne g Hg. rewrite (Hsame g (list_elem_of_further _ _ _ Hg)).
    by apply (Hhead k v).
  - apply IH; [|done]. intros g Hg. by apply Hsame, list_elem_of_further.
Qed.

Lemma attached_ext (heap heap' : list (list (string * pyval)))
    (field : string) (ids : list nat) :
  (∀ f, f ∈ ids → heap' !! f = heap !! f) →
  attached heap' field ids = attached heap field ids.
Proof.
  induction ids as [|f rest IH]; [done|]. intros Hsame. cbn [attached].
  rewrite IH by (intros g Hg; by apply Hsame, list_elem_of_further).
  by rewrite (Hsame f (list_elem_of_here _ _)).
Qed.

Lemma alter_declares (heap : list (list (string * pyval)))
    (field key : string) (value : pyval) (f : nat) :
  alter (dict_set field value) f heap !! f ≫= dict_get key
  = if String.eqb field key
    then (heap !! f ≫= λ _, Some value)
    else heap !! f ≫= dict_get key.
Proof.
  rewrite list_lookup_alter_eq. destruct (heap !! f) as [d|]; cbn.
  - destruct (String.eqb_spec field key) as [->|Hne].
    + apply dict_get_dict_set.
    + by apply dict_get_dict_set_ne.
  - by destruct (String.eqb field key).
Qed.

(** The update in place (lines 150-153). *)
Lemma alter_tidy (heap : list (list (string * pyval))) (field : string)
    (value : pyval) (f : nat) (ids : list nat) :
  NoDup ids → tidy heap ids →
  MoeLogger.first_declaring heap field ids = Some f →
  tidy (alter (dict_set field value) f heap) ids
  ∧ attached (alter (dict_set field value) f heap) field ids = Some value.
Proof.
  set (heap' := alter (dict_set field value) f heap).
  induction ids as [|g rest IH]; [done|].
  intros [Hg Hnd]%NoDup_cons [Hhead Hrest].
  cbn [MoeLogger.first_declaring attached tidy].
  assert (∀ h, h ≠ f → heap' !! h = heap !! h) as Hother
    by (intros h Hh; unfold heap'; by rewrite list_lookup_alter_ne).
  destruct (decide (g = f)) as [->|Hgf].
  - (* the head is the filter that is updated *)
    destruct (heap !! f ≫= dict_get field) as [v|] eqn:Hv.
    2:{ intros Hfirst. apply first_declaring_Some in Hfirst as [Hin _].
        done. }
    destruct (decide (v = PNone)) as [->|Hne].
    { intros Hfirst. apply first_declaring_Some in Hfirst as [Hin _].
      done. }
    intros _.
    assert (∀ h, h ∈ rest → heap' !! h = heap !! h) as Hsame
      by (intros h Hh; apply Hother; by intros ->).
    assert (attached heap' field rest = None) as Hnone.
    { rewrite (attached_ext heap heap' field rest Hsame).
      apply attached_None. intros h Hh. by apply (Hhead field v). }
    split; [split|].
    + intros k v'. unfold heap'. rewrite alter_declares. fold heap'.
      destruct (String.eqb_spec field k) as [->|Hk].
      * intros _ _ h Hh. rewrite (Hsame h Hh). by apply (Hhead k v).
      * intros Hv' Hne' h Hh. rewrite (Hsame h Hh). by apply (Hhead k v').
    + by apply (tidy_ext heap).
    + rewrite Hnone. unfold heap'. rewrite alter_declares.
      rewrite String.eqb_refl. by destruct (heap !! f).
  - (* the filter that is updated comes later *)
    rewrite (Hother g Hgf).
    intros Hfirst.
    assert (MoeLogger.first_declaring heap field rest = Some f) as Hfirst'.
    { destruct (heap !! g ≫= dict_get field) as [[]|]; try done;
        by injection Hfirst as ->. }
    destruct (IH Hnd Hrest Hfirst') as [Htidy Hattached].
    destruct (first_declaring_Some heap field rest f Hfirst')
      as (Hin & v & Hv & Hne).
    split; [split|].
    + intros k v' Hv' Hne' h Hh.
      destruct (decide (h = f)) as [->|Hhf].
      * unfold heap'. rewrite alter_declares.
        pose proof (Hhead k v' Hv' Hne' f Hh) as Hold.
        destruct (String.eqb_spec field k) as [->|Hk]; [|done].
        by rewrite Hold in Hv.
      * rewrite (Hother h Hhf). by apply (Hhead k v').
    + done.
    + by rewrite Hattached.
Qed.

(** A new filter at the end (lines 156-157 and 139-143). *)
Lemma append_tidy (heap : list (list (string * pyval))) (field : string)
    (value : pyval) (ids : list nat) :
  (∀ f, f ∈ ids → f < length heap) → tidy heap ids →
  MoeLogger.first_declaring heap field ids = None →
  tidy (heap ++ [[(field, value)]]) (ids ++ [length heap])
  ∧ attached (heap ++ [[(field, value)]]) field (ids ++ [length heap])
    = Some value.
Proof.
  set (heap' := heap ++ [[(field, value)]]).
  assert (heap' !! length heap = Some [(field, value)]) as Hnew
    by (unfold heap'; by rewrite list_lookup_middle).
  induction ids as [|g rest IH]; intros Hvalid Htidy Hfirst.
  - cbn [app tidy attached]. rewrite Hnew. cbn.
    rewrite String.eqb_refl. split; [|done]. split; [|done].
    intros k v _ _ h Hh. by apply elem_of_nil in Hh.
  - destruct Htidy as [Hhead Hrest].
    assert (heap' !! g = heap !! g) as Hg.
    { unfold heap'. apply lookup_app_l, Hvalid, list_elem_of_here. }
    assert (MoeLogger.first_declaring heap field rest = None) as Hfirst'.
    { cbn [MoeLogger.first_declaring] in Hfirst.
      by destruct (heap !! g ≫= dict_get field) as [[]|]. }
    destruct IH as [Htidy' Hattached]; [|done|done|].
    { intros f Hf. by apply Hvalid, list_elem_of_further. }
    cbn [app tidy attached]. rewrite Hattached. split; [split|]; [|done..].
    intros k v. rewrite Hg. intros Hv Hne h [Hh|Hh]%elem_of_app.
    + unfold heap'. rewrite lookup_app_l
        by (by apply Hvalid, list_elem_of_further).
      by apply (Hhead k v).
    + apply list_elem_of_singleton in Hh as ->. rewrite Hnew. cbn.
      destruct (String.eqb_spec field k) as [->|Hk]; [|done].
      pose proof (first_declaring_None_inv heap k (g :: rest) Hfirst g v
                    (list_elem_of_here _ _) Hv). done.
Qed.

Lemma update_all_Raise (e : exn) (calls : list (list (string * pyval))) :
  foldl (λ acc kwargs, '(self, p) ← acc; MoeLogger.update_filter kwargs self p)
    (Raise e) calls = Raise e.
Proof. by induction calls. Qed.

Lemma update_all_cons (kwargs : list (string * pyval))
    (calls : list (list (string * pyval))) (self : MoeLogger.t) (p : process) :
  update_all (kwargs :: calls) self p
  = ('(self', p') ← MoeLogger.update_filter kwargs self p;
     update_all calls self' p').
Proof.
  unfold update_all. cbn [foldl]. rewrite bind_Ok.
  destruct (MoeLogger.update_filter kwargs self p) as [[self' p']|e];
    [done|by rewrite update_all_Raise].
Qed.

Lemma update_all_snoc (calls : list (list (string * pyval)))
    (kwargs : list (string * pyval)) (self : MoeLogger.t) (p : process) :
  update_all (calls ++ [kwargs]) self p
  = ('(self', p') ← update_all calls self p;
     MoeLogger.update_filter kwargs self' p').
Proof. unfold update_all. by rewrite foldl_app. Qed.

Lemma addFilter_new (h : Handler) (f : nat) :
  f ∉ filters h →
  addFilter h f
  = MakeHandler (handler_formatter h) (handler_level h) (filters h ++ [f])
      (baseFilename h).
Proof. intros Hf. unfold addFilter. by rewrite bool_decide_eq_false_2. Qed.

Lemma filters_addFilter (h1 h2 : Handler) (f : nat) :
  filters h1 = filters h2 →
  filters (addFilter h1 f) = filters (addFilter h2 f).
Proof.
  intros Heq. unfold addFilter. rewrite Heq.
  by destruct (bool_decide (f ∈ filters h2)); cbn; rewrite ?Heq.
Qed.

(** One call keeps the filters of the two handlers equal. *)
Lemma update_filter_shared (kwargs : list (string * pyval))
    (self self' : MoeLogger.t) (p p' : process) :
  MoeLogger.update_filter kwargs self p = Ok (self', p') →
  shared_filters self →
  shared_filters self'
  ∧ (is_Some (MoeLogger.file_handler self)
     → is_Some (MoeLogger.file_handler self')).
Proof.
  unfold MoeLogger.update_filter, MoeLogger._update_filter.
  destruct kwargs as [|[field value] kwargs]; [done|].
  destruct (MoeLogger.first_declaring _ _ _) as [f|].
  - by intros [= <- <-].
  - unfold MoeLogger._add_filter. intros [= <- <-]. unfold shared_filters.
    cbn [MoeLogger.file_handler MoeLogger.console_handler].
    destruct (MoeLogger.file_handler self) as [h|]; [|done].
    intros Hshared. split; [by apply filters_addFilter|by eexists].
Qed.

Lemma update_all_shared (calls : list (list (string * pyval))) :
  ∀ (self self' : MoeLogger.t) (p p' : process),
    update_all calls self p = Ok (self', p') →
    shared_filters self →
    shared_filters self'
    ∧ (is_Some (MoeLogger.file_handler self)
       → is_Some (MoeLogger.file_handler self')).
Proof.
  induction calls as [|kwargs calls IH]; intros self self' p p'.
  - by intros [= <- <-].
  - rewrite update_all_cons.
    destruct (MoeLogger.update_filter kwargs self p) as [[self1 p1]|e]
      eqn:Hupdate; [|done].
    rewrite bind_Ok. intros Hrest Hshared.
    destruct (update_filter_shared _ _ _ _ _ Hupdate Hshared) as [H1 Hf1].
    destruct (IH _ _ _ _ Hrest H1) as [H2 Hf2]. auto.
Qed.

Lemma init_no_filters (ft : string → string → string) (json_format : bool)
    (log_level : string) (logging_fields : list (string * string))
    (log_to_file : bool) (max_bytes : Z) (p p' : process) (self : MoeLogger.t) :
  MoeLogger.init ft json_format log_level logging_fields log_to_file max_bytes p
  = Ok (self, p') →
  filters (MoeLogger.console_handler self) = []
  ∧ shared_filters self
  ∧ (log_to_file = true → is_Some (MoeLogger.file_handler self)).
Proof.
  intros Hinit.
  destruct (init_shape _ _ _ _ _ _ _ _ _ Hinit)
    as (_ & _ & Hconsole & _ & _ & Hfile).
  split; [done|]. unfold shared_filters. rewrite Hconsole.
  destruct log_to_file.
  - destruct Hfile as (ts & lf & _ & _ & -> & _). split; [done|]. by eexists.
  - destruct Hfile as [-> _]. done.
Qed.

(** X23.  The filters are shared: whatever calls of [update_filter] follow
    the construction of a facade with a file handler, the file handler has
    the filters of the console handler, the same objects in the same
    order. *)
Theorem handlers_share_filters (ft : string → string → string)
    (json_format : bool) (log_level : string)
    (logging_fields : list (string * string)) (max_bytes : Z)
    (p0 p p' : process) (self self' : MoeLogger.t)
    (calls : list (list (string * pyval))) :
  MoeLogger.init ft json_format log_level logging_fields true max_bytes p0
  = Ok (self, p) →
  update_all calls self p = Ok (self', p') →
  ∃ h, MoeLogger.file_handler self' = Some h
       ∧ filters h = filters (MoeLogger.console_handler self').
Proof.
  intros Hinit Hupdates.
  destruct (init_no_filters _ _ _ _ _ _ _ _ _ Hinit) as (_ & Hshared & Hfile).
  destruct (update_all_shared calls _ _ _ _ Hupdates Hshared)
    as [Hshared' Hfile'].
  destruct (Hfile' (Hfile eq_refl)) as [h Hh]. exists h. split; [done|].
  unfold shared_filters in Hshared'. by rewrite Hh in Hshared'.
Qed.

Lemma handlers_share_filters_witness :
  ∃ h, MoeLogger.file_handler updated_facade.1 = Some h
       ∧ filters h = filters (MoeLogger.console_handler updated_facade.1).
Proof.
  apply (handlers_share_filters ansi_ft true "WARNING"
           [("service", "svc_name")] 3145728 fresh_process
           facade_with_file.2 updated_facade.2 facade_with_file.1
           updated_facade.1
           (single_field (tenant_updates ++ [("app_name", PStr "billing")]))).
  - vm_compute. reflexivity.
  - vm_compute. reflexivity.
Defined.

(** One call with one keyword argument keeps the filters in order, and
    leaves the value in the last filter that declares the attribute. *)
Lemma update_filter_single (field : string) (value : pyval)
    (self self' : MoeLogger.t) (p p' : process) :
  MoeLogger.update_filter [(field, value)] self p = Ok (self', p') →
  filters_ok (heap p) (filters (MoeLogger.console_handler self)) →
  tidy (heap p) (filters (MoeLogger.console_handler self)) →
  filters_ok (heap p') (filters (MoeLogger.console_handler self'))
  ∧ tidy (heap p') (filters (MoeLogger.console_handler self'))
  ∧ attached (heap p') field (filters (MoeLogger.console_handler self'))
    = Some value.
Proof.
  unfold MoeLogger.update_filter, MoeLogger._update_filter.
  set (ids := filters (MoeLogger.console_handler self)).
  destruct (MoeLogger.first_declaring (heap p) field ids) as [f|] eqn:Hfirst.
  - intros [= <- <-] [Hnd Hok] Htidy. cbn [heap]. fold ids.
    destruct (alter_tidy (heap p) field value f ids Hnd Htidy Hfirst)
      as [Htidy' Hattached].
    split; [|done]. split; [done|]. intros g Hg.
    destruct (Hok g Hg) as (d & Hd & Hdnd).
    destruct (decide (f = g)) as [->|Hne].
    + exists (dict_set field value d). rewrite list_lookup_alter_eq, Hd.
      split; [done|]. by apply dict_set_keys.
    + exists d. by rewrite list_lookup_alter_ne.
  - intros [= <- <-] [Hnd Hok] Htidy.
    assert (∀ g, g ∈ ids → g < length (heap p)) as Hvalid.
    { intros g Hg. destruct (Hok g Hg) as (d & Hd & _).
      by apply lookup_lt_Some in Hd. }
    assert (length (heap p) ∉ ids) as Hnew
      by (intros Hin; apply Hvalid in Hin; lia).
    unfold MoeLogger._add_filter.
    cbn [heap MoeLogger.console_handler]. rewrite addFilter_new by done.
    cbn [filters]. fold ids.
    destruct (append_tidy (heap p) field value ids Hvalid Htidy Hfirst)
      as [Htidy' Hattached].
    split; [|done]. split.
    + apply NoDup_app. split; [done|]. split; [|apply NoDup_singleton].
      intros g Hg ->%list_elem_of_singleton. done.
    + intros g [Hg|Hg]%elem_of_app.
      * destruct (Hok g Hg) as (d & Hd & Hdnd). exists d.
        rewrite lookup_app_l by (by apply Hvalid). done.
      * apply list_elem_of_singleton in Hg as ->.
        exists [(field, value)]. rewrite list_lookup_middle by done.
        split; [done|]. apply NoDup_singleton.
Qed.

Lemma update_all_single (updates : list (string * pyval)) :
  ∀ (self self' : MoeLogger.t) (p p' : process),
    update_all (single_field updates) self p = Ok (self', p') →
    filters_ok (heap p) (filters (MoeLogger.console_handler self)) →
    tidy (heap p) (filters (MoeLogger.console_handler self)) →
    filters_ok (heap p') (filters (MoeLogger.console_handler self'))
    ∧ tidy (heap p') (filters (MoeLogger.console_handler self')).
Proof.
  induction updates as [|[field value] updates IH]; intros self self' p p'.
  - by intros [= <- <-].
  - unfold single_field. rewrite fmap_cons. fold (single_field updates).
    rewrite update_all_cons.
    destruct (MoeLogger.update_filter [(field, value)] self p)
      as [[self1 p1]|e] eqn:Hupdate; [|done].
    rewrite bind_Ok. intros Hrest Hok Htidy.
    destruct (update_filter_single _ _ _ _ _ _ Hupdate Hok Htidy)
      as (Hok1 & Htidy1 & _).
    by apply (IH self1 self' p1 p').
Qed.

(** X24.  After calls of [update_filter] with one keyword argument each on
    a new facade, a record that has passed the filters of a handler of the
    facade, the console handler or the file handler, has the attribute of
    the last call with the value of the last call, also when an earlier
    call gave the attribute the value [None] and a second filter was
    attached. *)
Theorem latest_update_reaches_the_record (ft : string → string → string)
    (json_format : bool) (log_level : string)
    (logging_fields : list (string * string)) (log_to_file : bool)
    (max_bytes : Z) (p0 p p' : process) (self self' : MoeLogger.t)
    (updates : list (string * pyval)) (field : string) (value : pyval)
    (h : Handler) (record record' : LogRecord) :
  MoeLogger.init ft json_format log_level logging_fields log_to_file
    max_bytes p0 = Ok (self, p) →
  update_all (single_field (updates ++ [(field, value)])) self p
  = Ok (self', p') →
  h = MoeLogger.console_handler self' ∨ MoeLogger.file_handler self' = Some h →
  handler_filter (heap p') h record = Ok record' →
  dict_item record' field = Ok value.
Proof.
  intros Hinit Hupdates Hh Hfilter.
  destruct (init_no_filters _ _ _ _ _ _ _ _ _ Hinit) as (Hnone & Hshared & _).
  unfold single_field in Hupdates. rewrite fmap_app in Hupdates.
  fold (single_field updates) in Hupdates. cbn [fmap list_fmap] in Hupdates.
  rewrite update_all_snoc in Hupdates.
  destruct (update_all (single_field updates) self p) as [[self1 p1]|e]
    eqn:Hfirst; [|done].
  rewrite bind_Ok in Hupdates.
  destruct (update_all_single updates self self1 p p1 Hfirst)
    as [Hok1 Htidy1].
  { rewrite Hnone. split; [apply NoDup_nil_2|].
    intros f Hf. by apply elem_of_nil in Hf. }
  { by rewrite Hnone. }
  destruct (update_filter_single _ _ _ _ _ _ Hupdates Hok1 Htidy1)
    as ([_ Hok] & _ & Hattached).
  destruct (update_all_shared (single_field updates) _ _ _ _ Hfirst Hshared)
    as [Hshared1 _].
  destruct (update_filter_shared _ _ _ _ _ Hupdates Hshared1)
    as [Hshared' _].
  assert (filters h = filters (MoeLogger.console_handler self')) as Hids.
  { destruct Hh as [->|Hfile]; [done|].
    unfold shared_filters in Hshared'. by rewrite Hfile in Hshared'. }
  unfold handler_filter in Hfilter. rewrite Hids in Hfilter.
  by apply (apply_filters_attached (heap p') field value
              (filters (MoeLogger.console_handler self')) record record').
Qed.

Lemma latest_update_reaches_the_record_witness :
  dict_item filtered_warning "app_name" = Ok (PStr "billing").
Proof.
  apply (latest_update_reaches_the_record ansi_ft true "WARNING"
           [("service", "svc_name")] true 3145728 fresh_process
           facade_with_file.2 updated_facade.2 facade_with_file.1
           updated_facade.1 tenant_updates "app_name" (PStr "billing")
           updated_file_handler plain_warning filtered_warning).
  - vm_compute. reflexivity.
  - vm_compute. reflexivity.
  - right. vm_compute. reflexivity.
  - vm_compute. reflexivity.
Defined.

(** ** [json.dumps] with an indent *)

Lemma skip_ws_spaces (n : nat) (s : string) :
  skip_ws (repeat_char " " n +:+ s) = skip_ws s.
Proof.
  induction n as [|n IH]; [done|].
  cbn [repeat_char]. by rewrite append_cons.
Qed.

Lemma skip_ws_newline_indent (n : nat) (s : string) :
  skip_ws (String newline (repeat_char " " n) +:+ s) = skip_ws s.
Proof. rewrite append_cons. cbn [skip_ws]. apply skip_ws_spaces. Qed.

Lemma parse_members_skip_ws (fuel : nat) (s s' : string) :
  skip_ws s = skip_ws s' → parse_members fuel s = parse_members fuel s'.
Proof. destruct fuel; [done|]. cbn [parse_members]. by intros ->. Qed.

Lemma parse_value_string (fuel : nat) (v tail : string) :
  parse_value (S fuel) (json_string v +:+ tail) = Some (JString v, tail).
Proof.
  destruct (parse_chars_json_string v tail) as (body & -> & Hbody).
  change (parse_value (S fuel) (String dquote body))
    with (match parse_chars body with
          | Some (text, rest) => Some (JString text, rest)
          | None => None
          end).
  by rewrite Hbody.
Qed.

(** One member with a string value, followed by [tail]. *)
Lemma parse_members_string_member (fuel : nat) (k v tail : string) :
  parse_members (S (S fuel)) ((json_string k +:+ ":" +:+ json_string v) +:+ tail)
  = match skip_ws tail with
    | String "," s5 =>
        match parse_members (S fuel) s5 with
        | Some (more, rest) => Some ((k, JString v) :: more, rest)
        | None => None
        end
    | String "}" rest => Some ([(k, JString v)], rest)
    | _ => None
    end.
Proof.
  rewrite !append_assoc.
  destruct (parse_chars_json_string k (":" +:+ json_string v +:+ tail))
    as (body & Hkey & Hbody).
  rewrite Hkey, parse_members_key, Hbody.
  change (skip_ws (":" +:+ json_string v +:+ tail))
    with (String ":" (json_string v +:+ tail)).
  cbv beta iota. by rewrite parse_value_string.
Qed.

Lemma json_string_head (s tail : string) :
  ∃ body, json_string s +:+ tail = String dquote body.
Proof. unfold json_string. rewrite append_cons. by eexists. Qed.

Lemma str_join_head (sep x tail : string) (items : list string) (c : ascii) :
  (∃ body, x = String c body) →
  ∃ body, str_join sep (x :: items) +:+ tail = String c body.
Proof.
  intros [body ->]. destruct items as [|y items].
  - cbn [str_join]. rewrite append_cons. by eexists.
  - change (str_join sep (String c body :: y :: items))
      with (String c body +:+ sep +:+ str_join sep (y :: items)).
    rewrite !append_cons. by eexists.
Qed.

Lemma parse_members_indented (n : nat) (d : list (string * string))
    (fuel : nat) (rest : string) :
  d ≠ [] → length d < fuel →
  parse_members fuel
    (str_join ("," +:+ String newline (repeat_char " " n))
       ((λ kv : string * pyval, json_string kv.1 +:+ ":" +:+ json_value kv.2)
          <$> string_values d)
     +:+ String newline (String "}" rest))
  = Some ((λ kv : string * string, (kv.1, JString kv.2)) <$> d, rest).
Proof.
  set (sep := "," +:+ String newline (repeat_char " " n)).
  set (item := λ kv : string * pyval,
                 json_string kv.1 +:+ ":" +:+ json_value kv.2).
  set (tail := String newline (String "}" rest)).
  revert fuel; induction d as [|[k v] d IH]; intros fuel Hne Hfuel; [done|].
  destruct fuel as [|[|fuel]]; [simpl in Hfuel; lia..|].
  change (item <$> string_values ((k, v) :: d))
    with ((json_string k +:+ ":" +:+ json_string v)
          :: (item <$> string_values d)).
  destruct d as [|[k' v'] d].
  - change (str_join sep ((json_string k +:+ ":" +:+ json_string v)
                          :: (item <$> string_values [])))
      with (json_string k +:+ ":" +:+ json_string v).
    by rewrite parse_members_string_member.
  - specialize (IH (S fuel)).
    set (J := str_join sep (item <$> string_values ((k', v') :: d))) in *.
    change (str_join sep ((json_string k +:+ ":" +:+ json_string v)
                          :: (item <$> string_values ((k', v') :: d))))
      with ((json_string k +:+ ":" +:+ json_string v) +:+ sep +:+ J).
    rewrite append_assoc, parse_members_string_member.
    rewrite (append_assoc sep J tail).
    change (sep +:+ (J +:+ tail))
      with (String "," (String newline (repeat_char " " n) +:+ (J +:+ tail))).
    change (skip_ws (String "," ?s)) with (String "," s). cbv beta iota.
    rewrite (parse_members_skip_ws (S fuel) _ _
               (skip_ws_newline_indent n (J +:+ tail))).
    rewrite IH; [done|done|]. simpl in *. lia.
Qed.

Lemma parse_value_object_ws (fuel : nat) (s body : string) :
  skip_ws s = String dquote body →
  parse_value (S (S fuel)) (String "{" s)
  = match parse_members (S fuel) (String dquote body) with
    | Some (members, rest) => Some (JObject members, rest)
    | None => None
    end.
Proof.
  intros Hs.
  change (parse_value (S (S fuel)) (String "{" s))
    with (match skip_ws s with
          | String "}" rest => Some (JObject [], rest)
          | s2 =>
              match parse_members (S fuel) s2 with
              | Some (ms, rest) => Some (JObject ms, rest)
              | None => None
              end
          end).
  by rewrite Hs.
Qed.

(** The text that [json.dumps] writes for a dictionary of strings that is
    not empty is read to its end as the object. *)
Lemma parse_value_dumps_indent (n : nat) (kv : string * string)
    (d : list (string * string)) :
  let text := json_dumps (Some n) "," ":" (string_values (kv :: d)) in
  parse_value (S (String.length text)) text
  = Some (JObject ((λ kv : string * string, (kv.1, JString kv.2))
                     <$> kv :: d), "").
Proof.
  set (d' := kv :: d). intros text. unfold text.
  assert (json_dumps (Some n) "," ":" (string_values d')
          = String "{"
              (String newline (repeat_char " " n)
               +:+ (str_join ("," +:+ String newline (repeat_char " " n))
                      ((λ kv : string * pyval,
                          json_string kv.1 +:+ ":" +:+ json_value kv.2)
                         <$> string_values d')
                    +:+ String newline (String "}" "")))) as ->
    by reflexivity.
  set (members := str_join _ _ +:+ _).
  assert (∃ body, members = String dquote body) as [body Hbody].
  { unfold members, d', string_values. rewrite !fmap_cons.
    apply str_join_head. unfold json_string. rewrite append_cons.
    by eexists. }
  cbn [String.length].
  set (fuel := String.length (String newline (repeat_char " " n) +:+ members)).
  rewrite (parse_value_object_ws fuel _ body)
    by (by rewrite skip_ws_newline_indent, Hbody).
  rewrite <- Hbody. unfold members.
  rewrite parse_members_indented; [done|done|].
  apply Nat.lt_succ_r. unfold fuel, members. rewrite !length_append.
  etrans; [|apply Nat.le_add_l]. etrans; [|apply Nat.le_add_r].
  unfold string_values. rewrite <- (length_fmap (λ kv : string * string,
                                                   (kv.1, PStr kv.2)) d').
  rewrite <- (length_fmap (λ kv : string * pyval,
                             json_string kv.1 +:+ ":" +:+ json_value kv.2)).
  apply str_join_length, Forall_fmap, Forall_forall. intros [k v] _.
  unfold compose, json_string. cbn [fst snd]. rewrite append_cons.
  cbn [String.length]. lia.
Qed.

(** X25.  The call of [json.dumps] of line 133, with an indent and the
    separators [","] and [":"], writes a text that reads back as the
    object that was written: for every dictionary of strings, whatever
    characters the strings have, the keys and the values come back in the
    order of the dictionary. *)
Theorem json_dumps_indent_reads_back (n : nat) (d : list (string * string)) :
  json_loads (json_dumps (Some n) "," ":" (string_values d))
  = Some (JObject ((λ kv : string * string, (kv.1, JString kv.2)) <$> d)).
Proof.
  destruct d as [|kv d]; [reflexivity|].
  unfold json_loads. by rewrite (parse_value_dumps_indent n kv d).
Qed.

(** ** The line of the file handler *)




Lemma plain_append (s t : string) : plain (s +:+ t) = plain s && plain t.
Proof.
  induction s as [|c s IH]; [done|].
  rewrite append_cons. cbn [plain]. by rewrite IH, andb_assoc.
Qed.

Lemma plain_repeat_char (c : ascii) (n : nat) :
  plain_char c = true → plain (repeat_char c n) = true.
Proof. intros Hc. induction n as [|n IH]; [done|]. cbn. by rewrite Hc. Qed.

Lemma plain_digits (d : string) : all_digits d = true → plain d = true.
Proof.
  induction d as [|c d IH]; [done|]. cbn [all_digits plain].
  intros [Hc Hd]%andb_prop. rewrite IH by done.
  by destruct c as [[] [] [] [] [] [] [] []].
Qed.

Lemma positive_numeral_digits (d : string) :
  positive_numeral d = true → all_digits d = true.
Proof.
  destruct d as [|c d]; [done|]. cbn [positive_numeral all_digits].
  intros [[Hc _]%andb_prop Hd]%andb_prop. by rewrite Hc.
Qed.

Lemma plain_pretty (n : Z) : plain (pretty n) = true.
Proof.
  destruct (pretty_Z_numeral n) as [-> | (d & Hd & [-> | ->])]; [done|..].
  - by apply plain_digits, positive_numeral_digits.
  - cbn [plain]. by rewrite plain_digits by (by apply positive_numeral_digits).
Qed.

Lemma plain_pad (sp : conv_spec) (numeric : bool) (text : string) :
  plain text = true → plain (pad sp numeric text) = true.
Proof.
  intros Ht. unfold pad.
  destruct (sp_minus sp).
  - by rewrite plain_append, Ht, plain_repeat_char.
  - destruct (sp_zero sp && numeric).
    + destruct text as [|c digits].
      * by rewrite plain_append, plain_repeat_char.
      * assert (plain (repeat_char "0" (sp_width sp - String.length (String c digits))
                       +:+ String c digits) = true) as Hall
          by (by rewrite plain_append, Ht, plain_repeat_char).
        cbn [plain] in Ht. apply andb_prop in Ht as [Hc Hd].
        destruct c as [[] [] [] [] [] [] [] []]; try exact Hall.
        cbn [plain]. by rewrite plain_append, Hd, plain_repeat_char.
    + by rewrite plain_append, Ht, plain_repeat_char.
Qed.

Lemma plain_zero_padded (k : nat) (n : Z) : plain (zero_padded k n) = true.
Proof. apply plain_pad, plain_pretty. Qed.

(** The time that the formatters print with the formats of
    [configure_logging]. *)
Lemma formatTime_configured_shape (tz : Z → Z) (s : logging_state)
    (r : LogRecord) :
  configured s →
  ∃ t, formatTime tz s r = Ok t ∧ plain t = true.
Proof.
  intros [Htime Hmsec]. unfold formatTime. rewrite Htime, Hmsec.
  set (dt := fromtimestamp tz (created r)).
  change (strftime "%Y-%m-%dT%H:%M:%S" dt)
    with (Ok (pretty (year dt) +:+ "-" +:+ zero_padded 2 (month dt) +:+ "-"
              +:+ zero_padded 2 (day dt) +:+ "T" +:+ zero_padded 2 (hour dt)
              +:+ ":" +:+ zero_padded 2 (minute dt) +:+ ":"
              +:+ zero_padded 2 (second dt) +:+ "")).
  rewrite bind_Ok. cbn [String.eqb Ascii.eqb Bool.eqb].
  rewrite msec_format. eexists. split; [done|].
  by rewrite !plain_append, !plain_zero_padded, plain_pretty.
Qed.

Lemma eval_file_tokens (r : LogRecord) (m t : string) (v : pyval) :
  dict_item r "app_name" = Ok v →
  eval_tokens (formatted_dict r m (Some t)) file_tokens
  = Ok (file_line t (py_str v) (levelname r)
          ("[" +:+ name r +:+ " | " +:+ funcName r +:+ " | LN"
           +:+ pretty (lineno r) +:+ "]: " +:+ m)).
Proof.
  intros Happ. unfold file_tokens. cbn [eval_tokens].
  replace (formatted_dict r m (Some t) "asctime") with (Ok (PStr t))
    by reflexivity.
  replace (formatted_dict r m (Some t) "app_name")
    with (dict_item r "app_name") by reflexivity.
  replace (formatted_dict r m (Some t) "levelname")
    with (Ok (PStr (levelname r))) by reflexivity.
  replace (formatted_dict r m (Some t) "name") with (Ok (PStr (name r)))
    by reflexivity.
  replace (formatted_dict r m (Some t) "funcName")
    with (Ok (PStr (funcName r))) by reflexivity.
  replace (formatted_dict r m (Some t) "lineno")
    with (Ok (PInt (lineno r))) by reflexivity.
  replace (formatted_dict r m (Some t) "message") with (Ok (PStr m))
    by reflexivity.
  rewrite Happ, !bind_Ok.
  cbn [convert_value Ascii.eqb Bool.eqb py_str]. rewrite !bind_Ok.
  f_equal. unfold file_line, quoted, json_string.
  cbn [escape escape_char].
  repeat first [rewrite append_assoc | rewrite append_cons
               | rewrite append_nil_l].
  reflexivity.
Qed.

Lemma Formatter_format_file_line (tz : Z → Z) (s : logging_state)
    (r : LogRecord) (m t : string) (v : pyval) :
  formatTime tz s r = Ok t →
  dict_item r "app_name" = Ok v →
  getMessage r = Ok m →
  exc_info r = None → exc_text r = None → stack_info r = None →
  Formatter_format tz s MoeLogger.file_format r
  = Ok (file_line t (py_str v) (levelname r)
          ("[" +:+ name r +:+ " | " +:+ funcName r +:+ " | LN"
           +:+ pretty (lineno r) +:+ "]: " +:+ m)).
Proof.
  intros Ht Happ Hm He Hx Hs. unfold Formatter_format.
  rewrite file_format_valid, file_format_usesTime. cbn [negb].
  rewrite Hm, bind_Ok, Ht, !bind_Ok. unfold style_format.
  rewrite <- render_file_tokens.
  rewrite percent_format_render by exact tokens_ok.
  rewrite (eval_file_tokens r m t v Happ), bind_Ok.
  by rewrite He, Hx, Hs.
Qed.

(** X26.  With the time formats of [configure_logging], a record that has
    the attribute [app_name], a message that renders and no exception or
    stack text is formatted by the file formatter: the line is the
    template with the time, the application name, the level name and the
    bracketed message put between its quotes as they are, without
    escaping. *)
Theorem file_line_with_app_name (tz : Z → Z) (s : logging_state)
    (r : LogRecord) (m : string) (v : pyval) :
  configured s →
  dict_item r "app_name" = Ok v →
  getMessage r = Ok m →
  exc_info r = None → exc_text r = None → stack_info r = None →
  ∃ t,
    formatTime tz s r = Ok t
    ∧ Formatter_format tz s MoeLogger.file_format r
      = Ok (file_line t (py_str v) (levelname r)
              ("[" +:+ name r +:+ " | " +:+ funcName r +:+ " | LN"
               +:+ pretty (lineno r) +:+ "]: " +:+ m)).
Proof.
  intros Hconf Happ Hm He Hx Hs.
  destruct (formatTime_configured_shape tz s r Hconf) as (t & Ht & _).
  exists t. split; [done|].
  by apply Formatter_format_file_line.
Qed.

Lemma file_line_with_app_name_witness :
  ∃ t,
    formatTime utc configured_logging billing_warning = Ok t
    ∧ Formatter_format utc configured_logging MoeLogger.file_format
        billing_warning
      = Ok (file_line t (py_str (PStr "billing")) (levelname billing_warning)
              ("[" +:+ name billing_warning +:+ " | "
               +:+ funcName billing_warning +:+ " | LN"
               +:+ pretty (lineno billing_warning) +:+ "]: "
               +:+ "disk almost full")).
Proof.
  apply (file_line_with_app_name utc configured_logging billing_warning
           "disk almost full" (PStr "billing")).
  - split; vm_compute; reflexivity.
  - vm_compute. reflexivity.
  - reflexivity.
  - reflexivity.
  - reflexivity.
  - reflexivity.
Defined.





(** ** From [update_filter] to the file *)




